(** * Intervals.icu MCP server: a shallow embedding of the tool handlers

    The development follows the Python sources of the repository:

    - [tools/events.py]     : [get_events], [get_event_by_id],
                              [convert_duration], [post_events];
    - [tools/activities.py] : [get_activities], [get_activity_details],
                              [get_activity_intervals];
    - [utils/functions.py]  : [make_intervals_request], [post_intervals_data];
    - [config/defaults.py]  : the process-wide [settings].

    Python values are an inductive type of JSON-like data, exceptions are
    an explicit result type, and the calls a handler makes to the HTTP
    gateway are recorded in the state threaded through a small monad. *)

From Stdlib Require Import ZArith List Bool Ascii String Lia Arith.
From Stdlib Require Import Floats.SpecFloat.
Import ListNotations.

Set Warnings "-register-all".

Local Open Scope string_scope.
Local Open Scope Z_scope.

(* ================================================================== *)
(** * Python values, exceptions and results *)
(* ================================================================== *)

(** The values a handler manipulates: what [json.loads] produces, plus
    the handlers' own strings and numbers.  A [dict] is kept as its list
    of items in insertion order, which is the order [dict.items()]
    iterates in. *)
Inductive pyval : Type :=
| PNone
| PBool (b : bool)
| PInt (z : Z)
| PFloat (f : spec_float)
| PStr (s : string)
| PList (l : list pyval)
| PDict (d : list (string * pyval)).

(** The exception classes the modelled code can raise. *)
Inductive exn : Type :=
| TypeError
| ValueError
| KeyError
| AttributeError
| NameError
| OverflowError.

(** Outcome of evaluating a Python expression. *)
Inductive res (A : Type) : Type :=
| Ret (a : A)
| Raise (e : exn).
Arguments Ret {A} a.
Arguments Raise {A} e.

Definition rbind {A B} (m : res A) (k : A -> res B) : res B :=
  match m with
  | Ret a => k a
  | Raise e => Raise e
  end.

Declare Scope res_scope.
Delimit Scope res_scope with res.
Notation "x <- m ;; k" := (rbind m (fun x => k))
  (at level 61, m at next level, right associativity) : res_scope.

(* ================================================================== *)
(** * Strings *)
(* ================================================================== *)

(** A string is a sequence of code points below 256; text with other
    code points is outside the model. *)
Module Str.

(** [s.startswith(p)] *)
Fixpoint startswith (p s : string) : bool :=
  match p, s with
  | EmptyString, _ => true
  | String a p', String b s' => Ascii.eqb a b && startswith p' s'
  | String _ _, EmptyString => false
  end.

(** [needle in s] for two strings. *)
Fixpoint contains (needle s : string) : bool :=
  startswith needle s ||
  match s with
  | EmptyString => false
  | String _ s' => contains needle s'
  end.

(** [s.endswith(p)] *)
Fixpoint endswith (p s : string) : bool :=
  String.eqb p s ||
  match s with
  | EmptyString => false
  | String _ s' => endswith p s'
  end.

(** [s.replace(old, new)] for a non-empty [old]: every occurrence, found
    left to right without overlap, is replaced.  [skip] counts the
    characters of a match still to be dropped. *)
Fixpoint replace_from (skip : nat) (old new s : string) : string :=
  match s with
  | EmptyString => EmptyString
  | String c s' =>
      match skip with
      | S k => replace_from k old new s'
      | O =>
          if startswith old s
          then new ++ replace_from (Nat.pred (String.length old)) old new s'
          else String c (replace_from O old new s')
      end
  end.

(** With an empty [old] Python inserts [new] before every character and
    at the end. *)
Fixpoint intersperse (new s : string) : string :=
  match s with
  | EmptyString => new
  | String c s' => new ++ String c (intersperse new s')
  end.

Definition replace (old new s : string) : string :=
  match old with
  | EmptyString => intersperse new s
  | _ => replace_from O old new s
  end.

(** The characters [str.isspace()] holds of, which [str.strip()]
    removes: tab to carriage return, the four separators, the space,
    NEL and the no-break space. *)
Definition is_space (c : ascii) : bool :=
  let n := nat_of_ascii c in
  ((9 <=? n) && (n <=? 13) || (28 <=? n) && (n <=? 32)
   || (n =? 133) || (n =? 160))%nat.

(** Removal of the leading characters that are [blank]. *)
Fixpoint lstrip (blank : ascii -> bool) (l : list ascii) : list ascii :=
  match l with
  | c :: t => if blank c then lstrip blank t else l
  | [] => []
  end.

Definition strip_chars (blank : ascii -> bool) (l : list ascii)
  : list ascii :=
  rev (lstrip blank (rev (lstrip blank l))).

(** [s.strip()] *)
Definition strip (s : string) : string :=
  string_of_list_ascii (strip_chars is_space (list_ascii_of_string s)).

(** [sep.join(parts)] *)
Fixpoint join (sep : string) (parts : list string) : string :=
  match parts with
  | [] => ""
  | [p] => p
  | p :: rest => p ++ sep ++ join sep rest
  end.

(** Code-point comparison [a < b] of two strings. *)
Fixpoint ltb (a b : string) : bool :=
  match a, b with
  | _, EmptyString => false
  | EmptyString, String _ _ => true
  | String x a', String y b' =>
      let nx := nat_of_ascii x in
      let ny := nat_of_ascii y in
      ((nx <? ny) || (nx =? ny) && ltb a' b')%nat
  end.

Definition lower (c : ascii) : ascii :=
  let n := nat_of_ascii c in
  if ((65 <=? n) && (n <=? 90))%nat then ascii_of_nat (n + 32) else c.

End Str.

(* ================================================================== *)
(** * Numbers: [int()], [float()] and arithmetic *)
(* ================================================================== *)

Module Num.

Definition prec : Z := 53.
Definition emax : Z := 1024.

(** [float(z)] for an integer that fits; the caller checks for overflow. *)
Definition float_of_Z (z : Z) : spec_float :=
  binary_normalize prec emax z 0 false.

Definition digit_of (c : ascii) : option nat :=
  let n := nat_of_ascii c in
  if ((48 <=? n) && (n <=? 57))%nat then Some (n - 48)%nat else None.

(** A [digitpart] of Python's numeric grammar: digits, with single
    underscores allowed between two digits.  Returns the digits. *)
Fixpoint digitpart_from (after_digit : bool) (l : list ascii)
  : option (list nat) :=
  match l with
  | [] => if after_digit then Some [] else None
  | c :: t =>
      match digit_of c with
      | Some d => option_map (cons d) (digitpart_from true t)
      | None =>
          if Ascii.eqb c "_" && after_digit
          then digitpart_from false t
          else None
      end
  end.

Definition digitpart (l : list ascii) : option (list nat) :=
  digitpart_from false l.

Definition value_of (ds : list nat) : Z :=
  fold_left (fun acc d => 10 * acc + Z.of_nat d) ds 0.

(** The characters [int()] and [float()] skip around a number: tab to
    carriage return, the space, NEL and the no-break space.  The four
    separators 0x1C to 0x1F, which [str.strip()] removes, are not among
    them. *)
Definition is_blank (c : ascii) : bool :=
  let n := nat_of_ascii c in
  ((9 <=? n) && (n <=? 13) || (n =? 32) || (n =? 133) || (n =? 160))%nat.

(** An optional leading sign. *)
Definition split_sign (l : list ascii) : bool * list ascii :=
  match l with
  | "-"%char :: t => (true, t)
  | "+"%char :: t => (false, t)
  | _ => (false, l)
  end.

(** The most digits [int()] converts, zeros included: the default of
    [sys.get_int_max_str_digits()]. *)
Definition max_str_digits : Z := 4300.

(** [int(s)] in base ten: [None] stands for [ValueError]. *)
Definition int_of_chars (l : list ascii) : option Z :=
  let '(neg, body) := split_sign (Str.strip_chars is_blank l) in
  match digitpart body with
  | Some ds =>
      if max_str_digits <? Z.of_nat (List.length ds) then None
      else Some (if neg then - value_of ds else value_of ds)
  | None => None
  end.

Definition py_int (s : string) : option Z :=
  int_of_chars (list_ascii_of_string s).

(** Splitting at the first character satisfying [p]. *)
Fixpoint split_at (p : ascii -> bool) (l : list ascii)
  : list ascii * option (list ascii) :=
  match l with
  | [] => ([], None)
  | c :: t =>
      if p c then ([], Some t)
      else let '(a, b) := split_at p t in (c :: a, b)
  end.

Definition is_dot (c : ascii) : bool := Ascii.eqb c ".".
Definition is_exp (c : ascii) : bool := Ascii.eqb c "e" || Ascii.eqb c "E".

(** [number ::= [digitpart] "." digitpart | digitpart ["."]]: the digits
    before and after the point. *)
Definition number_digits (l : list ascii) : option (list nat * list nat) :=
  match split_at is_dot l with
  | (ip, None) =>
      match digitpart ip with Some ds => Some (ds, []) | None => None end
  | ([], Some fp) =>
      match digitpart fp with Some fs => Some ([], fs) | None => None end
  | (ip, Some []) =>
      match digitpart ip with Some ds => Some (ds, []) | None => None end
  | (ip, Some fp) =>
      match digitpart ip, digitpart fp with
      | Some ds, Some fs => Some (ds, fs)
      | _, _ => None
      end
  end.

(** [exponent ::= ("e" | "E") [sign] digitpart]: the part after the
    letter. *)
Definition exponent_value (l : list ascii) : option Z :=
  let '(neg, body) := split_sign l in
  match digitpart body with
  | Some ds => Some (if neg then - value_of ds else value_of ds)
  | None => None
  end.

(** The binary64 number nearest to [m * 10 ^ e10] (ties to even), for
    [m > 0]. *)
Definition round_decimal (neg : bool) (m : positive) (e10 : Z) : spec_float :=
  match e10 with
  | Zneg p =>
      let '(q, e, l) :=
        SFdiv_core_binary prec emax (Zpos m) 0 (Zpos (Pos.pow 10 p)) 0 in
      binary_round_aux prec emax neg q e l
  | _ => binary_round prec emax neg (Pos.mul m (Z.to_pos (10 ^ e10))) 0
  end.

Definition float_of_decimal (neg : bool) (ds fs : list nat) (e : Z)
  : spec_float :=
  match value_of (ds ++ fs) with
  | Zpos m => round_decimal neg m (e - Z.of_nat (List.length fs))
  | _ => S754_zero neg
  end.

Definition lowered (l : list ascii) : string :=
  string_of_list_ascii (map Str.lower l).

(** [float(s)]: [None] stands for [ValueError]. *)
Definition float_of_chars (l : list ascii) : option spec_float :=
  let '(neg, body) := split_sign (Str.strip_chars is_blank l) in
  let low := lowered body in
  if String.eqb low "inf" || String.eqb low "infinity"
  then Some (S754_infinity neg)
  else if String.eqb low "nan" then Some S754_nan
  else
    match split_at is_exp body with
    | (mant, None) =>
        match number_digits mant with
        | Some (ds, fs) => Some (float_of_decimal neg ds fs 0)
        | None => None
        end
    | (mant, Some ex) =>
        match number_digits mant, exponent_value ex with
        | Some (ds, fs), Some e => Some (float_of_decimal neg ds fs e)
        | _, _ => None
        end
    end.

Definition py_float (s : string) : option spec_float :=
  float_of_chars (list_ascii_of_string s).

End Num.

(* ================================================================== *)
(** * Built-in operations on values *)
(* ================================================================== *)

Module Py.

(** [bool(v)] *)
Definition truthy (v : pyval) : bool :=
  match v with
  | PNone => false
  | PBool b => b
  | PInt z => negb (z =? 0)
  | PFloat (S754_zero _) => false
  | PFloat _ => true
  | PStr s => negb (String.eqb s "")
  | PList l => match l with [] => false | _ => true end
  | PDict d => match d with [] => false | _ => true end
  end.

(** [v == s] for a string literal [s]. *)
Definition eq_str (v : pyval) (s : string) : bool :=
  match v with
  | PStr t => String.eqb t s
  | _ => false
  end.

Definition is_dict (v : pyval) : bool :=
  match v with PDict _ => true | _ => false end.

Fixpoint lookup (k : string) (d : list (string * pyval)) : option pyval :=
  match d with
  | [] => None
  | (k', v) :: rest => if String.eqb k k' then Some v else lookup k rest
  end.

Definition has_key (k : string) (d : list (string * pyval)) : bool :=
  match lookup k d with Some _ => true | None => false end.

(** [d.get(k)] on a dict: [None] when the key is absent. *)
Definition dict_get (k : string) (d : list (string * pyval)) : pyval :=
  match lookup k d with Some v => v | None => PNone end.

(** [d.get(k, default)] *)
Definition dict_get_or (k : string) (default : pyval)
  (d : list (string * pyval)) : pyval :=
  match lookup k d with Some v => v | None => default end.

(** [s in v] for a string [s]: substring test on a string, membership on
    a list, key test on a dict, [TypeError] on anything else. *)
Definition contains (s : string) (v : pyval) : res bool :=
  match v with
  | PStr t => Ret (Str.contains s t)
  | PList l => Ret (existsb (fun x => eq_str x s) l)
  | PDict d => Ret (has_key s d)
  | _ => Raise TypeError
  end.

(** [v.replace(old, new)]: only strings have the method. *)
Definition replace (v : pyval) (old new : string) : res pyval :=
  match v with
  | PStr t => Ret (PStr (Str.replace old new t))
  | _ => Raise AttributeError
  end.

(** [v.endswith(p)]: only strings have the method. *)
Definition endswith (v : pyval) (p : string) : res bool :=
  match v with
  | PStr t => Ret (Str.endswith p t)
  | _ => Raise AttributeError
  end.

(** [v.get(k, default)]: only dicts have the method. *)
Definition get (v : pyval) (k : string) (default : pyval) : res pyval :=
  match v with
  | PDict d => Ret (dict_get_or k default d)
  | _ => Raise AttributeError
  end.

(** [v[k]] for a string key. *)
Definition getitem (v : pyval) (k : string) : res pyval :=
  match v with
  | PDict d =>
      match lookup k d with Some x => Ret x | None => Raise KeyError end
  | _ => Raise TypeError
  end.

Fixpoint chars (s : string) : list pyval :=
  match s with
  | EmptyString => []
  | String c s' => PStr (String c EmptyString) :: chars s'
  end.

(** The items a [for] loop over [v] visits. *)
Definition iter (v : pyval) : res (list pyval) :=
  match v with
  | PList l => Ret l
  | PStr s => Ret (chars s)
  | PDict d => Ret (map (fun kv => PStr (fst kv)) d)
  | _ => Raise TypeError
  end.

(** Truncation of a finite float towards zero. *)
Definition trunc (s : bool) (m : positive) (e : Z) : Z :=
  let a := match e with
           | Zneg p => Z.shiftr (Zpos m) (Zpos p)
           | _ => Z.shiftl (Zpos m) e
           end in
  if s then - a else a.

(** [int(v)] *)
Definition int (v : pyval) : res Z :=
  match v with
  | PStr s =>
      match Num.py_int s with Some z => Ret z | None => Raise ValueError end
  | PInt z => Ret z
  | PBool b => Ret (if b then 1 else 0)
  | PFloat (S754_zero _) => Ret 0
  | PFloat (S754_finite s m e) => Ret (trunc s m e)
  | PFloat (S754_infinity _) => Raise OverflowError
  | PFloat S754_nan => Raise ValueError
  | _ => Raise TypeError
  end.

(** Conversion of an integer operand to float in mixed arithmetic. *)
Definition float_of_int (z : Z) : res spec_float :=
  match Num.float_of_Z z with
  | S754_infinity _ => Raise OverflowError
  | f => Ret f
  end.

(** [float(v)] *)
Definition float (v : pyval) : res spec_float :=
  match v with
  | PStr s =>
      match Num.py_float s with Some f => Ret f | None => Raise ValueError end
  | PInt z => float_of_int z
  | PBool b => Ret (Num.float_of_Z (if b then 1 else 0))
  | PFloat f => Ret f
  | _ => Raise TypeError
  end.

(** [a + b] on numbers, as [sum] uses it, starting from the integer 0. *)
Definition add (a b : pyval) : res pyval :=
  match a, b with
  | PInt x, PInt y => Ret (PInt (x + y))
  | PInt x, PFloat g =>
      (f <- float_of_int x ;; Ret (PFloat (SFadd Num.prec Num.emax f g)))%res
  | PFloat f, PInt y =>
      (g <- float_of_int y ;; Ret (PFloat (SFadd Num.prec Num.emax f g)))%res
  | PFloat f, PFloat g => Ret (PFloat (SFadd Num.prec Num.emax f g))
  | _, _ => Raise TypeError
  end.

(** Evaluation of a comprehension or loop body over every item, stopping
    at the first exception. *)
Fixpoint mapM {A B} (f : A -> res B) (l : list A) : res (list B) :=
  match l with
  | [] => Ret []
  | x :: rest => (y <- f x ;; ys <- mapM f rest ;; Ret (y :: ys))%res
  end.

End Py.

(* ================================================================== *)
(** * [tools/events.py]: duration conversion *)
(* ================================================================== *)

Module Duration.

(** [convert_duration(duration)], on whatever value a step carries. *)
Definition convert_duration (duration : pyval) : res pyval :=
  (km <- Py.contains "km" duration ;;
   if km then
     t <- Py.replace duration "km" "" ;;
     f <- Py.float t ;;
     Ret (PFloat (SFmul Num.prec Num.emax f (Num.float_of_Z 1000)))
   else
     m <- Py.contains "m" duration ;;
     minutes <- (if m then e <- Py.endswith duration "km" ;; Ret (negb e)
                 else Ret false) ;;
     if minutes then
       t <- Py.replace duration "m" "" ;;
       z <- Py.int t ;;
       Ret (PInt (z * 60))
     else
       s <- Py.contains "s" duration ;;
       if s then
         t <- Py.replace duration "s" "" ;;
         z <- Py.int t ;;
         Ret (PInt z)
       else
         z <- Py.int duration ;;
         Ret (PInt z))%res.

(** The string without its last [n] characters. *)
Definition drop_suffix (n : nat) (s : string) : string :=
  String.substring 0 (String.length s - n) s.

(** The rule as the specification words it, by suffix: a trailing [km]
    gives the numeric prefix times 1000 as a float, a trailing [m] the
    prefix times 60, a trailing [s] the prefix, and any other string is
    read as a bare integer. *)
Definition suffix_rule (s : string) : res pyval :=
  (if Str.endswith "km" s then
     f <- Py.float (PStr (drop_suffix 2 s)) ;;
     Ret (PFloat (SFmul Num.prec Num.emax f (Num.float_of_Z 1000)))
   else if Str.endswith "m" s then
     z <- Py.int (PStr (drop_suffix 1 s)) ;;
     Ret (PInt (z * 60))
   else if Str.endswith "s" s then
     z <- Py.int (PStr (drop_suffix 1 s)) ;;
     Ret (PInt z)
   else
     z <- Py.int (PStr s) ;;
     Ret (PInt z))%res.

End Duration.

(* ================================================================== *)
(** * Calendar dates *)
(* ================================================================== *)

(** The part of [datetime] the handlers use: the proleptic Gregorian
    calendar between 0001-01-01 and 9999-12-31, moving by whole days,
    printing with [strftime("%Y-%m-%d")] and reading the same
    [YYYY-MM-DD] form back with [fromisoformat].  The time of day never
    reaches a request and is left out. *)
Module Dates.

Record date : Type := mkdate { year : Z; month : Z; day : Z }.

Definition is_leap (y : Z) : bool :=
  (y mod 4 =? 0) && (negb (y mod 100 =? 0) || (y mod 400 =? 0)).

Definition days_in_month (y m : Z) : Z :=
  match m with
  | 1 | 3 | 5 | 7 | 8 | 10 | 12 => 31
  | 4 | 6 | 9 | 11 => 30
  | 2 => if is_leap y then 29 else 28
  | _ => 0
  end.

Definition valid (d : date) : bool :=
  (1 <=? year d) && (year d <=? 9999) &&
  (1 <=? month d) && (month d <=? 12) &&
  (1 <=? day d) && (day d <=? days_in_month (year d) (month d)).

(** The day before; [None] below 0001-01-01, where Python raises
    [OverflowError]. *)
Definition prev_day (d : date) : option date :=
  if 1 <? day d then Some (mkdate (year d) (month d) (day d - 1))
  else if 1 <? month d
  then Some (mkdate (year d) (month d - 1)
               (days_in_month (year d) (month d - 1)))
  else if 1 <? year d then Some (mkdate (year d - 1) 12 31)
  else None.

(** The day after; [None] above 9999-12-31. *)
Definition next_day (d : date) : option date :=
  if day d <? days_in_month (year d) (month d)
  then Some (mkdate (year d) (month d) (day d + 1))
  else if month d <? 12 then Some (mkdate (year d) (month d + 1) 1)
  else if year d <? 9999 then Some (mkdate (year d + 1) 1 1)
  else None.

Fixpoint steps (f : date -> option date) (n : nat) (d : date)
  : option date :=
  match n with
  | O => Some d
  | S k => match f d with Some d' => steps f k d' | None => None end
  end.

(** [d - timedelta(days=n)] and [d + timedelta(days=n)] *)
Definition minus_days (n : nat) (d : date) : option date := steps prev_day n d.
Definition plus_days (n : nat) (d : date) : option date := steps next_day n d.

Definition digit (n : Z) : ascii := ascii_of_nat (48 + Z.to_nat n).

Definition pad2 (n : Z) : string :=
  String (digit (n / 10 mod 10)) (String (digit (n mod 10)) EmptyString).

Definition pad4 (n : Z) : string :=
  String (digit (n / 1000 mod 10)) (String (digit (n / 100 mod 10)) (pad2 n)).

(** [d.strftime("%Y-%m-%d")], the year with four digits.  From year
    1000 on this is what every platform prints; for an earlier year the
    platform decides whether [%Y] is padded (with glibc it is not), so
    what is proved of the printed form of such a year holds where the
    year is padded. *)
Definition strftime (d : date) : string :=
  pad4 (year d) ++ "-" ++ pad2 (month d) ++ "-" ++ pad2 (day d).

Definition number2 (a b : ascii) : option Z :=
  match Num.digit_of a, Num.digit_of b with
  | Some x, Some y => Some (10 * Z.of_nat x + Z.of_nat y)
  | _, _ => None
  end.

Definition number4 (a b c d : ascii) : option Z :=
  match number2 a b, number2 c d with
  | Some x, Some y => Some (100 * x + y)
  | _, _ => None
  end.

(** [datetime.fromisoformat(s)] on the form [YYYY-MM-DD], which the
    tools document for their arguments and every version of Python
    reads.  The further forms a version reads (a date followed by a
    time of day and, from 3.11, the basic and the week forms) are a
    parameter of the handlers, see [Tools.fromisoformat]. *)
Definition fromisoformat (s : string) : option date :=
  match list_ascii_of_string s with
  | [y1; y2; y3; y4; "-"%char; m1; m2; "-"%char; d1; d2] =>
      match number4 y1 y2 y3 y4, number2 m1 m2, number2 d1 d2 with
      | Some y, Some m, Some d =>
          if valid (mkdate y m d) then Some (mkdate y m d) else None
      | _, _, _ => None
      end
  | _ => None
  end.

End Dates.

(* ================================================================== *)
(** * [config/defaults.py] *)
(* ================================================================== *)

(** The process-wide defaults read from the environment at start-up; a
    variable that is not set gives the empty string. *)
Record Config : Type := mkConfig { API_KEY : string; ATHLETE_ID : string }.

(* ================================================================== *)
(** * [utils/functions.py]: the HTTP gateway *)
(* ================================================================== *)

Module Http.

Inductive method : Type := GET | POST.

(** What the gateway is called with: the path, the key used as the
    password of the basic authentication, the query and, for a POST,
    the body. *)
Record request : Type := mkrequest {
  meth : method;
  url : string;
  api_key : string;
  params : option (list (string * pyval));
  data : option pyval
}.

(** A response as [httpx] delivers it: [json] is what [response.json()]
    evaluates to, the decoded body or the message of the decoding
    error. *)
Record response : Type := mkresponse {
  status_code : Z;
  text : string;
  json : pyval + string
}.

(** What awaiting [client.get] or [client.post] can end in. *)
Inductive reply : Type :=
| Responded (r : response)
| RequestError (msg : string)
| OtherError (msg : string).

(** The names bound at module level in [utils/functions.py]: its imports,
    its two constants and its two functions. *)
Definition module_globals : list string :=
  ["httpx"; "HTTPStatus"; "json"; "Any"; "os"; "load_dotenv"; "_";
   "INTERVALS_API_BASE_URL"; "USER_AGENT";
   "make_intervals_request"; "post_intervals_data"].

(** Looking up a module-level name: [NameError] when it is not bound. *)
Definition global (name : string) : res unit :=
  if existsb (String.eqb name) module_globals then Ret tt else Raise NameError.

(** [logger.error(...)]: the name is looked up first; the record it would
    write is not part of the result. *)
Definition logger_error : res unit := global "logger".

(** [response.raise_for_status()] raises outside the 2xx range. *)
Definition is_success (code : Z) : bool := (200 <=? code) && (code <=? 299).

(** The members of [http.HTTPStatus]; the constructor raises
    [ValueError] on any other number. *)
Definition HTTPStatus_values : list Z :=
  [100; 101; 102; 103; 200; 201; 202; 203; 204; 205; 206; 207; 208; 226;
   300; 301; 302; 303; 304; 305; 307; 308;
   400; 401; 402; 403; 404; 405; 406; 407; 408; 409; 410; 411; 412; 413;
   414; 415; 416; 417; 418; 421; 422; 423; 424; 425; 426; 428; 429; 431;
   451; 500; 501; 502; 503; 504; 505; 506; 507; 508; 510; 511].

Definition HTTPStatus (code : Z) : option Z :=
  if existsb (Z.eqb code) HTTPStatus_values then Some code else None.

(** The table [error_messages], with the values and phrases of
    [http.HTTPStatus] (422 reads "Unprocessable Entity" up to
    Python 3.12). *)
Definition error_messages : list (Z * string) :=
  [(401, "401 Unauthorized: Please check your API key.");
   (403, "403 Forbidden: You may not have permission to access this resource.");
   (404, "404 Not Found: The requested endpoint or ID doesn't exist.");
   (422, "422 Unprocessable Entity: The server couldn't process the request (invalid parameters or unsupported operation).");
   (429, "429 Too Many Requests: Too many requests in a short time period.");
   (500, "500 Internal Server Error: The Intervals.icu server encountered an internal error.");
   (503, "503 Service Unavailable: The Intervals.icu server might be down or undergoing maintenance.")].

Fixpoint table_get (code : Z) (t : list (Z * string)) (default : string)
  : string :=
  match t with
  | [] => default
  | (c, m) :: rest => if Z.eqb code c then m else table_get code rest default
  end.

Definition custom_message (error_code : Z) (error_text : string) : string :=
  match HTTPStatus error_code with
  | Some status => table_get status error_messages error_text
  | None => error_text
  end.

Definition status_envelope (error_code : Z) (message : string) : pyval :=
  PDict [("error", PBool true); ("status_code", PInt error_code);
         ("message", PStr message)].

Definition message_envelope (message : string) : pyval :=
  PDict [("error", PBool true); ("message", PStr message)].

(** The body of the [try] statement shared by the two gateway functions,
    applied to the outcome of the HTTP call.  [log] is the evaluation of
    [logger.error(...)], the call each handler makes before it builds its
    envelope; an exception it raises leaves the function, since no
    enclosing [try] covers the handlers. *)
Definition outcome (log : res unit) (rep : reply) : res pyval :=
  match rep with
  | Responded r =>
      if is_success (status_code r) then
        if String.eqb (text r) "" then Ret (PDict [])
        else
          match json r with
          | inl v => Ret v
          | inr msg =>
              (_ <- log ;;
               Ret (message_envelope ("Unexpected error: " ++ msg)))%res
          end
      else
        (_ <- log ;;
         Ret (status_envelope (status_code r)
                (custom_message (status_code r) (text r))))%res
  | RequestError msg =>
      (_ <- log ;; Ret (message_envelope ("Request error: " ++ msg)))%res
  | OtherError msg =>
      (_ <- log ;; Ret (message_envelope ("Unexpected error: " ++ msg)))%res
  end.

Section Gateway.

Context {W : Type}.

(** The remote service and the network between: the reply to a request,
    and the world after it. *)
Variable http : request -> W -> reply * W.

Definition send (log : res unit) (req : request) (w : W) : res pyval * W :=
  let '(rep, w') := http req w in (outcome log rep, w').

(** [make_intervals_request(url, api_key, params)] *)
Definition make_intervals_request (req : request) (w : W) : res pyval * W :=
  send logger_error req w.

(** [post_intervals_data(data, url, api_key, params)] *)
Definition post_intervals_data (req : request) (w : W) : res pyval * W :=
  send logger_error req w.

End Gateway.

End Http.

(* ================================================================== *)
(** * The tool handlers *)
(* ================================================================== *)

Module Tools.

Import Http.

(** What a handler is linked against.

    Modelled from the spec: [utils/formatting.py] is not among the
    sources; its four functions are taken as total functions from a
    mapping to text, as the data model describes them ("a Formatter must
    never throw/fault on missing or wrong-typed optional fields").

    [repr] is the text an f-string gives for a value that is not a
    string, and [now] the date [datetime.now()] reads.

    [other_isoformats] stands for the strings [datetime.fromisoformat]
    of the running interpreter reads besides [YYYY-MM-DD], with the date
    of the result: which they are depends on the version of Python. *)
Record Env (W : Type) : Type := mkEnv {
  settings : Config;
  make_intervals_request : request -> W -> res pyval * W;
  post_intervals_data : request -> W -> res pyval * W;
  now : W -> Dates.date;
  other_isoformats : string -> option Dates.date;
  format_activity_summary : pyval -> string;
  format_intervals : pyval -> string;
  format_event_summary : pyval -> string;
  format_event_details : pyval -> string;
  repr : pyval -> string
}.
Arguments settings {W} _.
Arguments make_intervals_request {W} _ _ _.
Arguments post_intervals_data {W} _ _ _.
Arguments now {W} _ _.
Arguments other_isoformats {W} _ _.
Arguments format_activity_summary {W} _ _.
Arguments format_intervals {W} _ _.
Arguments format_event_summary {W} _ _.
Arguments format_event_details {W} _ _.
Arguments repr {W} _ _.

(** The state a call runs in: the world outside, and the gateway calls
    made so far, oldest first. *)
Record state (W : Type) : Type := mkstate { world : W; calls : list request }.
Arguments mkstate {W} _ _.
Arguments world {W} _.
Arguments calls {W} _.

(** A handler: it ends in a value or an exception, and a new state. *)
Definition M (W A : Type) : Type := state W -> res A * state W.

Definition ret {W A} (a : A) : M W A := fun st => (Ret a, st).

Definition bind {W A B} (m : M W A) (k : A -> M W B) : M W B :=
  fun st =>
    match m st with
    | (Ret a, st') => k a st'
    | (Raise e, st') => (Raise e, st')
    end.

Definition lift {W A} (r : res A) : M W A := fun st => (r, st).

Declare Scope handler_scope.
Delimit Scope handler_scope with handler.
Notation "x <- m ;; k" := (bind m (fun x => k))
  (at level 61, m at next level, right associativity) : handler_scope.

(** Awaiting a gateway function: the call is recorded, the world moves. *)
Definition call {W} (gateway : request -> W -> res pyval * W)
  (req : request) : M W pyval :=
  fun st =>
    let '(r, w') := gateway req (world st) in
    (r, mkstate w' (calls st ++ [req])%list).

Definition nl : string := String (ascii_of_nat 10) EmptyString.

Definition no_athlete_id : string :=
  "Error: No athlete ID provided and no default ATHLETE_ID found in environment variables.".

Definition no_api_key : string :=
  "Error: No api_key provided and no default API_KEY found in environment variables.".

(** [x if x is not None else default] *)
Definition resolve (explicit : option string) (default : string) : string :=
  match explicit with
  | Some x => x
  | None => default
  end.

(** [not s] for an optional string argument. *)
Definition absent (s : option string) : bool :=
  match s with
  | Some x => String.eqb x ""
  | None => true
  end.

(** [isinstance(result, dict) and "error" in result] *)
Definition is_error (result : pyval) : bool :=
  match result with
  | PDict d => Py.has_key "error" d
  | _ => false
  end.

(** [result.get("message", "Unknown error")] on such a result. *)
Definition error_message (result : pyval) : pyval :=
  match result with
  | PDict d => Py.dict_get_or "message" (PStr "Unknown error") d
  | _ => PStr "Unknown error"
  end.

Definition of_option (s : option string) : pyval :=
  match s with
  | Some x => PStr x
  | None => PNone
  end.

(** [activities[:limit]] *)
Definition slice_to {A} (l : list A) (limit : Z) : list A :=
  if 0 <=? limit then firstn (Z.to_nat limit) l
  else firstn (Z.to_nat (Z.of_nat (List.length l) + limit)) l.

Definition dicts (l : list pyval) : list pyval := filter Py.is_dict l.

Fixpoint first_list (d : list (string * pyval)) : option (list pyval) :=
  match d with
  | [] => None
  | (_, PList l) :: _ => Some l
  | _ :: rest => first_list rest
  end.

Definition activity_keys : list string := ["name"; "startTime"; "distance"].

(** Lines 71 to 87 of [tools/activities.py]: the list of activity
    mappings found in a payload. *)
Definition normalize (result : pyval) : list pyval :=
  match result with
  | PList l => dicts l
  | PDict d =>
      let activities :=
        match first_list d with
        | Some l => dicts l
        | None => []
        end in
      match activities with
      | [] =>
          if existsb (fun key => Py.has_key key d) activity_keys
          then [result]
          else activities
      | _ => activities
      end
  | _ => []
  end.

(** [activity.get("name") and activity.get("name") != "Unnamed"], as a
    condition. *)
Definition named (activity : pyval) : res bool :=
  (n <- Py.get activity "name" PNone ;;
   if Py.truthy n then
     n' <- Py.get activity "name" PNone ;;
     Ret (negb (Py.eq_str n' "Unnamed"))
   else Ret false)%res.

(** The condition of the second comprehension, which tests the type
    first. *)
Definition dict_and_named (activity : pyval) : res bool :=
  if Py.is_dict activity then named activity else Ret false.

(** A list comprehension with a condition that may raise. *)
Fixpoint filterM {A} (f : A -> res bool) (l : list A) : res (list A) :=
  match l with
  | [] => Ret []
  | x :: rest =>
      (b <- f x ;;
       ys <- filterM f rest ;;
       Ret (if b then x :: ys else ys))%res
  end.

(** What a handler hands back before rendering: a message, or the
    activities to render. *)
Inductive selection : Type :=
| Message (text : string)
| Activities (activities : list pyval).

Section Handlers.

Context {W : Type} (E : Env W).

Local Open Scope handler_scope.

(** An f-string field. *)
Definition fmt (v : pyval) : string :=
  match v with
  | PStr s => s
  | _ => repr E v
  end.

(** [(datetime.now() + shift).strftime("%Y-%m-%d")] *)
Definition today_shifted (shift : Dates.date -> option Dates.date)
  : M W string :=
  fun st =>
    match shift (now E (world st)) with
    | Some d => (Ret (Dates.strftime d), st)
    | None => (Raise OverflowError, st)
    end.

Definition date_or (given : option string)
  (shift : Dates.date -> option Dates.date) : M W string :=
  if absent given then today_shifted shift
  else ret (resolve given "").

(** [datetime.fromisoformat(s)], as the date of the [datetime] it
    gives, which is a date of the calendar: [None] stands for
    [ValueError]. *)
Definition fromisoformat (s : string) : option Dates.date :=
  match Dates.fromisoformat s with
  | Some d => Some d
  | None =>
      match other_isoformats E s with
      | Some d => if Dates.valid d then Some d else None
      | None => None
      end
  end.

(** Lines 100 to 128 of [tools/activities.py]: the second request, made
    when too few named activities were found. *)
Definition fetch_more (athlete_id_to_use api_key_to_use start_date : string)
  (api_limit : Z) (activities : list pyval) : M W (list pyval) :=
  oldest_date <- lift (match fromisoformat start_date with
                       | Some d => Ret d
                       | None => Raise ValueError
                       end) ;;
  older_start_date <- lift (match Dates.minus_days 60 oldest_date with
                            | Some d => Ret (Dates.strftime d)
                            | None => Raise OverflowError
                            end) ;;
  older_end_date <- lift (match Dates.minus_days 1 oldest_date with
                          | Some d => Ret (Dates.strftime d)
                          | None => Raise OverflowError
                          end) ;;
  if Str.ltb older_start_date older_end_date then
    more_result <- call (make_intervals_request E)
      (mkrequest GET ("/athlete/" ++ athlete_id_to_use ++ "/activities")
         api_key_to_use
         (Some [("oldest", PStr older_start_date);
                ("newest", PStr older_end_date);
                ("limit", PInt api_limit)])
         None) ;;
    match more_result with
    | PList l =>
        more_activities <- lift (filterM dict_and_named l) ;;
        ret (activities ++ more_activities)%list
    | _ => ret activities
    end
  else ret activities.

(** [get_activities] up to the rendering loop. *)
Definition select_activities
  (athlete_id api_key start_date end_date : option string)
  (limit : Z) (include_unnamed : bool) : M W selection :=
  let athlete_id_to_use := resolve athlete_id (ATHLETE_ID (settings E)) in
  if String.eqb athlete_id_to_use "" then ret (Message no_athlete_id) else
  let api_key_to_use := resolve api_key (API_KEY (settings E)) in
  if String.eqb api_key_to_use "" then ret (Message no_api_key) else
  start_date <- date_or start_date (Dates.minus_days 30) ;;
  end_date <- date_or end_date Some ;;
  let api_limit := if negb include_unnamed then limit * 3 else limit in
  result <- call (make_intervals_request E)
    (mkrequest GET ("/athlete/" ++ athlete_id_to_use ++ "/activities")
       api_key_to_use
       (Some [("oldest", PStr start_date); ("newest", PStr end_date);
              ("limit", PInt api_limit)])
       None) ;;
  if is_error result then
    ret (Message ("Error fetching activities: " ++ fmt (error_message result)))
  else if negb (Py.truthy result) then
    ret (Message ("No activities found for athlete " ++ athlete_id_to_use
                  ++ " in the specified date range."))
  else
    match normalize result with
    | [] =>
        ret (Message ("No valid activities found for athlete "
                      ++ athlete_id_to_use ++ " in the specified date range."))
    | activities =>
        activities <-
          (if negb include_unnamed then
             activities <- lift (filterM named activities) ;;
             if Z.of_nat (List.length activities) <? limit
             then fetch_more athlete_id_to_use api_key_to_use start_date
                    api_limit activities
             else ret activities
           else ret activities) ;;
        match slice_to activities limit with
        | [] =>
            if include_unnamed then
              ret (Message ("No valid activities found for athlete "
                            ++ athlete_id_to_use
                            ++ " in the specified date range."))
            else
              ret (Message ("No named activities found for athlete "
                            ++ athlete_id_to_use
                            ++ " in the specified date range. Try with include_unnamed=True to see all activities."))
        | activities => ret (Activities activities)
        end
    end.

(** The loop of lines 139 to 146. *)
Definition render_activities (activities : list pyval) : string :=
  fold_left
    (fun activities_summary activity =>
       if Py.is_dict activity
       then activities_summary ++ format_activity_summary E activity ++ nl
       else activities_summary ++ "Invalid activity format: "
              ++ fmt activity ++ nl ++ nl)
    activities ("Activities:" ++ nl ++ nl).

(** [get_activities(athlete_id, api_key, start_date, end_date, limit,
    include_unnamed)] *)
Definition get_activities
  (athlete_id api_key start_date end_date : option string)
  (limit : Z) (include_unnamed : bool) : M W pyval :=
  sel <- select_activities athlete_id api_key start_date end_date limit
           include_unnamed ;;
  match sel with
  | Message text => ret (PStr text)
  | Activities activities => ret (PStr (render_activities activities))
  end.

(** One of the two loops over zones in [get_activity_details]. *)
Definition zone_lines (zones : pyval) (key : string) : res string :=
  (listing <- Py.get zones key (PList []) ;;
   items <- Py.iter listing ;;
   lines <- Py.mapM
     (fun zone =>
        number <- Py.get zone "number" PNone ;;
        seconds <- Py.get zone "secondsInZone" PNone ;;
        Ret ("Zone " ++ fmt number ++ ": " ++ fmt seconds ++ " seconds" ++ nl))
     items ;;
   Ret (String.concat "" lines))%res.

(** Lines 184 to 199 of [tools/activities.py]. *)
Definition detailed_view (activity_data : list (string * pyval))
  : res string :=
  let summary := format_activity_summary E (PDict activity_data) in
  if Py.has_key "zones" activity_data then
    (zones <- Py.getitem (PDict activity_data) "zones" ;;
     power <- zone_lines zones "power" ;;
     hr <- zone_lines zones "hr" ;;
     Ret (summary ++ nl ++ "Power Zones:" ++ nl ++ power
            ++ nl ++ "Heart Rate Zones:" ++ nl ++ hr))%res
  else Ret summary.

(** [get_activity_details(activity_id, api_key)] *)
Definition get_activity_details (activity_id : string)
  (api_key : option string) : M W pyval :=
  let api_key_to_use := resolve api_key (API_KEY (settings E)) in
  if String.eqb api_key_to_use "" then ret (PStr no_api_key) else
  result <- call (make_intervals_request E)
    (mkrequest GET ("/activity/" ++ activity_id) api_key_to_use None None) ;;
  if is_error result then
    ret (PStr ("Error fetching activity details: "
               ++ fmt (error_message result)))
  else if negb (Py.truthy result) then
    ret (PStr ("No details found for activity " ++ activity_id ++ "."))
  else
    let activity_data :=
      match result with
      | PList (first :: _) => first
      | _ => result
      end in
    match activity_data with
    | PDict d => view <- lift (detailed_view d) ;; ret (PStr view)
    | _ => ret (PStr ("Invalid activity format for activity "
                      ++ activity_id ++ "."))
    end.

(** [get_activity_intervals(activity_id, api_key)] *)
Definition get_activity_intervals (activity_id : string)
  (api_key : option string) : M W pyval :=
  let api_key_to_use := resolve api_key (API_KEY (settings E)) in
  if String.eqb api_key_to_use "" then ret (PStr no_api_key) else
  result <- call (make_intervals_request E)
    (mkrequest GET ("/activity/" ++ activity_id ++ "/intervals")
       api_key_to_use None None) ;;
  if is_error result then
    ret (PStr ("Error fetching intervals: " ++ fmt (error_message result)))
  else if negb (Py.truthy result) then
    ret (PStr ("No interval data found for activity " ++ activity_id ++ "."))
  else
    match result with
    | PDict d =>
        if existsb (fun key => Py.has_key key d) ["icu_intervals"; "icu_groups"]
        then ret (PStr (format_intervals E result))
        else ret (PStr ("No interval data or unrecognized format for activity "
                        ++ activity_id ++ "."))
    | _ => ret (PStr ("No interval data or unrecognized format for activity "
                      ++ activity_id ++ "."))
    end.

(** [get_events(athlete_id, api_key, start_date, end_date)] *)
Definition get_events (athlete_id api_key start_date end_date : option string)
  : M W pyval :=
  let athlete_id_to_use := resolve athlete_id (ATHLETE_ID (settings E)) in
  if String.eqb athlete_id_to_use "" then ret (PStr no_athlete_id) else
  let api_key_to_use := resolve api_key (API_KEY (settings E)) in
  if String.eqb api_key_to_use "" then ret (PStr no_api_key) else
  start_date <- date_or start_date Some ;;
  end_date <- date_or end_date (Dates.plus_days 30) ;;
  result <- call (make_intervals_request E)
    (mkrequest GET ("/athlete/" ++ athlete_id_to_use ++ "/events")
       api_key_to_use
       (Some [("oldest", PStr start_date); ("newest", PStr end_date)])
       None) ;;
  if is_error result then
    ret (PStr ("Error fetching events: " ++ fmt (error_message result)))
  else if negb (Py.truthy result) then
    ret (PStr ("No events found for athlete " ++ athlete_id_to_use
               ++ " in the specified date range."))
  else
    match result with
    | PList ((_ :: _) as events) =>
        ret (PStr (fold_left
                     (fun events_summary event =>
                        if Py.is_dict event
                        then events_summary ++ format_event_summary E event
                               ++ nl ++ nl
                        else events_summary)
                     events ("Events:" ++ nl ++ nl)))
    | _ =>
        ret (PStr ("No events found for athlete " ++ athlete_id_to_use
                   ++ " in the specified date range."))
    end.

(** [get_event_by_id(event_id, athlete_id, api_key)] *)
Definition get_event_by_id (event_id : string)
  (athlete_id api_key : option string) : M W pyval :=
  let athlete_id_to_use := resolve athlete_id (ATHLETE_ID (settings E)) in
  if String.eqb athlete_id_to_use "" then ret (PStr no_athlete_id) else
  let api_key_to_use := resolve api_key (API_KEY (settings E)) in
  if String.eqb api_key_to_use "" then ret (PStr no_api_key) else
  result <- call (make_intervals_request E)
    (mkrequest GET ("/athlete/" ++ athlete_id_to_use ++ "/event/" ++ event_id)
       api_key_to_use None None) ;;
  if is_error result then
    ret (PStr ("Error fetching event details: " ++ fmt (error_message result)))
  else if negb (Py.truthy result) then
    ret (PStr ("No details found for event " ++ event_id ++ "."))
  else
    match result with
    | PDict _ => ret (PStr (format_event_details E result))
    | _ => ret (PStr ("Invalid event format for event " ++ event_id ++ "."))
    end.

(** One pass of the loop of lines 194 to 197 of [tools/events.py]. *)
Definition description_line (step : pyval) : res string :=
  (duration <- Py.getitem step "duration" ;;
   power <- Py.getitem step "power" ;;
   let line := "- " ++ fmt duration ++ " " ++ fmt power in
   has_cadence <- Py.contains "cadence" step ;;
   if has_cadence then
     cadence <- Py.getitem step "cadence" ;;
     Ret (line ++ " (" ++ fmt cadence ++ ")")
   else Ret line)%res.

(** [sum(convert_duration(step["duration"]) for step in expanded_steps)]:
    each step is converted when the sum reaches it. *)
Fixpoint moving_time_from (acc : pyval) (steps : list pyval) : res pyval :=
  match steps with
  | [] => Ret acc
  | step :: rest =>
      (duration <- Py.getitem step "duration" ;;
       seconds <- Duration.convert_duration duration ;;
       acc' <- Py.add acc seconds ;;
       moving_time_from acc' rest)%res
  end.

(** Lines 191 to 211 of [tools/events.py]: the payload sent to the
    service. *)
Definition final_data (start_date : string) (name data : pyval)
  : res pyval :=
  (expanded_steps <- Py.getitem data "steps" ;;
   steps <- Py.iter expanded_steps ;;
   description_lines <- Py.mapM description_line steps ;;
   in_bike <- Py.contains "Bike" name ;;
   type <- (if in_bike then Ret "Ride"
            else in_run <- Py.contains "Run" name ;;
                 Ret (if in_run then "Run" else "Swim")) ;;
   in_power <- Py.contains "Power" name ;;
   target <- (if in_power then Ret "POWER"
              else in_pace <- Py.contains "pace" name ;;
                   if in_pace then Ret "PACE"
                   else in_hr <- Py.contains "hr" name ;;
                        Ret (if in_hr then "HR" else "AUTO")) ;;
   moving_time <- moving_time_from (PInt 0) steps ;;
   Ret (PDict [("start_date_local", PStr (start_date ++ "T00:00:00"));
               ("category", PStr "WORKOUT");
               ("name", name);
               ("description", PStr (Str.strip (Str.join nl description_lines)));
               ("type", PStr type);
               ("target", PStr target);
               ("moving_time", moving_time)]))%res.

(** [post_events(athlete_id, api_key, start_date, name, data)] *)
Definition post_events (athlete_id api_key start_date name : option string)
  (data : option (list (string * pyval))) : M W pyval :=
  let athlete_id_to_use := resolve athlete_id (ATHLETE_ID (settings E)) in
  if String.eqb athlete_id_to_use "" then ret (PStr no_athlete_id) else
  let api_key_to_use := resolve api_key (API_KEY (settings E)) in
  if String.eqb api_key_to_use "" then ret (PStr no_api_key) else
  start_date <- date_or start_date Some ;;
  payload <- lift (final_data start_date (of_option name)
                     (match data with Some d => PDict d | None => PNone end)) ;;
  result <- call (post_intervals_data E)
    (mkrequest POST ("/athlete/" ++ athlete_id_to_use ++ "/events")
       api_key_to_use None (Some payload)) ;;
  if is_error result then
    ret (PStr ("Error fetching events: " ++ fmt (error_message result)
               ++ " data used:" ++ fmt payload))
  else if negb (Py.truthy result) then
    ret (PStr ("No events posted for athlete " ++ fmt (of_option athlete_id)
               ++ "."))
  else
    match result with
    | PDict _ => ret result
    | _ => ret (PStr ("format error, verify intervals for correct event at "
                      ++ start_date))
    end.

End Handlers.

(** The server as it is deployed: the handlers linked against the two
    gateway functions of [utils/functions.py]. *)
Definition deployed {W} (http : request -> W -> reply * W)
  (cfg : Config) (clock : W -> Dates.date)
  (isoformats : string -> option Dates.date)
  (activity_summary intervals event_summary event_details repr
     : pyval -> string) : Env W :=
  mkEnv W cfg (Http.make_intervals_request http)
    (Http.post_intervals_data http) clock isoformats
    activity_summary intervals event_summary event_details repr.

End Tools.

(* ================================================================== *)
(** * [tools/events.py]: expansion of repeated steps *)
(* ================================================================== *)

Module Repeats.

(** [v.strip()]: only strings have the method. *)
Definition strip (v : pyval) : res pyval :=
  match v with
  | PStr s => Ret (PStr (Str.strip s))
  | _ => Raise AttributeError
  end.

Section Expand.

(** The test [list.index] applies to two items: identity or [==]. *)
Variable same : pyval -> pyval -> bool.

(** [steps.index(step)] for the step the loop is at: the first earlier
    position that holds an item passing the test, and otherwise the
    position of the step itself, where the test is an identity.
    [earlier] is the list of the items before the step. *)
Fixpoint index (step : pyval) (earlier : list pyval) : nat :=
  match earlier with
  | [] => O
  | x :: rest => if same x step then O else S (index step rest)
  end.

(** [steps[i + 1:i + 3]] *)
Definition following (steps : list pyval) (i : nat) : list pyval :=
  firstn 2 (skipn (i + 1) steps).

(** The condition of the first branch:
    ["description" in step and step["description"].endswith("x")]. *)
Definition is_repeat (step : pyval) : res bool :=
  (has_description <- Py.contains "description" step ;;
   if has_description then
     description <- Py.getitem step "description" ;;
     Py.endswith description "x"
   else Ret false)%res.

(** [int(step["description"].replace("x", "").strip())] *)
Definition repeat_count (step : pyval) : res Z :=
  (description <- Py.getitem step "description" ;;
   digits <- Py.replace description "x" "" ;;
   stripped <- strip digits ;;
   Py.int stripped)%res.

(** The loop of [expand_repeats] from the step at [position] on, with
    the list built so far. *)
Fixpoint expand_from (steps : list pyval) (position : nat)
  (remaining expanded_steps : list pyval) : res (list pyval) :=
  match remaining with
  | [] => Ret expanded_steps
  | step :: rest =>
      (repeat <- is_repeat step ;;
       if repeat then
         count <- repeat_count step ;;
         let block := following steps (index step (firstn position steps)) in
         expand_from steps (S position) rest
           (expanded_steps ++ List.concat (List.repeat block (Z.to_nat count)))
       else
         has_duration <- Py.contains "duration" step ;;
         expand_from steps (S position) rest
           (if has_duration then expanded_steps ++ [step]
            else expanded_steps))%res
  end.

(** [expand_repeats(steps)] *)
Definition expand_repeats (steps : list pyval) : res (list pyval) :=
  expand_from steps O steps [].

End Expand.

End Repeats.

(* ================================================================== *)
(** * Vocabulary of the proofs *)
(* ================================================================== *)

(** The characters [int()] and [float()] can accept. *)
Module Charset.

Import Num.

Local Abbreviation chars := list_ascii_of_string.

Definition is_digit (c : ascii) : bool :=
  match digit_of c with Some _ => true | None => false end.

Definition int_char (c : ascii) : bool :=
  is_blank c || Ascii.eqb c "+" || Ascii.eqb c "-" || Ascii.eqb c "_"
  || is_digit c.

Definition word_char (c : ascii) : bool :=
  existsb (Ascii.eqb (Str.lower c)) (chars "infinityan").

Definition float_char (c : ascii) : bool :=
  int_char c || is_dot c || is_exp c || word_char c.

End Charset.

(** Calendar order on dates. *)
Module DateOrder.

Import Dates.

Definition before (a b : date) : Prop :=
  year a < year b
  \/ (year a = year b
      /\ (month a < month b \/ (month a = month b /\ day a < day b))).

End DateOrder.

(** What the two filters of [get_activities] keep: a mapping whose name
    is present, non-empty and not "Unnamed". *)
Module Named.

Definition kept (activity : pyval) : bool :=
  match activity with
  | PDict d =>
      Py.truthy (Py.dict_get "name" d)
      && negb (Py.eq_str (Py.dict_get "name" d) "Unnamed")
  | _ => false
  end.

End Named.

(** A small deployment to run the handlers on: the world is the list of
    values the gateway will return, in order. *)
Module Demo.

Import Http Tools.

Definition script : Type := list pyval.

Definition scripted (req : request) (w : script) : res pyval * script :=
  match w with
  | v :: rest => (Ret v, rest)
  | [] => (Ret (PDict []), [])
  end.

Definition label (tag : string) (v : pyval) : string :=
  match v with
  | PDict d =>
      match Py.lookup "name" d with
      | Some (PStr n) => tag ++ " " ++ n
      | _ => tag
      end
  | _ => tag
  end.

Definition show (v : pyval) : string :=
  match v with
  | PNone => "None"
  | PBool true => "True"
  | PBool false => "False"
  | _ => "<value>"
  end.

(** In the demonstrations no form besides [YYYY-MM-DD] is read as a
    date. *)
Definition dates_only (s : string) : option Dates.date := None.

Definition env (cfg : Config) : Env script :=
  mkEnv script cfg scripted scripted (fun _ => Dates.mkdate 2025 1 14)
    dates_only
    (label "Activity") (label "Intervals") (label "Event") (label "Event")
    show.

Definition start (w : script) : state script := mkstate w [].

(** Replies of the remote service, for the deployed gateway. *)
Definition replies : Type := list reply.

Definition remote (req : request) (w : replies) : reply * replies :=
  match w with
  | r :: rest => (r, rest)
  | [] => (RequestError "connection refused", [])
  end.

End Demo.


(** The two-step workout of the examples. *)
Module Workout.

Definition two_steps : pyval :=
  PDict [("steps",
          PList [PDict [("duration", PStr "15m"); ("power", PStr "80%")];
                 PDict [("duration", PStr "3m"); ("power", PStr "110%")]])].

End Workout.

(** The line [get_activity_details] prints for one zone mapping. *)
Module Zones.

Definition line {W} (E : Tools.Env W) (zone : pyval) : string :=
  match zone with
  | PDict d =>
      "Zone " ++ Tools.fmt E (Py.dict_get "number" d) ++ ": "
      ++ Tools.fmt E (Py.dict_get "secondsInZone" d) ++ " seconds" ++ Tools.nl
  | _ => ""
  end.

Definition all_dicts (l : list pyval) : Prop :=
  Forall (fun v => Py.is_dict v = true) l.

End Zones.

(** A named activity, spelled out: a mapping with a [name] that is
    truthy and is not the string "Unnamed". *)
Module NamedActivity.

Definition holds (activity : pyval) : Prop :=
  exists d name,
    activity = PDict d /\ Py.lookup "name" d = Some name
    /\ Py.truthy name = true /\ name <> PStr "Unnamed".

End NamedActivity.

(** The request [get_activities] makes for a window of dates. *)
Module Window.

Definition request (athlete_id api_key oldest newest : string) (limit : Z)
  : Http.request :=
  Http.mkrequest Http.GET ("/athlete/" ++ athlete_id ++ "/activities") api_key
    (Some [("oldest", PStr oldest); ("newest", PStr newest);
           ("limit", PInt limit)])
    None.


(** What is handed to the rendering loop. *)
Definition selected (athlete_id : string) (activities : list pyval)
  : Tools.selection :=
  match activities with
  | [] =>
      Tools.Message
        ("No named activities found for athlete " ++ athlete_id
         ++ " in the specified date range. Try with include_unnamed=True to see all activities.")
  | _ => Tools.Activities activities
  end.

End Window.

(** The conditions under which a handler is followed to its end. *)
Module Safe.

(** Both gateway functions return a value, payload or error envelope,
    on every request: what their [try] statement is written to ensure. *)
Definition gateway_returns {W} (E : Tools.Env W) : Prop :=
  forall req w,
    (exists v w', Tools.make_intervals_request E req w = (Ret v, w'))
    /\ (exists v w', Tools.post_intervals_data E req w = (Ret v, w')).

(** Today has thirty days on either side within the calendar. *)
Definition clock_in_range {W} (E : Tools.Env W) : Prop :=
  forall w,
    Dates.minus_days 30 (Tools.now E w) <> None
    /\ Dates.plus_days 30 (Tools.now E w) <> None.

(** A workout step [post_events] can use: a mapping with a power and a
    duration string in minutes, seconds or bare seconds. *)
Definition step_ok (step : pyval) : Prop :=
  exists sd duration power z,
    step = PDict sd
    /\ Py.lookup "duration" sd = Some (PStr duration)
    /\ Py.lookup "power" sd = Some power
    /\ Duration.convert_duration (PStr duration) = Ret (PInt z).

(** The [data] argument as the handler sees it. *)
Definition argument (data : option (list (string * pyval))) : pyval :=
  match data with
  | Some d => PDict d
  | None => PNone
  end.

End Safe.
(** Workout steps, as [expand_repeats] tells them apart. *)
Module Steps.

(** A step that is no repeat marker: a mapping whose description, when
    it has one, is a string that does not end in "x". *)
Definition plain (step : pyval) : Prop :=
  exists d,
    step = PDict d
    /\ match Py.lookup "description" d with
       | Some (PStr s) => Str.endswith "x" s = false
       | Some _ => False
       | None => True
       end.

(** A repeat marker for [count] repetitions: a mapping whose description
    is a string ending in "x" that reads as [count] once the letter is
    removed. *)
Definition marker (count : Z) (step : pyval) : Prop :=
  exists d s,
    step = PDict d
    /\ Py.lookup "description" d = Some (PStr s)
    /\ Str.endswith "x" s = true
    /\ Num.py_int (Str.strip (Str.replace "x" "" s)) = Some count.

Definition has_duration (step : pyval) : bool :=
  match step with
  | PDict d => Py.has_key "duration" d
  | _ => false
  end.

(** An equality test for running [expand_repeats] on examples whose
    steps are all different. *)
Definition never (a b : pyval) : bool := false.

End Steps.


(** What a workout step contributes to the payload of [post_events]. *)
Module StepText.

(** The duration string of a step, when it has one. *)
Definition duration (step : pyval) : option string :=
  match step with
  | PDict d =>
      match Py.lookup "duration" d with
      | Some (PStr s) => Some s
      | _ => None
      end
  | _ => None
  end.

(** Does some step give its duration in kilometres? *)
Definition any_km (steps : list pyval) : bool :=
  existsb (fun step =>
             match duration step with
             | Some s => Str.contains "km" s
             | None => false
             end) steps.

(** The seconds of a step whose duration converts to an integer. *)
Definition seconds (step : pyval) : Z :=
  match duration step with
  | Some s =>
      match Duration.convert_duration (PStr s) with
      | Ret (PInt z) => z
      | _ => 0
      end
  | None => 0
  end.

Definition total_seconds (steps : list pyval) : Z :=
  fold_right (fun step acc => seconds step + acc) 0 steps.

Definition is_float (v : pyval) : bool :=
  match v with PFloat _ => true | _ => false end.

Definition is_int (v : pyval) : bool :=
  match v with PInt _ => true | _ => false end.

(** The description line of a step that is a mapping. *)
Definition line {W} (E : Tools.Env W) (step : pyval) : string :=
  match step with
  | PDict d =>
      let base :=
        "- " ++ Tools.fmt E (Py.dict_get "duration" d) ++ " "
        ++ Tools.fmt E (Py.dict_get "power" d) in
      match Py.lookup "cadence" d with
      | Some cadence => base ++ " (" ++ Tools.fmt E cadence ++ ")"
      | None => base
      end
  | _ => ""
  end.

End StepText.

(** What each handler hands back for a gateway result, by the shape of
    the result. *)
Module Texts.

Import Tools.

(** Concatenation of the parts, in order. *)
Definition glue (parts : list string) : string :=
  fold_right append "" parts.

Section Texts.

Context {W : Type} (E : Env W).

(** The text for a mapping that has an "error" key: the prefix of the
    handler and the message of the mapping, or "Unknown error". *)
Definition failure (prefix : string) (result : pyval) : string :=
  prefix ++ fmt E (error_message result).

Definition events (athlete_id : string) (result : pyval) : string :=
  if is_error result then failure "Error fetching events: " result
  else
    match result with
    | PList ((_ :: _) as l) =>
        "Events:" ++ nl ++ nl
        ++ glue (map (fun event => format_event_summary E event ++ nl ++ nl)
                   (dicts l))
    | _ =>
        "No events found for athlete " ++ athlete_id
        ++ " in the specified date range."
    end.

Definition event (event_id : string) (result : pyval) : string :=
  if is_error result then failure "Error fetching event details: " result
  else
    match result with
    | PDict (_ :: _) => format_event_details E result
    | _ =>
        if Py.truthy result
        then "Invalid event format for event " ++ event_id ++ "."
        else "No details found for event " ++ event_id ++ "."
    end.

Definition intervals (activity_id : string) (result : pyval) : string :=
  if is_error result then failure "Error fetching intervals: " result
  else
    match result with
    | PDict d =>
        if Py.has_key "icu_intervals" d || Py.has_key "icu_groups" d
        then format_intervals E result
        else if Py.truthy result
        then "No interval data or unrecognized format for activity "
             ++ activity_id ++ "."
        else "No interval data found for activity " ++ activity_id ++ "."
    | _ =>
        if Py.truthy result
        then "No interval data or unrecognized format for activity "
             ++ activity_id ++ "."
        else "No interval data found for activity " ++ activity_id ++ "."
    end.

(** The activity [get_activity_details] describes: the first item of a
    list, the payload itself otherwise. *)
Definition described (result : pyval) : pyval :=
  match result with
  | PList (first :: _) => first
  | _ => result
  end.

Definition details (activity_id : string) (result : pyval) : res pyval :=
  if is_error result
  then Ret (PStr (failure "Error fetching activity details: " result))
  else if negb (Py.truthy result)
  then Ret (PStr ("No details found for activity " ++ activity_id ++ "."))
  else
    match described result with
    | PDict d =>
        match detailed_view E d with
        | Ret view => Ret (PStr view)
        | Raise e => Raise e
        end
    | _ => Ret (PStr ("Invalid activity format for activity "
                      ++ activity_id ++ "."))
    end.

Definition posted (athlete_id : option string) (start : string)
  (payload result : pyval) : pyval :=
  if is_error result
  then PStr (failure "Error fetching events: " result
             ++ " data used:" ++ fmt E payload)
  else
    match result with
    | PDict (_ :: _) => result
    | _ =>
        if Py.truthy result
        then PStr ("format error, verify intervals for correct event at "
                   ++ start)
        else PStr ("No events posted for athlete "
                   ++ fmt E (of_option athlete_id) ++ ".")
    end.

End Texts.

(** A handler run from [st] that ends in [st'] made the calls [more]. *)
Definition made {W} (st st' : state W) (more : list Http.request) : Prop :=
  calls st' = (calls st ++ more)%list.

(** A computation that makes at most [n] gateway calls, each with the
    key [key]. *)
Definition at_most {W A} (n : nat) (key : string) (m : M W A) : Prop :=
  forall st r st',
    m st = (r, st') ->
    exists more,
      made st st' more /\ (List.length more <= n)%nat
      /\ Forall (fun req => Http.api_key req = key) more.

End Texts.

(** What [get_activities] selects when nothing is filtered. *)
Module Unfiltered.

Definition selected (athlete_id : string) (activities : list pyval)
  : Tools.selection :=
  match activities with
  | [] =>
      Tools.Message
        ("No valid activities found for athlete " ++ athlete_id
         ++ " in the specified date range.")
  | _ => Tools.Activities activities
  end.

(** Today is a calendar date with ninety days before it. *)
Definition clock_has_margin {W} (E : Tools.Env W) : Prop :=
  forall w,
    Dates.valid (Tools.now E w) = true
    /\ Dates.minus_days 90 (Tools.now E w) <> None.

End Unfiltered.
(* ================================================================== *)
(** * Properties *)
(* ================================================================== *)

(** ** Facts about strings *)

Module StrFacts.

Import Str.

Local Abbreviation chars := list_ascii_of_string.

Lemma startswith_refl (s : string) : startswith s s = true.
Proof.
  induction s as [|c s IH]; simpl; [reflexivity|].
  now rewrite Ascii.eqb_refl, IH.
Qed.

Lemma contains_suffix (suf p : string) : contains suf (p ++ suf) = true.
Proof.
  induction p as [|c p IH]; simpl.
  - destruct suf; simpl; [reflexivity|].
    now rewrite Ascii.eqb_refl, startswith_refl.
  - rewrite IH. apply orb_true_r.
Qed.

Lemma contains_absent (a : ascii) (t s : string) :
  ~ In a (chars s) -> contains (String a t) s = false.
Proof.
  induction s as [|c s IH]; simpl; intros H; [reflexivity|].
  destruct (Ascii.eqb_spec a c) as [->|_].
  - exfalso. apply H. now left.
  - simpl. apply IH. intros Hin. apply H. now right.
Qed.

Lemma endswith_split (suf s : string) :
  endswith suf s = true -> exists p, s = p ++ suf.
Proof.
  induction s as [|c s IH]; simpl; intros H.
  - rewrite orb_false_r in H. apply String.eqb_eq in H. subst.
    now exists "".
  - apply orb_true_iff in H. destruct H as [H|H].
    + apply String.eqb_eq in H. subst. now exists "".
    + destruct (IH H) as [p ->]. now exists (String c p).
Qed.

Lemma substring_prefix (p s : string) :
  String.substring 0 (String.length p) (p ++ s) = p.
Proof.
  induction p as [|c p IH]; simpl.
  - now destruct s.
  - now rewrite IH.
Qed.

Lemma length_append (p s : string) :
  String.length (p ++ s) = (String.length p + String.length s)%nat.
Proof. induction p; simpl; congruence. Qed.

Lemma drop_suffix_app (p suf : string) :
  Duration.drop_suffix (String.length suf) (p ++ suf) = p.
Proof.
  unfold Duration.drop_suffix. rewrite length_append.
  replace (String.length p + String.length suf - String.length suf)%nat
    with (String.length p) by lia.
  apply substring_prefix.
Qed.

Lemma chars_app (p s : string) : chars (p ++ s) = (chars p ++ chars s)%list.
Proof. induction p; simpl; congruence. Qed.

Lemma replace_from_cons (old new : string) (c : ascii) (s : string) :
  replace_from 0 old new (String c s) =
  if startswith old (String c s)
  then new ++ replace_from (Nat.pred (String.length old)) old new s
  else String c (replace_from 0 old new s).
Proof. reflexivity. Qed.

Lemma startswith_cons (a b : ascii) (p s : string) :
  startswith (String a p) (String b s) = Ascii.eqb a b && startswith p s.
Proof. reflexivity. Qed.

(** Removing a one-character unit from the end of a string that does not
    contain it gives the string back. *)
Lemma replace_unit (c : ascii) (p : string) :
  ~ In c (chars p) ->
  replace (String c "") "" (p ++ String c "") = p.
Proof.
  unfold replace.
  induction p as [|x p IH]; intros H.
  - cbn [append]. rewrite replace_from_cons, startswith_cons.
    now rewrite Ascii.eqb_refl.
  - cbn [append]. rewrite replace_from_cons, startswith_cons.
    destruct (Ascii.eqb_spec c x) as [->|_].
    + exfalso. apply H. now left.
    + cbn [andb]. f_equal. apply IH. intros Hin. apply H. now right.
Qed.

Lemma replace_km (p : string) :
  ~ In "k"%char (chars p) -> replace "km" "" (p ++ "km") = p.
Proof.
  unfold replace.
  induction p as [|x p IH]; intros H; [reflexivity|].
  cbn [append]. rewrite replace_from_cons, startswith_cons.
  destruct (Ascii.eqb_spec "k" x) as [<-|_].
  - exfalso. apply H. now left.
  - cbn [andb]. f_equal. apply IH. intros Hin. apply H. now right.
Qed.

Lemma lstrip_split (blank : ascii -> bool) (l : list ascii) :
  exists a, l = (a ++ lstrip blank l)%list
            /\ Forall (fun c => blank c = true) a.
Proof.
  induction l as [|c l [a [IH Ha]]]; simpl.
  - now exists [].
  - destruct (blank c) eqn:Hc.
    + exists (c :: a). split; [simpl; congruence | now constructor].
    + now exists [].
Qed.

Lemma strip_chars_split (blank : ascii -> bool) (l : list ascii) :
  exists a b, l = (a ++ strip_chars blank l ++ b)%list
              /\ Forall (fun c => blank c = true) a
              /\ Forall (fun c => blank c = true) b.
Proof.
  unfold strip_chars.
  destruct (lstrip_split blank l) as [a [Hl Ha]].
  destruct (lstrip_split blank (rev (lstrip blank l))) as [b [Hr Hb]].
  exists a, (rev b). repeat split; trivial.
  - rewrite <- rev_app_distr, <- Hr, rev_involutive. exact Hl.
  - now apply Forall_rev.
Qed.

End StrFacts.

(** ** The characters [int()] and [float()] accept *)

Module NumFacts.

Import Num Charset.

Local Abbreviation chars := list_ascii_of_string.

Local Abbreviation all p l := (Forall (fun c : ascii => p c = true) l).

Lemma int_char_float (l : list ascii) : all int_char l -> all float_char l.
Proof.
  apply Forall_impl. intros c H. unfold float_char. now rewrite H.
Qed.

Lemma digitpart_from_chars (l : list ascii) :
  forall b ds, digitpart_from b l = Some ds -> all int_char l.
Proof.
  induction l as [|c l IH]; intros b ds H; [constructor|].
  cbn [digitpart_from] in H.
  destruct (digit_of c) eqn:Hd.
  - destruct (digitpart_from true l) eqn:Hr; [|discriminate].
    constructor; [|now apply (IH true l0)].
    unfold int_char, is_digit. rewrite Hd. now rewrite !orb_true_r.
  - destruct (Ascii.eqb c "_") eqn:Hu; [|discriminate].
    destruct b; [|discriminate]. cbn [andb] in H.
    constructor; [|now apply (IH false ds)].
    unfold int_char. rewrite Hu. now rewrite orb_true_r.
Qed.

Lemma split_sign_chars (l body : list ascii) (neg : bool) :
  split_sign l = (neg, body) -> all int_char body -> all int_char l.
Proof.
  unfold split_sign. intros H Hb.
  destruct l as [|c l]; [now inversion H; subst|].
  destruct (Ascii.eqb_spec c "-") as [->|Hm].
  - inversion H; subst. now constructor.
  - destruct (Ascii.eqb_spec c "+") as [->|Hp].
    + inversion H; subst. now constructor.
    + assert (Hl : (neg, body) = (false, c :: l)).
      { rewrite <- H.
        destruct c as [[] [] [] [] [] [] [] []]; try reflexivity;
          exfalso; (now apply Hm) || (now apply Hp). }
      inversion Hl; subst. exact Hb.
Qed.

Lemma stripped_chars (p : ascii -> bool) (l : list ascii) :
  (forall c, is_blank c = true -> p c = true) ->
  all p (Str.strip_chars is_blank l) -> all p l.
Proof.
  intros Hsp H.
  destruct (StrFacts.strip_chars_split is_blank l) as [a [b [Hl [Ha Hb]]]].
  rewrite Hl. rewrite !Forall_app. repeat split; trivial.
  - revert Ha. apply Forall_impl. exact Hsp.
  - revert Hb. apply Forall_impl. exact Hsp.
Qed.

Lemma int_of_chars_chars (l : list ascii) (z : Z) :
  int_of_chars l = Some z -> all int_char l.
Proof.
  unfold int_of_chars. intros H.
  destruct (split_sign (Str.strip_chars is_blank l)) as [neg body] eqn:Hs.
  destruct (digitpart body) as [ds|] eqn:Hd; [|discriminate].
  apply stripped_chars.
  - intros c Hc. unfold int_char. now rewrite Hc.
  - apply (split_sign_chars _ _ _ Hs).
    now apply (digitpart_from_chars body false ds).
Qed.

(** A string [int()] accepts has no character outside [int_char]. *)
Lemma py_int_absent (s : string) (z : Z) (c : ascii) :
  py_int s = Some z -> int_char c = false -> ~ In c (chars s).
Proof.
  intros H Hc Hin. apply int_of_chars_chars in H.
  rewrite Forall_forall in H. specialize (H c Hin). congruence.
Qed.

Lemma split_at_spec (p : ascii -> bool) (l : list ascii) :
  forall a o, split_at p l = (a, o) ->
    match o with
    | None => l = a
    | Some b => exists c, p c = true /\ l = (a ++ c :: b)%list
    end.
Proof.
  induction l as [|c l IH]; intros a o H; cbn [split_at] in H.
  - now inversion H.
  - destruct (p c) eqn:Hp.
    + inversion H; subst. now exists c.
    + destruct (split_at p l) as [a' o'] eqn:Hs. inversion H; subst.
      specialize (IH a' o eq_refl). destruct o as [b|].
      * destruct IH as [c' [Hc' ->]]. now exists c'.
      * now subst.
Qed.

Lemma digitpart_chars (l : list ascii) (ds : list nat) :
  digitpart l = Some ds -> all float_char l.
Proof.
  intros H. apply int_char_float. now apply (digitpart_from_chars l false ds).
Qed.

Lemma number_digits_chars (l : list ascii) (r : list nat * list nat) :
  number_digits l = Some r -> all float_char l.
Proof.
  unfold number_digits. intros H.
  destruct (split_at is_dot l) as [ip o] eqn:Hs.
  apply split_at_spec in Hs.
  destruct o as [fp|].
  - destruct Hs as [c [Hc ->]].
    assert (Hdot : float_char c = true).
    { unfold float_char. rewrite Hc. now rewrite orb_true_r. }
    assert (Hnil : all float_char (@nil ascii)) by constructor.
    destruct ip as [|i ip].
    + destruct (digitpart fp) eqn:Hf; [|discriminate].
      apply Forall_app. split; [exact Hnil|].
      constructor; [exact Hdot | now apply (digitpart_chars fp l)].
    + destruct fp as [|f fp].
      * destruct (digitpart (i :: ip)) eqn:Hi; [|discriminate].
        apply Forall_app. split; [now apply (digitpart_chars _ l)|].
        now constructor.
      * destruct (digitpart (i :: ip)) eqn:Hi; [|discriminate].
        destruct (digitpart (f :: fp)) eqn:Hf; [|discriminate].
        apply Forall_app. split; [now apply (digitpart_chars _ l)|].
        constructor; [exact Hdot | now apply (digitpart_chars _ l0)].
  - subst l.
    assert (H' : match digitpart ip with
                 | Some ds => Some (ds, @nil nat)
                 | None => None
                 end = Some r) by (destruct ip; exact H).
    destruct (digitpart ip) as [ds|] eqn:Hi; [|discriminate].
    now apply (digitpart_chars ip ds).
Qed.

Lemma exponent_value_chars (l : list ascii) (e : Z) :
  exponent_value l = Some e -> all float_char l.
Proof.
  unfold exponent_value. intros H.
  destruct (split_sign l) as [neg body] eqn:Hs.
  destruct (digitpart body) as [ds|] eqn:Hd; [|discriminate].
  apply int_char_float. apply (split_sign_chars _ _ _ Hs).
  now apply (digitpart_from_chars body false ds).
Qed.

Lemma lowered_chars (body : list ascii) :
  forall t, lowered body = t ->
    Forall (fun c => In (Str.lower c) (chars t)) body.
Proof.
  unfold lowered.
  induction body as [|c body IH]; intros t H; [constructor|].
  cbn [map string_of_list_ascii] in H. subst t.
  constructor; [now left|].
  specialize (IH _ eq_refl). revert IH. apply Forall_impl.
  intros a Ha. now right.
Qed.

Lemma word_chars (body : list ascii) (t : string) :
  lowered body = t ->
  (forall c, In c (chars t) -> In c (chars "infinityan")) ->
  all float_char body.
Proof.
  intros H Ht. apply lowered_chars in H. revert H. apply Forall_impl.
  intros c Hc. unfold float_char, word_char.
  assert (Hw : existsb (Ascii.eqb (Str.lower c)) (chars "infinityan") = true).
  { apply existsb_exists. exists (Str.lower c). split; [now apply Ht|].
    apply Ascii.eqb_refl. }
  rewrite Hw. now rewrite !orb_true_r.
Qed.

Lemma float_of_chars_chars (l : list ascii) (f : spec_float) :
  float_of_chars l = Some f -> all float_char l.
Proof.
  unfold float_of_chars. intros H.
  destruct (split_sign (Str.strip_chars is_blank l)) as [neg body] eqn:Hs.
  apply stripped_chars.
  { intros c Hc. unfold float_char, int_char. now rewrite Hc. }
  assert (Hbody : all float_char body
                  -> all float_char (Str.strip_chars is_blank l)).
  { intros Hb. unfold split_sign in Hs.
    destruct (Str.strip_chars is_blank l) as [|c r];
      [now inversion Hs; subst|].
    destruct (Ascii.eqb_spec c "-") as [->|Hm].
    - inversion Hs; subst. now constructor.
    - destruct (Ascii.eqb_spec c "+") as [->|Hp].
      + inversion Hs; subst. now constructor.
      + assert (Hl : (neg, body) = (false, c :: r)).
        { rewrite <- Hs.
          destruct c as [[] [] [] [] [] [] [] []]; try reflexivity;
            exfalso; (now apply Hm) || (now apply Hp). }
        inversion Hl; subst. exact Hb. }
  apply Hbody. clear Hbody Hs.
  destruct (String.eqb_spec (lowered body) "inf") as [Hinf|_].
  { apply (word_chars body _ Hinf). cbn. intuition. }
  destruct (String.eqb_spec (lowered body) "infinity") as [Hinf|_].
  { apply (word_chars body _ Hinf). cbn. intuition. }
  cbn [orb] in H.
  destruct (String.eqb_spec (lowered body) "nan") as [Hnan|_].
  { apply (word_chars body _ Hnan). cbn. intuition. }
  destruct (split_at is_exp body) as [mant o] eqn:Hsp.
  apply split_at_spec in Hsp.
  destruct o as [ex|].
  - destruct Hsp as [c [Hc ->]].
    destruct (number_digits mant) as [[ds fs]|] eqn:Hn; [|discriminate].
    destruct (exponent_value ex) as [e|] eqn:He; [|discriminate].
    apply Forall_app. split; [now apply (number_digits_chars mant (ds, fs))|].
    constructor; [|now apply (exponent_value_chars ex e)].
    unfold float_char. rewrite Hc. now rewrite !orb_true_r.
  - subst body.
    destruct (number_digits mant) as [[ds fs]|] eqn:Hn; [|discriminate].
    now apply (number_digits_chars mant (ds, fs)).
Qed.

(** A string [float()] accepts has no character outside [float_char]. *)
Lemma py_float_absent (s : string) (f : spec_float) (c : ascii) :
  py_float s = Some f -> float_char c = false -> ~ In c (chars s).
Proof.
  intros H Hc Hin. apply float_of_chars_chars in H.
  rewrite Forall_forall in H. specialize (H c Hin). congruence.
Qed.

End NumFacts.

(** ** Duration conversion *)

Module DurationFacts.

Import Duration StrFacts NumFacts.

Local Abbreviation chars := list_ascii_of_string.

Lemma absent_app (c : ascii) (p suf : string) :
  ~ In c (chars p) -> ~ In c (chars suf) -> ~ In c (chars (p ++ suf)).
Proof.
  intros Hp Hs Hin. rewrite chars_app in Hin.
  apply in_app_or in Hin. tauto.
Qed.

Lemma not_in_unit (c x : ascii) :
  Ascii.eqb c x = false -> ~ In c (chars (String x "")).
Proof.
  intros H [Hx|[]]. subst. now rewrite Ascii.eqb_refl in H.
Qed.

(** Where the suffix rule gives a value, the code gives the same. *)
Lemma suffix_rule_refined (s : string) (v : pyval) :
  suffix_rule s = Ret v -> convert_duration (PStr s) = Ret v.
Proof.
  unfold suffix_rule, convert_duration.
  cbn [Py.contains Py.replace Py.endswith Py.float Py.int rbind].
  intros H.
  destruct (Str.endswith "km" s) eqn:Ekm.
  - destruct (endswith_split _ _ Ekm) as [p ->].
    change 2%nat with (String.length "km") in H.
    rewrite drop_suffix_app in H.
    destruct (Num.py_float p) as [f|] eqn:Hf; [|discriminate H].
    rewrite contains_suffix.
    rewrite replace_km by (now apply (py_float_absent p f)).
    now rewrite Hf.
  - destruct (Str.endswith "m" s) eqn:Em.
    + destruct (endswith_split _ _ Em) as [p ->].
      change 1%nat with (String.length "m") in H.
      rewrite drop_suffix_app in H.
      destruct (Num.py_int p) as [z|] eqn:Hz; [|discriminate H].
      rewrite contains_absent
        by (apply absent_app;
            [now apply (py_int_absent p z) | now apply not_in_unit]).
      rewrite contains_suffix. cbn [negb].
      rewrite replace_unit by (now apply (py_int_absent p z)).
      now rewrite Hz.
    + destruct (Str.endswith "s" s) eqn:Es.
      * destruct (endswith_split _ _ Es) as [p ->].
        change 1%nat with (String.length "s") in H.
        rewrite drop_suffix_app in H.
        destruct (Num.py_int p) as [z|] eqn:Hz; [|discriminate H].
        rewrite contains_absent
          by (apply absent_app;
              [now apply (py_int_absent p z) | now apply not_in_unit]).
        rewrite contains_absent
          by (apply absent_app;
              [now apply (py_int_absent p z) | now apply not_in_unit]).
        rewrite contains_suffix.
        rewrite replace_unit by (now apply (py_int_absent p z)).
        now rewrite Hz.
      * destruct (Num.py_int s) as [z|] eqn:Hz; [|discriminate H].
        rewrite !contains_absent by (now apply (py_int_absent s z)).
        exact H.
Qed.

End DurationFacts.


(** ** Dates *)

Module DateFacts.

Import Dates DateOrder.

Lemma valid_spec (d : date) :
  valid d = true <->
  1 <= year d <= 9999 /\ 1 <= month d <= 12
  /\ 1 <= day d <= days_in_month (year d) (month d).
Proof.
  unfold valid. rewrite !andb_true_iff, !Z.leb_le. tauto.
Qed.

Lemma days_in_month_bounds (y m : Z) :
  1 <= m <= 12 -> 28 <= days_in_month y m <= 31.
Proof.
  intros H. unfold days_in_month.
  assert (Hm : m = 1 \/ m = 2 \/ m = 3 \/ m = 4 \/ m = 5 \/ m = 6 \/ m = 7
               \/ m = 8 \/ m = 9 \/ m = 10 \/ m = 11 \/ m = 12) by lia.
  repeat (destruct Hm as [->|Hm]; [try lia; destruct (is_leap y); lia|]).
  subst. lia.
Qed.

Lemma prev_day_before (d d' : date) :
  valid d = true -> prev_day d = Some d' -> valid d' = true /\ before d' d.
Proof.
  rewrite !valid_spec. unfold prev_day, before. intros (Hy & Hm & Hd) H.
  destruct (Z.ltb_spec 1 (day d)).
  - inversion H; subst; cbn. lia.
  - destruct (Z.ltb_spec 1 (month d)).
    + inversion H; subst; cbn.
      pose proof (days_in_month_bounds (year d) (month d - 1)). lia.
    + destruct (Z.ltb_spec 1 (year d)); [|discriminate].
      inversion H; subst; cbn. lia.
Qed.

Lemma before_trans (a b c : date) : before a b -> before b c -> before a c.
Proof. unfold before. lia. Qed.

Lemma steps_prev_before (n : nat) :
  forall d d', valid d = true -> steps prev_day (S n) d = Some d' ->
               valid d' = true /\ before d' d.
Proof.
  induction n as [|n IH]; intros d d' Hv H; cbn [steps] in H.
  - destruct (prev_day d) as [d1|] eqn:H1; [|discriminate].
    inversion H; subst. now apply prev_day_before.
  - destruct (prev_day d) as [d1|] eqn:H1; [|discriminate].
    destruct (prev_day_before d d1 Hv H1) as [Hv1 Hb1].
    destruct (IH d1 d' Hv1 H) as [Hv' Hb'].
    split; [exact Hv'|]. now apply (before_trans d' d1 d).
Qed.

(** Sixty days back lies before one day back. *)
Lemma minus_60_before_minus_1 (d d60 : date) :
  valid d = true -> minus_days 60 d = Some d60 ->
  exists d1, minus_days 1 d = Some d1
             /\ valid d60 = true /\ valid d1 = true /\ before d60 d1.
Proof.
  unfold minus_days. intros Hv H.
  change 60%nat with (S 59) in H. cbn [steps] in H.
  destruct (prev_day d) as [d1|] eqn:H1; [|discriminate].
  exists d1. cbn [steps]. rewrite H1.
  destruct (prev_day_before d d1 Hv H1) as [Hv1 _].
  destruct (steps_prev_before 58 d1 d60 Hv1 H) as [Hv60 Hb].
  repeat split; trivial.
Qed.

Lemma nat_of_digit (k : Z) :
  0 <= k <= 9 -> nat_of_ascii (digit k) = (48 + Z.to_nat k)%nat.
Proof.
  intros H. unfold digit. apply nat_ascii_embedding. lia.
Qed.

Lemma ltb_cons (x y : ascii) (a b : string) :
  Str.ltb (String x a) (String y b) =
  ((nat_of_ascii x <? nat_of_ascii y)
   || (nat_of_ascii x =? nat_of_ascii y) && Str.ltb a b)%nat.
Proof. reflexivity. Qed.

Lemma ltb_app_same (p a b : string) : Str.ltb (p ++ a) (p ++ b) = Str.ltb a b.
Proof.
  induction p as [|c p IH]; [reflexivity|].
  cbn [append]. rewrite ltb_cons, Nat.ltb_irrefl, Nat.eqb_refl. exact IH.
Qed.

Lemma ltb_app_lt (a : string) :
  forall b x y, String.length a = String.length b ->
                Str.ltb a b = true -> Str.ltb (a ++ x) (b ++ y) = true.
Proof.
  induction a as [|c a IH]; intros [|e b] x y Hlen H; try discriminate.
  cbn [append]. rewrite ltb_cons in *.
  apply orb_true_iff in H. destruct H as [H|H]; [now rewrite H|].
  apply andb_true_iff in H. destruct H as [He H].
  rewrite He, (IH b x y); [apply orb_true_r | now inversion Hlen | exact H].
Qed.

Ltac compare_digits :=
  lazymatch goal with
  | |- ((?a <? ?b)%nat || _) = true =>
      destruct (Nat.ltb_spec a b); [reflexivity|];
      cbn [orb];
      lazymatch goal with
      | |- ((?x =? ?y)%nat && _) = true =>
          destruct (Nat.eqb_spec x y); [cbn [andb]; compare_digits|];
          exfalso; lia
      end
  | |- false = true => exfalso; lia
  end.

Lemma pad2_digits (n : Z) :
  0 <= n <= 99 ->
  exists a b, 0 <= a <= 9 /\ 0 <= b <= 9 /\ n = 10 * a + b
              /\ pad2 n = String (digit a) (String (digit b) "").
Proof.
  intros H. exists (n / 10 mod 10), (n mod 10).
  repeat split; try reflexivity; Z.div_mod_to_equations; lia.
Qed.

Lemma pad4_digits (n : Z) :
  0 <= n <= 9999 ->
  exists a b c e,
    0 <= a <= 9 /\ 0 <= b <= 9 /\ 0 <= c <= 9 /\ 0 <= e <= 9
    /\ n = 1000 * a + 100 * b + 10 * c + e
    /\ pad4 n = String (digit a) (String (digit b)
                  (String (digit c) (String (digit e) ""))).
Proof.
  intros H.
  exists (n / 1000 mod 10), (n / 100 mod 10), (n / 10 mod 10), (n mod 10).
  repeat split; try reflexivity; Z.div_mod_to_equations; lia.
Qed.

Lemma pad2_lt (m n : Z) :
  0 <= m < n -> n <= 99 -> Str.ltb (pad2 m) (pad2 n) = true.
Proof.
  intros H Hn.
  destruct (pad2_digits m) as (a & b & Ha & Hb & Hm & ->); [lia|].
  destruct (pad2_digits n) as (a' & b' & Ha' & Hb' & Hn' & ->); [lia|].
  rewrite !ltb_cons, !nat_of_digit by assumption.
  cbn [Str.ltb]. compare_digits.
Qed.

Lemma pad4_lt (m n : Z) :
  0 <= m < n -> n <= 9999 -> Str.ltb (pad4 m) (pad4 n) = true.
Proof.
  intros H Hn.
  destruct (pad4_digits m)
    as (a & b & c & e & Ha & Hb & Hc & He & Hm & ->); [lia|].
  destruct (pad4_digits n)
    as (a' & b' & c' & e' & Ha' & Hb' & Hc' & He' & Hn' & ->); [lia|].
  rewrite !ltb_cons, !nat_of_digit by assumption.
  cbn [Str.ltb]. compare_digits.
Qed.

(** On valid dates the printed form sorts as the calendar does. *)
Lemma strftime_before (a b : date) :
  valid a = true -> valid b = true -> before a b ->
  Str.ltb (strftime a) (strftime b) = true.
Proof.
  rewrite !valid_spec. intros (Hya & Hma & Hda) (Hyb & Hmb & Hdb) Hlt.
  pose proof (days_in_month_bounds (year a) (month a) Hma).
  pose proof (days_in_month_bounds (year b) (month b) Hmb).
  unfold strftime.
  destruct Hlt as [Hy|[Hy [Hm|[Hm Hd]]]].
  - apply ltb_app_lt; [reflexivity|]. apply pad4_lt; lia.
  - rewrite Hy, ltb_app_same, ltb_app_same.
    apply ltb_app_lt; [reflexivity|]. apply pad2_lt; lia.
  - rewrite Hy, Hm, !ltb_app_same.
    apply pad2_lt; lia.
Qed.

(** The guard of the supplementary fetch holds whenever both of its
    dates exist. *)
Lemma older_window_ordered (d d60 : date) :
  valid d = true -> minus_days 60 d = Some d60 ->
  exists d1, minus_days 1 d = Some d1
             /\ Str.ltb (strftime d60) (strftime d1) = true.
Proof.
  intros Hv H.
  destruct (minus_60_before_minus_1 d d60 Hv H) as (d1 & H1 & V60 & V1 & Hb).
  exists d1. split; [exact H1|]. now apply strftime_before.
Qed.

Lemma fromisoformat_valid (s : string) (d : date) :
  fromisoformat s = Some d -> valid d = true.
Proof.
  unfold fromisoformat. intros H.
  repeat match type of H with
         | (if ?b then _ else _) = Some _ =>
             let E := fresh "E" in destruct b eqn:E; try discriminate H
         | match ?x with _ => _ end = Some _ => destruct x; try discriminate H
         end.
  now inversion H; subst.
Qed.

Lemma digit_of_digit (k : Z) :
  0 <= k <= 9 -> Num.digit_of (digit k) = Some (Z.to_nat k).
Proof.
  intros H. unfold Num.digit_of. rewrite (nat_of_digit k H).
  assert (Hn : (Z.to_nat k <= 9)%nat) by lia.
  destruct (Nat.leb_spec 48 (48 + Z.to_nat k)); [|lia].
  destruct (Nat.leb_spec (48 + Z.to_nat k) 57); [|lia].
  cbn [andb]. f_equal. lia.
Qed.

Lemma number2_digits (a b : Z) :
  0 <= a <= 9 -> 0 <= b <= 9 ->
  number2 (digit a) (digit b) = Some (10 * a + b).
Proof.
  intros Ha Hb. unfold number2.
  rewrite (digit_of_digit a Ha), (digit_of_digit b Hb).
  f_equal. lia.
Qed.

(** What [strftime] prints, [fromisoformat] reads back. *)
Lemma strftime_roundtrip (d : date) :
  valid d = true -> fromisoformat (strftime d) = Some d.
Proof.
  intros Hv. pose proof Hv as Hv'. apply valid_spec in Hv'.
  destruct d as [y m dd]. cbn [year month day] in Hv'.
  destruct Hv' as (Hy & Hm & Hd).
  pose proof (days_in_month_bounds y m Hm) as Hdim.
  destruct (pad4_digits y) as (a & b & c & e & Ha & Hb & Hc & He & Ey & Py);
    [lia|].
  destruct (pad2_digits m) as (m1 & m0 & Hm1 & Hm0 & Em & Pm); [lia|].
  destruct (pad2_digits dd) as (d1 & d0 & Hd1 & Hd0 & Ed & Pd); [lia|].
  unfold fromisoformat, strftime. cbn [year month day].
  rewrite Py, Pm, Pd. cbn [append list_ascii_of_string].
  unfold number4.
  rewrite (number2_digits a b Ha Hb), (number2_digits c e Hc He),
    (number2_digits m1 m0 Hm1 Hm0), (number2_digits d1 d0 Hd1 Hd0).
  replace (100 * (10 * a + b) + (10 * c + e)) with y by lia.
  rewrite <- Em, <- Ed. now rewrite Hv.
Qed.
(** Thirty days before a valid today is a date [fromisoformat] reads
    back: the default start date is always well formed. *)
Lemma default_start_parses (today d30 : date) :
  valid today = true -> minus_days 30 today = Some d30 ->
  fromisoformat (strftime d30) = Some d30.
Proof.
  intros Hv H. apply strftime_roundtrip.
  now destruct (steps_prev_before 29 today d30 Hv H).
Qed.

End DateFacts.

(** ** The handler monad *)

Module MonadFacts.

Import Tools.

Section Laws.

Context {W A B : Type}.

Lemma bind_ret (m : M W A) (k : A -> M W B) (st st1 : state W) (a : A) :
  m st = (Ret a, st1) -> bind m k st = k a st1.
Proof. unfold bind. now intros ->. Qed.

Lemma bind_inv (m : M W A) (k : A -> M W B) (st st2 : state W) (b : B) :
  bind m k st = (Ret b, st2) ->
  exists a st1, m st = (Ret a, st1) /\ k a st1 = (Ret b, st2).
Proof.
  unfold bind. destruct (m st) as [[a|e] st1]; intros H.
  - now exists a, st1.
  - discriminate.
Qed.

Lemma lift_inv (r : res A) (st st1 : state W) (a : A) :
  lift r st = (Ret a, st1) -> r = Ret a /\ st1 = st.
Proof. unfold lift. intros H. now inversion H. Qed.

Lemma ret_inv (x a : A) (st st1 : state W) :
  ret x st = (Ret a, st1) -> x = a /\ st1 = st.
Proof. unfold ret. intros H. now inversion H. Qed.

End Laws.

End MonadFacts.

(** ** Credentials *)

Module CredentialFacts.

Import Tools.

Lemma absent_resolve (explicit : option string) (default : string) :
  absent explicit = true -> default = "" -> resolve explicit default = "".
Proof.
  destruct explicit as [x|]; cbn; intros H Hd; [|exact Hd].
  now apply String.eqb_eq.
Qed.

Lemma eqb_empty_false (s : string) : s <> "" -> String.eqb s "" = false.
Proof. intros H. now apply String.eqb_neq. Qed.

Section Handlers.

Context {W : Type} (E : Env W).

Variables (athlete_id api_key : option string).

(** The check on the athlete id comes first in the four handlers that
    take one. *)
Lemma athlete_id_checked_first :
  resolve athlete_id (ATHLETE_ID (settings E)) = "" ->
  (forall s e limit unnamed st,
      get_activities E athlete_id api_key s e limit unnamed st
      = (Ret (PStr no_athlete_id), st))
  /\ (forall s e st,
         get_events E athlete_id api_key s e st = (Ret (PStr no_athlete_id), st))
  /\ (forall id st,
         get_event_by_id E id athlete_id api_key st
         = (Ret (PStr no_athlete_id), st))
  /\ (forall s name data st,
         post_events E athlete_id api_key s name data st
         = (Ret (PStr no_athlete_id), st)).
Proof.
  intros Ha. repeat split; intros;
    unfold get_activities, select_activities, get_events, get_event_by_id,
      post_events;
    rewrite Ha; reflexivity.
Qed.

Lemma api_key_checked_next :
  resolve athlete_id (ATHLETE_ID (settings E)) <> "" ->
  resolve api_key (API_KEY (settings E)) = "" ->
  (forall s e limit unnamed st,
      get_activities E athlete_id api_key s e limit unnamed st
      = (Ret (PStr no_api_key), st))
  /\ (forall s e st,
         get_events E athlete_id api_key s e st = (Ret (PStr no_api_key), st))
  /\ (forall id st,
         get_event_by_id E id athlete_id api_key st
         = (Ret (PStr no_api_key), st))
  /\ (forall s name data st,
         post_events E athlete_id api_key s name data st
         = (Ret (PStr no_api_key), st)).
Proof.
  intros Ha Hk. apply eqb_empty_false in Ha. repeat split; intros;
    unfold get_activities, select_activities, get_events, get_event_by_id,
      post_events;
    rewrite Ha, Hk; reflexivity.
Qed.

Lemma api_key_checked_alone :
  resolve api_key (API_KEY (settings E)) = "" ->
  (forall id st,
      get_activity_details E id api_key st = (Ret (PStr no_api_key), st))
  /\ (forall id st,
         get_activity_intervals E id api_key st = (Ret (PStr no_api_key), st)).
Proof.
  intros Hk. split; intros;
    unfold get_activity_details, get_activity_intervals;
    rewrite Hk; reflexivity.
Qed.

End Handlers.

End CredentialFacts.

(** ** The payload of [post_events] *)

Module PayloadFacts.

Import Tools.

Lemma rbind_inv {A B} (m : res A) (k : A -> res B) (b : B) :
  rbind m k = Ret b -> exists a, m = Ret a /\ k a = Ret b.
Proof. destruct m as [a|e]; cbn; intros H; [now exists a | discriminate]. Qed.

(** The two fields inferred from the name, as the payload carries them. *)
Lemma final_data_fields {W} (E : Env W) (start name : string)
  (data payload : pyval) :
  final_data E start (PStr name) data = Ret payload ->
  exists description moving_time,
    payload =
    PDict [("start_date_local", PStr (start ++ "T00:00:00"));
           ("category", PStr "WORKOUT");
           ("name", PStr name);
           ("description", PStr description);
           ("type", PStr (if Str.contains "Bike" name then "Ride"
                          else if Str.contains "Run" name then "Run"
                          else "Swim"));
           ("target", PStr (if Str.contains "Power" name then "POWER"
                            else if Str.contains "pace" name then "PACE"
                            else if Str.contains "hr" name then "HR"
                            else "AUTO"));
           ("moving_time", moving_time)].
Proof.
  unfold final_data. intros H.
  apply rbind_inv in H. destruct H as (expanded_steps & _ & H).
  apply rbind_inv in H. destruct H as (steps & _ & H).
  apply rbind_inv in H. destruct H as (description_lines & _ & H).
  cbn [Py.contains rbind] in H.
  apply rbind_inv in H. destruct H as (type & Htype & H).
  apply rbind_inv in H. destruct H as (target & Htarget & H).
  apply rbind_inv in H. destruct H as (moving_time & _ & H).
  exists (Str.strip (Str.join nl description_lines)), moving_time.
  inversion H; subst payload; clear H.
  assert (type = if Str.contains "Bike" name then "Ride"
                 else if Str.contains "Run" name then "Run" else "Swim")
    as <-.
  { destruct (Str.contains "Bike" name); [now inversion Htype|].
    cbn [rbind] in Htype. now inversion Htype. }
  assert (target = if Str.contains "Power" name then "POWER"
                   else if Str.contains "pace" name then "PACE"
                   else if Str.contains "hr" name then "HR" else "AUTO")
    as <-.
  { destruct (Str.contains "Power" name); [now inversion Htarget|].
    cbn [rbind] in Htarget.
    destruct (Str.contains "pace" name); [now inversion Htarget|].
    cbn [rbind] in Htarget. now inversion Htarget. }
  reflexivity.
Qed.

End PayloadFacts.

(** ** Normalization of the activities payload *)

Module NormalizeFacts.

Import Tools Zones.

Lemma dicts_all (l : list pyval) : all_dicts l -> dicts l = l.
Proof.
  unfold dicts, all_dicts. induction 1 as [|v l Hv Hl IH]; cbn; [reflexivity|].
  now rewrite Hv, IH.
Qed.

Lemma dicts_dicts (l : list pyval) : all_dicts (dicts l).
Proof.
  unfold dicts, all_dicts. apply Forall_forall. intros v Hv.
  now apply filter_In in Hv.
Qed.

Lemma normalize_list (acts : list pyval) :
  all_dicts acts -> normalize (PList acts) = acts.
Proof. intros H. now apply dicts_all. Qed.

Lemma normalize_container (d : list (string * pyval)) (acts : list pyval) :
  all_dicts acts -> acts <> [] -> first_list d = Some acts ->
  normalize (PDict d) = acts.
Proof.
  intros H Hne Hf. unfold normalize. rewrite Hf, (dicts_all acts H).
  destruct acts; [congruence | reflexivity].
Qed.

Lemma normalize_single (a : list (string * pyval)) :
  existsb (fun key => Py.has_key key a) activity_keys = true ->
  (forall l, first_list a = Some l -> dicts l = []) ->
  normalize (PDict a) = [PDict a].
Proof.
  intros Hk Hl. unfold normalize.
  destruct (first_list a) as [l|].
  - rewrite (Hl l eq_refl). now rewrite Hk.
  - now rewrite Hk.
Qed.

(** Whatever the payload, normalization yields mappings only. *)
Lemma normalize_dicts (result : pyval) : all_dicts (normalize result).
Proof.
  destruct result; cbn [normalize]; try constructor.
  - apply dicts_dicts.
  - destruct (first_list d) as [l|].
    + destruct (dicts l) eqn:Hl.
      * destruct (existsb _ _); repeat constructor.
      * rewrite <- Hl. apply dicts_dicts.
    + destruct (existsb _ _); repeat constructor.
Qed.

End NormalizeFacts.

(** ** The zone listings of [get_activity_details] *)

Module ZoneFacts.

Import Tools Zones.



End ZoneFacts.

(** ** Filtering of unnamed activities *)

Module FilterFacts.

Import Tools Zones MonadFacts.

Lemma kept_holds (activity : pyval) :
  Named.kept activity = true -> NamedActivity.holds activity.
Proof.
  destruct activity; try discriminate. unfold Named.kept, Py.dict_get.
  intros H. apply andb_true_iff in H. destruct H as [Ht Hn].
  destruct (Py.lookup "name" d) as [name|] eqn:Hl; [|discriminate].
  exists d, name. repeat split; trivial.
  intros ->. cbn in Hn. discriminate.
Qed.

Lemma named_kept (d : list (string * pyval)) :
  named (PDict d) = Ret (Named.kept (PDict d)).
Proof.
  unfold named, Named.kept. cbn [Py.get rbind].
  change (Py.dict_get_or "name" PNone d) with (Py.dict_get "name" d).
  now destruct (Py.truthy (Py.dict_get "name" d)).
Qed.

Lemma filterM_named (l : list pyval) :
  all_dicts l -> filterM named l = Ret (filter Named.kept l).
Proof.
  induction 1 as [|a l Ha Hl IH]; [reflexivity|].
  destruct a; try discriminate.
  cbn [filterM filter]. rewrite named_kept, IH. reflexivity.
Qed.

Lemma filterM_dict_and_named (l : list pyval) :
  filterM dict_and_named l = Ret (filter Named.kept l).
Proof.
  induction l as [|a l IH]; [reflexivity|].
  cbn [filterM filter]. rewrite IH. unfold dict_and_named.
  destruct a; try reflexivity.
  cbn [Py.is_dict]. rewrite named_kept. reflexivity.
Qed.

Lemma filter_kept (l : list pyval) :
  Forall NamedActivity.holds (filter Named.kept l).
Proof.
  apply Forall_forall. intros a Ha. apply filter_In in Ha.
  now apply kept_holds.
Qed.

Lemma firstn_Forall {A} (P : A -> Prop) (n : nat) (l : list A) :
  Forall P l -> Forall P (firstn n l).
Proof.
  intros H. rewrite <- (firstn_skipn n l) in H.
  apply Forall_app in H. tauto.
Qed.

Lemma slice_to_Forall {A} (P : A -> Prop) (l : list A) (limit : Z) :
  Forall P l -> Forall P (slice_to l limit).
Proof.
  intros H. unfold slice_to.
  destruct (0 <=? limit); now apply firstn_Forall.
Qed.

Section Selection.

Context {W : Type} (E : Env W).

(** The supplementary fetch only ever adds named activities. *)
Lemma fetch_more_named (id key start : string) (api_limit : Z)
  (acts acts' : list pyval) (st st' : state W) :
  Forall NamedActivity.holds acts ->
  fetch_more E id key start api_limit acts st = (Ret acts', st') ->
  Forall NamedActivity.holds acts'.
Proof.
  intros Hacts H. unfold fetch_more in H.
  apply bind_inv in H. destruct H as (d & st1 & _ & H).
  apply bind_inv in H. destruct H as (older_start & st2 & _ & H).
  apply bind_inv in H. destruct H as (older_end & st3 & _ & H).
  destruct (Str.ltb older_start older_end).
  - apply bind_inv in H. destruct H as (more & st4 & _ & H).
    destruct more;
      try (apply ret_inv in H; destruct H as [<- _]; exact Hacts).
    apply bind_inv in H. destruct H as (more_acts & st5 & Hm & H).
    apply lift_inv in Hm. destruct Hm as [Hm _].
    rewrite filterM_dict_and_named in Hm. inversion Hm; subst more_acts.
    apply ret_inv in H. destruct H as [<- _].
    apply Forall_app. split; [exact Hacts | apply filter_kept].
  - apply ret_inv in H. destruct H as [<- _]. exact Hacts.
Qed.

(** With [include_unnamed=false] only named activities are selected. *)
Lemma selected_named (athlete_id api_key start_date end_date : option string)
  (limit : Z) (st st' : state W) (acts : list pyval) :
  select_activities E athlete_id api_key start_date end_date limit false st
  = (Ret (Activities acts), st') ->
  Forall NamedActivity.holds acts.
Proof.
  unfold select_activities. intros H.
  destruct (String.eqb _ ""); [discriminate|].
  destruct (String.eqb _ ""); [discriminate|].
  apply bind_inv in H. destruct H as (start & st1 & _ & H).
  apply bind_inv in H. destruct H as (end_ & st2 & _ & H).
  apply bind_inv in H. destruct H as (result & st3 & _ & H).
  destruct (is_error result); [discriminate|].
  destruct (negb (Py.truthy result)); [discriminate|].
  pose proof (NormalizeFacts.normalize_dicts result) as Hd.
  destruct (normalize result) as [|a0 l0]; [discriminate|].
  apply bind_inv in H. destruct H as (activities & st4 & Hsel & H).
  assert (Hnamed : Forall NamedActivity.holds activities).
  { cbn [negb] in Hsel.
    apply bind_inv in Hsel. destruct Hsel as (filtered & st5 & Hf & Hsel).
    apply lift_inv in Hf. destruct Hf as [Hf _].
    rewrite (filterM_named _ Hd) in Hf.
    assert (Hx : filtered = filter Named.kept (a0 :: l0)) by congruence.
    subst filtered. clear Hf.
    destruct (Z.of_nat _ <? limit).
    - eapply fetch_more_named; [apply filter_kept | exact Hsel].
    - apply ret_inv in Hsel. destruct Hsel as [<- _]. apply filter_kept. }
  destruct (slice_to activities limit) as [|a1 l1] eqn:Hs; [discriminate|].
  apply ret_inv in H. destruct H as [H _]. inversion H; subst acts.
  rewrite <- Hs. now apply slice_to_Forall.
Qed.

End Selection.

End FilterFacts.

(** ** The supplementary fetch *)

Module FetchFacts.

Import Tools Zones MonadFacts.

Lemma normalize_falsy (result : pyval) :
  Py.truthy result = false -> normalize result = [].
Proof.
  destruct result; cbn; try reflexivity.
  - destruct l; [reflexivity | discriminate].
  - destruct d; [reflexivity | discriminate].
Qed.

Section Fetch.

Context {W : Type} (E : Env W).

(** Whatever is read as a date is a date of the calendar. *)
Lemma date_read_valid (s : string) (d : Dates.date) :
  fromisoformat E s = Some d -> Dates.valid d = true.
Proof.
  unfold fromisoformat.
  destruct (Dates.fromisoformat s) as [d0|] eqn:H0.
  - intros H. inversion H; subst. exact (DateFacts.fromisoformat_valid _ _ H0).
  - destruct (other_isoformats E s) as [d1|]; [|discriminate].
    destruct (Dates.valid d1) eqn:Hv; [|discriminate].
    intros H. now inversion H; subst.
Qed.

(** The form [YYYY-MM-DD] is read whatever the further forms are. *)
Lemma date_form_read (s : string) (d : Dates.date) :
  Dates.fromisoformat s = Some d -> fromisoformat E s = Some d.
Proof. unfold fromisoformat. now intros ->. Qed.


End Fetch.

End FetchFacts.

(** ** The gateway *)

Module GatewayFacts.

Import Http.

(** [logger] is not among the names of the module. *)
Lemma logger_unbound : logger_error = Raise NameError.
Proof. reflexivity. Qed.

Lemma table_get_absent (code : Z) (t : list (Z * string)) (default : string) :
  ~ In code (map fst t) -> table_get code t default = default.
Proof.
  induction t as [|[c m] t IH]; cbn; intros H; [reflexivity|].
  destruct (Z.eqb_spec code c) as [->|_]; [exfalso; now apply H; left|].
  apply IH. intros Hin. apply H. now right.
Qed.

(** A status outside the table keeps the body of the response. *)
Lemma custom_message_other (code : Z) (body : string) :
  ~ In code (map fst error_messages) -> custom_message code body = body.
Proof.
  intros H. unfold custom_message.
  destruct (HTTPStatus code) as [status|] eqn:Hs; [|reflexivity].
  unfold HTTPStatus in Hs. destruct (existsb _ _); [|discriminate].
  inversion Hs; subst. now apply table_get_absent.
Qed.

(** The seven statuses of the table have their fixed messages. *)
Lemma custom_message_table (body : string) :
  Str.contains "check your API key" (custom_message 401 body) = true
  /\ Str.contains "permission" (custom_message 403 body) = true
  /\ Str.contains "doesn't exist" (custom_message 404 body) = true
  /\ Str.contains "couldn't process the request" (custom_message 422 body)
     = true
  /\ Str.contains "Too many requests" (custom_message 429 body) = true
  /\ Str.contains "internal error" (custom_message 500 body) = true
  /\ Str.contains "might be down" (custom_message 503 body) = true.
Proof. repeat split; vm_compute; reflexivity. Qed.

(** What the handler of [HTTPStatusError] builds once its logging call
    has returned. *)
Lemma outcome_logged (r : response) :
  is_success (status_code r) = false ->
  outcome (Ret tt) (Responded r)
  = Ret (status_envelope (status_code r)
           (custom_message (status_code r) (text r))).
Proof. intros H. unfold outcome. now rewrite H. Qed.

(** As the module stands, every handler of the [try] statement stops at
    its logging call. *)
Lemma outcome_unlogged (rep : reply) :
  outcome logger_error rep = Raise NameError
  \/ exists r, rep = Responded r /\ is_success (status_code r) = true.
Proof.
  destruct rep as [r|msg|msg]; try (now left).
  unfold outcome. destruct (is_success (status_code r)) eqn:Hs.
  - right. now exists r.
  - now left.
Qed.

End GatewayFacts.

(** ** Where a handler can raise *)

Module SafeFacts.

Import Tools Zones MonadFacts Safe.

Section Raise.

Context {W A B : Type}.

Lemma bind_raise_inv (m : M W A) (k : A -> M W B) (st st2 : state W)
  (e : exn) :
  bind m k st = (Raise e, st2) ->
  m st = (Raise e, st2)
  \/ exists a st1, m st = (Ret a, st1) /\ k a st1 = (Raise e, st2).
Proof.
  unfold bind. destruct (m st) as [[a|e'] st1]; intros H.
  - right. now exists a, st1.
  - left. now inversion H.
Qed.

Lemma ret_raise (a : A) (st st' : state W) (e : exn) :
  ret a st = (Raise e, st') -> False.
Proof. unfold ret. discriminate. Qed.

End Raise.

Section Handlers.

Context {W : Type} (E : Env W).

Hypothesis gateway : gateway_returns E.
Hypothesis clock : clock_in_range E.

Lemma get_returns (req : Http.request) (st : state W) :
  exists v st', call (make_intervals_request E) req st = (Ret v, st').
Proof.
  destruct (proj1 (gateway req (world st))) as (v & w' & H).
  unfold call. rewrite H. now eexists _, _.
Qed.

Lemma post_returns (req : Http.request) (st : state W) :
  exists v st', call (post_intervals_data E) req st = (Ret v, st').
Proof.
  destruct (proj2 (gateway req (world st))) as (v & w' & H).
  unfold call. rewrite H. now eexists _, _.
Qed.

Lemma date_or_returns (given : option string)
  (shift : Dates.date -> option Dates.date) (st : state W) :
  shift (now E (world st)) <> None ->
  exists s, date_or E given shift st = (Ret s, st).
Proof.
  intros H. unfold date_or, today_shifted.
  destruct (absent given); [|now eexists].
  destruct (shift (now E (world st))); [now eexists | congruence].
Qed.

Lemma start_minus_30 (given : option string) (st : state W) :
  exists s, date_or E given (Dates.minus_days 30) st = (Ret s, st).
Proof. apply date_or_returns. apply clock. Qed.

Lemma start_plus_30 (given : option string) (st : state W) :
  exists s, date_or E given (Dates.plus_days 30) st = (Ret s, st).
Proof. apply date_or_returns. apply clock. Qed.

Lemma start_today (given : option string) (st : state W) :
  exists s, date_or E given Some st = (Ret s, st).
Proof. apply date_or_returns. discriminate. Qed.

(** Steps a handler takes that cannot raise. *)
Ltac step H :=
  match type of H with
  | bind (date_or E ?g (Dates.minus_days 30)) _ ?st = _ =>
      let s := fresh "start" in let Hs := fresh "Hstart" in
      destruct (start_minus_30 g st) as [s Hs];
      rewrite (bind_ret _ _ _ _ _ Hs) in H
  | bind (date_or E ?g (Dates.plus_days 30)) _ ?st = _ =>
      let s := fresh "date" in let Hs := fresh "Hdate" in
      destruct (start_plus_30 g st) as [s Hs];
      rewrite (bind_ret _ _ _ _ _ Hs) in H
  | bind (date_or E ?g Some) _ ?st = _ =>
      let s := fresh "date" in let Hs := fresh "Hdate" in
      destruct (start_today g st) as [s Hs];
      rewrite (bind_ret _ _ _ _ _ Hs) in H
  | bind (call (make_intervals_request E) ?req) _ ?st = _ =>
      let v := fresh "result" in let st1 := fresh "st" in
      let Hc := fresh "Hcall" in
      destruct (get_returns req st) as (v & st1 & Hc);
      rewrite (bind_ret _ _ _ _ _ Hc) in H
  | bind (call (post_intervals_data E) ?req) _ ?st = _ =>
      let v := fresh "result" in let st1 := fresh "st" in
      let Hc := fresh "Hcall" in
      destruct (post_returns req st) as (v & st1 & Hc);
      rewrite (bind_ret _ _ _ _ _ Hc) in H
  | (if ?b then _ else _) _ = (Raise _, _) => destruct b
  | ret _ _ = (Raise _, _) => exfalso; exact (ret_raise _ _ _ _ H)
  end.






(** The supplementary fetch raises only out of its date arithmetic. *)
Lemma fetch_more_raise (id key start : string) (api_limit : Z)
  (acts : list pyval) (st st' : state W) (e : exn) :
  fetch_more E id key start api_limit acts st = (Raise e, st') ->
  (fromisoformat E start = None /\ e = ValueError)
  \/ exists d, fromisoformat E start = Some d
               /\ Dates.minus_days 60 d = None /\ e = OverflowError.
Proof.
  unfold fetch_more, bind, lift.
  destruct (fromisoformat E start) as [d|] eqn:Hd;
    [|intros H; left; split; [reflexivity | now inversion H]].
  intros H. right. exists d. split; [reflexivity|].
  destruct (Dates.minus_days 60 d) as [d60|] eqn:H60;
    [|split; [reflexivity | now inversion H]].
  exfalso.
  destruct (DateFacts.older_window_ordered d d60
              (FetchFacts.date_read_valid E _ _ Hd) H60) as (d1 & H1 & _).
  rewrite H1 in H.
  destruct (Str.ltb _ _); [|now repeat step H].
  match type of H with
  | context [call (make_intervals_request E) ?req ?st0] =>
      destruct (get_returns req st0) as (more & st1 & Hc); rewrite Hc in H
  end.
  destruct more; try (now repeat step H).
  rewrite FilterFacts.filterM_dict_and_named in H.
  discriminate.
Qed.

Lemma get_activities_raise
  (athlete_id api_key start_date end_date : option string) (limit : Z)
  (include_unnamed : bool) (st st' : state W) (e : exn) :
  get_activities E athlete_id api_key start_date end_date limit
    include_unnamed st = (Raise e, st') ->
  include_unnamed = false
  /\ exists start,
       date_or E start_date (Dates.minus_days 30) st = (Ret start, st)
       /\ ((fromisoformat E start = None /\ e = ValueError)
           \/ exists d, fromisoformat E start = Some d
                        /\ Dates.minus_days 60 d = None
                        /\ e = OverflowError).
Proof.
  unfold get_activities. intros H.
  apply bind_raise_inv in H.
  destruct H as [H|(sel & st1 & _ & H)];
    [|destruct sel; exfalso; exact (ret_raise _ _ _ _ H)].
  unfold select_activities in H.
  repeat step H.
  pose proof (NormalizeFacts.normalize_dicts result) as Hd.
  destruct (normalize result) as [|a0 l0]; [now repeat step H|].
  apply bind_raise_inv in H.
  destruct H as [H|(acts & st1 & _ & H)].
  - destruct include_unnamed; cbn [negb] in H; [now repeat step H|].
    split; [reflexivity|]. exists start. split; [exact Hstart|].
    unfold bind at 1 in H. unfold lift in H.
    rewrite (FilterFacts.filterM_named _ Hd) in H.
    destruct (Z.of_nat _ <? limit); [|now repeat step H].
    now apply fetch_more_raise in H.
  - destruct (slice_to acts limit); repeat step H.
Qed.


End Handlers.




End SafeFacts.

(** ** The deployed server *)

Module DeployedFacts.

(** Linked against the gateway of [utils/functions.py], a handler has no
    envelope to report when the service answers 401: the [NameError] of
    the gateway goes through it. *)
Lemma http_error_reaches_caller :
  fst (Tools.get_events
         (Tools.deployed Demo.remote (mkConfig "key" "i1")
            (fun _ => Dates.mkdate 2025 1 14) Demo.dates_only
            (Demo.label "Activity") (Demo.label "Intervals")
            (Demo.label "Event") (Demo.label "Event") Demo.show)
         None None None None
         (Tools.mkstate
            [Http.Responded (Http.mkresponse 401 "Unauthorized" (inr "not JSON"))]
            []))
  = Raise NameError.
Proof. reflexivity. Qed.

End DeployedFacts.

(** ** Expansion of repeated steps *)

Module RepeatFacts.

Import Repeats Steps.

Section Expand.

Variable same : pyval -> pyval -> bool.

Lemma plain_is_no_repeat (step : pyval) :
  plain step ->
  is_repeat step = Ret false
  /\ Py.contains "duration" step = Ret (has_duration step).
Proof.
  intros (d & -> & H). split; [|reflexivity].
  unfold is_repeat. cbn [Py.contains rbind]. unfold Py.has_key.
  cbn [Py.getitem].
  destruct (Py.lookup "description" d) as [[| | | |s| |]|];
    try contradiction; try reflexivity.
  cbn [rbind Py.endswith]. now rewrite H.
Qed.

Lemma marker_is_repeat (count : Z) (step : pyval) :
  marker count step ->
  is_repeat step = Ret true /\ repeat_count step = Ret count.
Proof.
  intros (d & s & -> & Hd & Hx & Hc). split.
  - unfold is_repeat. cbn [Py.contains rbind]. unfold Py.has_key.
    cbn [Py.getitem]. rewrite Hd. cbn [rbind Py.endswith]. now rewrite Hx.
  - unfold repeat_count. cbn [Py.getitem]. rewrite Hd.
    cbn [rbind Py.replace strip Py.int]. now rewrite Hc.
Qed.

(** Over plain steps the loop only appends the steps that have a
    duration. *)
Lemma expand_from_plain (steps remaining : list pyval) :
  Forall plain remaining ->
  forall position expanded,
    expand_from same steps position remaining expanded
    = Ret (expanded ++ filter has_duration remaining)%list.
Proof.
  induction 1 as [|step rest Hs _ IH]; intros position expanded.
  - cbn. now rewrite app_nil_r.
  - destruct (plain_is_no_repeat step Hs) as [Hr Hd].
    cbn [expand_from filter]. rewrite Hr. cbn [rbind]. rewrite Hd.
    cbn [rbind]. rewrite IH.
    destruct (has_duration step); [|reflexivity].
    now rewrite <- app_assoc.
Qed.

Lemma in_firstn {A} (n : nat) (l : list A) (x : A) :
  In x (firstn n l) -> In x l.
Proof.
  intros H. rewrite <- (firstn_skipn n l). apply in_or_app. now left.
Qed.

Lemma in_skipn {A} (n : nat) (l : list A) (x : A) :
  In x (skipn n l) -> In x l.
Proof.
  intros H. rewrite <- (firstn_skipn n l). apply in_or_app. now right.
Qed.

Lemma in_repeated {A} (block : list A) (n : nat) (x : A) :
  In x (List.concat (List.repeat block n)) -> In x block.
Proof.
  induction n as [|n IH]; cbn; [contradiction|].
  intros H. apply in_app_or in H. tauto.
Qed.

Lemma following_incl (steps : list pyval) (i : nat) (x : pyval) :
  In x (following steps i) -> In x steps.
Proof.
  unfold following. intros H. apply in_firstn in H. now apply in_skipn in H.
Qed.

(** Whatever the loop appends was among the steps. *)
Lemma expand_from_incl (steps remaining : list pyval) :
  incl remaining steps ->
  forall position expanded out,
    incl expanded steps ->
    expand_from same steps position remaining expanded = Ret out ->
    incl out steps.
Proof.
  induction remaining as [|step rest IH]; intros Hrem position expanded out
    Hacc H.
  - cbn in H. inversion H; subst. exact Hacc.
  - cbn [expand_from] in H.
    assert (Hrest : incl rest steps)
      by (intros x Hx; apply Hrem; now right).
    destruct (is_repeat step) as [[|]|e]; cbn [rbind] in H; try discriminate.
    + destruct (repeat_count step) as [count|e]; cbn [rbind] in H;
        [|discriminate].
      apply (IH Hrest _ _ _) in H; [exact H|].
      intros x Hx. apply in_app_or in Hx. destruct Hx as [Hx|Hx].
      * now apply Hacc.
      * apply in_repeated in Hx. now apply following_incl in Hx.
    + destruct (Py.contains "duration" step) as [b|e]; cbn [rbind] in H;
        [|discriminate].
      apply (IH Hrest _ _ _) in H; [exact H|].
      destruct b; [|exact Hacc].
      intros x Hx. apply in_app_or in Hx. destruct Hx as [Hx|[<-|[]]].
      * now apply Hacc.
      * apply Hrem. now left.
Qed.

End Expand.

End RepeatFacts.

(** ** More on duration conversion *)

Module ConvertFacts.

Import Duration StrFacts.

Lemma endswith_contains (suf s : string) :
  Str.endswith suf s = true -> Str.contains suf s = true.
Proof.
  intros H. destruct (endswith_split suf s H) as [p ->].
  apply contains_suffix.
Qed.

(** Only a string is ever converted. *)
Lemma convert_duration_string (v r : pyval) :
  convert_duration v = Ret r -> exists s, v = PStr s.
Proof.
  destruct v; try discriminate; [intros _; now eexists| |];
    unfold convert_duration; cbn [Py.contains Py.replace Py.endswith rbind];
    intros H.
  - destruct (existsb _ l); [discriminate|].
    destruct (existsb _ l); [discriminate|]. cbn [rbind] in H.
    destruct (existsb _ l); discriminate.
  - destruct (Py.has_key "km" d); [discriminate|].
    destruct (Py.has_key "m" d); [discriminate|]. cbn [rbind] in H.
    destruct (Py.has_key "s" d); discriminate.
Qed.

(** The shape of a converted value. *)
Lemma convert_duration_shape (s : string) (v : pyval) :
  convert_duration (PStr s) = Ret v ->
  if Str.contains "km" s then exists f, v = PFloat f
  else exists z, v = PInt z /\ (Str.contains "m" s = true -> (60 | z)).
Proof.
  unfold convert_duration.
  cbn [Py.contains Py.replace Py.endswith Py.float Py.int rbind].
  destruct (Str.contains "km" s) eqn:Hkm.
  - destruct (Num.py_float _); cbn [rbind]; intros H; inversion H.
    now eexists.
  - assert (Hend : Str.endswith "km" s = false).
    { destruct (Str.endswith "km" s) eqn:He; [|reflexivity].
      apply endswith_contains in He. congruence. }
    rewrite Hend.
    destruct (Str.contains "m" s); cbn [rbind negb].
    + destruct (Num.py_int _) as [z|]; cbn [rbind]; intros H; inversion H.
      exists (z * 60). split; [reflexivity|]. intros _. now exists z.
    + destruct (Str.contains "s" s);
        destruct (Num.py_int _) as [z|]; cbn [rbind]; intros H; inversion H;
        exists z; (split; [reflexivity | discriminate]).
Qed.

End ConvertFacts.

(** ** The moving time *)

Module MovingTimeFacts.

Import Tools StepText.

Lemma getitem_duration (step d : pyval) :
  Py.getitem step "duration" = Ret d ->
  forall s, d = PStr s -> duration step = Some s.
Proof.
  destruct step; try discriminate. cbn [Py.getitem duration].
  destruct (Py.lookup "duration" d0); [|discriminate].
  intros H s ->. now inversion H.
Qed.

Lemma add_float_left (f : spec_float) (v r : pyval) :
  Py.add (PFloat f) v = Ret r -> is_float r = true.
Proof.
  destruct v; try discriminate; cbn [Py.add].
  - destruct (Py.float_of_int z); cbn [rbind]; intros H; now inversion H.
  - intros H. now inversion H.
Qed.

Lemma add_int_left (z : Z) (v r : pyval) :
  Py.add (PInt z) v = Ret r ->
  (is_int v = true /\ is_int r = true) \/ (is_float v = true /\ is_float r = true).
Proof.
  destruct v; try discriminate; cbn [Py.add].
  - intros H. inversion H. now left.
  - destruct (Py.float_of_int z); cbn [rbind]; intros H; inversion H.
    now right.
Qed.

Lemma moving_time_float (steps : list pyval) :
  forall f total,
    moving_time_from (PFloat f) steps = Ret total -> is_float total = true.
Proof.
  induction steps as [|step rest IH]; intros f total H.
  - cbn in H. now inversion H.
  - cbn [moving_time_from] in H.
    destruct (Py.getitem step "duration") as [d|]; [|discriminate].
    cbn [rbind] in H.
    destruct (Duration.convert_duration d) as [v|]; [|discriminate].
    cbn [rbind] in H.
    destruct (Py.add (PFloat f) v) as [acc|] eqn:Ha; [|discriminate].
    cbn [rbind] in H. apply add_float_left in Ha.
    destruct acc; try discriminate. now apply (IH f0).
Qed.

(** From an integer on, the total is a float exactly when a step is in
    kilometres. *)
Lemma moving_time_kind (steps : list pyval) :
  forall z total,
    moving_time_from (PInt z) steps = Ret total ->
    (is_float total = true /\ any_km steps = true)
    \/ (is_int total = true /\ any_km steps = false).
Proof.
  induction steps as [|step rest IH]; intros z total H.
  - cbn in H. inversion H. now right.
  - cbn [moving_time_from] in H.
    destruct (Py.getitem step "duration") as [d|] eqn:Hd; [|discriminate].
    cbn [rbind] in H.
    destruct (Duration.convert_duration d) as [v|] eqn:Hv; [|discriminate].
    cbn [rbind] in H.
    destruct (Py.add (PInt z) v) as [acc|] eqn:Ha; [|discriminate].
    cbn [rbind] in H.
    destruct (ConvertFacts.convert_duration_string d v Hv) as [s ->].
    pose proof (getitem_duration step _ Hd s eq_refl) as Hs.
    pose proof (ConvertFacts.convert_duration_shape s v Hv) as Hshape.
    cbn [any_km existsb]. rewrite Hs.
    destruct (Str.contains "km" s).
    + destruct Hshape as [f ->]. cbn [Py.add] in Ha.
      destruct (Py.float_of_int z); cbn [rbind] in Ha; [|discriminate].
      inversion Ha; subst acc. left. split; [|reflexivity].
      now apply (moving_time_float rest _ total H).
    + destruct Hshape as (z' & -> & _). cbn [Py.add] in Ha.
      inversion Ha; subst acc. cbn [orb]. now apply (IH (z + z')).
Qed.

(** Over well-formed steps the total is the sum of their seconds. *)
Lemma moving_time_sum (steps : list pyval) :
  Forall Safe.step_ok steps ->
  forall acc,
    moving_time_from (PInt acc) steps = Ret (PInt (acc + total_seconds steps)).
Proof.
  induction 1 as [|step rest Hs _ IH]; intros acc.
  - cbn. now rewrite Z.add_0_r.
  - destruct Hs as (sd & dur & power & z & -> & Hd & _ & Hz).
    cbn [moving_time_from Py.getitem rbind]. rewrite Hd. cbn [rbind].
    rewrite Hz. cbn [rbind Py.add]. rewrite IH.
    assert (Hsec : seconds (PDict sd) = z)
      by (unfold seconds; cbn [duration]; now rewrite Hd, Hz).
    change (total_seconds (PDict sd :: rest))
      with (seconds (PDict sd) + total_seconds rest).
    rewrite Hsec. do 2 f_equal. lia.
Qed.

Lemma description_lines_map {W} (E : Env W) (steps : list pyval) :
  Forall Safe.step_ok steps ->
  Py.mapM (description_line E) steps = Ret (map (line E) steps).
Proof.
  induction 1 as [|step rest Hs _ IH]; [reflexivity|].
  destruct Hs as (sd & dur & power & z & -> & Hd & Hp & _).
  cbn [Py.mapM map]. rewrite IH.
  assert (Hline : description_line E (PDict sd) = Ret (line E (PDict sd))).
  { unfold description_line, line, Py.dict_get.
    cbn [Py.getitem Py.contains rbind].
    rewrite Hd, Hp. cbn [rbind]. unfold Py.has_key.
    now destruct (Py.lookup "cadence" sd). }
  now rewrite Hline.
Qed.

End MovingTimeFacts.

(** ** What the handlers make of a gateway result *)

Module TextFacts.

Import Tools Texts MonadFacts.

Lemma append_assoc (a b c : string) : (a ++ b) ++ c = a ++ b ++ c.
Proof. induction a as [|x a IH]; cbn; [reflexivity | now rewrite IH]. Qed.

Lemma append_nil_r (a : string) : a ++ "" = a.
Proof. induction a as [|x a IH]; cbn; [reflexivity | now rewrite IH]. Qed.

(** A loop that appends one text per mapping concatenates the texts of
    the mappings. *)
Lemma appended_dicts (text : pyval -> string) (l : list pyval) :
  forall acc,
    fold_left (fun summary item =>
                 if Py.is_dict item then summary ++ text item else summary)
      l acc
    = acc ++ glue (map text (dicts l)).
Proof.
  induction l as [|x l IH]; intros acc; cbn [fold_left dicts filter].
  - cbn. now rewrite append_nil_r.
  - rewrite IH. destruct (Py.is_dict x); [|reflexivity].
    cbn [map glue fold_right]. now rewrite append_assoc.
Qed.

(** Case analysis on what makes a scalar truthy. *)
Ltac by_truthiness :=
  cbn [Py.truthy negb];
  repeat match goal with
         | b : bool |- _ => destruct b
         | f : spec_float |- _ => destruct f
         | |- context [(?z =? 0)%Z] => destruct (z =? 0)%Z
         | |- context [String.eqb ?s ""] => destruct (String.eqb s "")
         end;
  reflexivity.

Section Runs.

Context {W : Type} (E : Env W).

Lemma call_run (gateway : Http.request -> W -> res pyval * W)
  (req : Http.request) (st : state W) (r : res pyval) (w' : W) {B}
  (k : pyval -> M W B) :
  gateway req (world st) = (r, w') ->
  bind (call gateway req) k st
  = match r with
    | Ret v => k v (mkstate w' (calls st ++ [req])%list)
    | Raise e => (Raise e, mkstate w' (calls st ++ [req])%list)
    end.
Proof. intros H. unfold bind, call. rewrite H. now destruct r. Qed.

Lemma get_events_run (athlete_id api_key start_date end_date : option string)
  (st : state W) (start end_ : string) (r : res pyval) (w' : W) :
  let id := resolve athlete_id (ATHLETE_ID (settings E)) in
  let key := resolve api_key (API_KEY (settings E)) in
  let req :=
    Http.mkrequest Http.GET ("/athlete/" ++ id ++ "/events") key
      (Some [("oldest", PStr start); ("newest", PStr end_)]) None in
  id <> "" -> key <> "" ->
  date_or E start_date Some st = (Ret start, st) ->
  date_or E end_date (Dates.plus_days 30) st = (Ret end_, st) ->
  make_intervals_request E req (world st) = (r, w') ->
  get_events E athlete_id api_key start_date end_date st
  = (match r with
     | Ret result => Ret (PStr (events E id result))
     | Raise e => Raise e
     end,
     mkstate w' (calls st ++ [req])%list).
Proof.
  intros id key req Hid Hkey Hstart Hend Hgw. unfold get_events.
  fold id. fold key.
  rewrite (CredentialFacts.eqb_empty_false id Hid).
  rewrite (CredentialFacts.eqb_empty_false key Hkey).
  rewrite (bind_ret _ _ _ _ _ Hstart), (bind_ret _ _ _ _ _ Hend).
  fold req. rewrite (call_run _ req st r w' _ Hgw).
  destruct r as [result|e]; [|reflexivity].
  unfold events. destruct (is_error result); [reflexivity|].
  destruct result as [| | | | |[|x l]|]; try by_truthiness.
  - cbn [Py.truthy negb]. unfold ret. now rewrite appended_dicts.
  - destruct d; reflexivity.
Qed.

Lemma get_event_by_id_run (event_id : string)
  (athlete_id api_key : option string) (st : state W) (r : res pyval)
  (w' : W) :
  let id := resolve athlete_id (ATHLETE_ID (settings E)) in
  let key := resolve api_key (API_KEY (settings E)) in
  let req :=
    Http.mkrequest Http.GET ("/athlete/" ++ id ++ "/event/" ++ event_id) key
      None None in
  id <> "" -> key <> "" ->
  make_intervals_request E req (world st) = (r, w') ->
  get_event_by_id E event_id athlete_id api_key st
  = (match r with
     | Ret result => Ret (PStr (event E event_id result))
     | Raise e => Raise e
     end,
     mkstate w' (calls st ++ [req])%list).
Proof.
  intros id key req Hid Hkey Hgw. unfold get_event_by_id.
  fold id. fold key.
  rewrite (CredentialFacts.eqb_empty_false id Hid).
  rewrite (CredentialFacts.eqb_empty_false key Hkey).
  fold req. rewrite (call_run _ req st r w' _ Hgw).
  destruct r as [result|e]; [|reflexivity].
  unfold event. destruct (is_error result); [reflexivity|].
  destruct result as [| | | | |[|x l]|[|x l]]; by_truthiness.
Qed.

Lemma get_activity_intervals_run (activity_id : string)
  (api_key : option string) (st : state W) (r : res pyval) (w' : W) :
  let key := resolve api_key (API_KEY (settings E)) in
  let req :=
    Http.mkrequest Http.GET ("/activity/" ++ activity_id ++ "/intervals") key
      None None in
  key <> "" ->
  make_intervals_request E req (world st) = (r, w') ->
  get_activity_intervals E activity_id api_key st
  = (match r with
     | Ret result => Ret (PStr (intervals E activity_id result))
     | Raise e => Raise e
     end,
     mkstate w' (calls st ++ [req])%list).
Proof.
  intros key req Hkey Hgw. unfold get_activity_intervals.
  fold key. rewrite (CredentialFacts.eqb_empty_false key Hkey).
  fold req. rewrite (call_run _ req st r w' _ Hgw).
  destruct r as [result|e]; [|reflexivity].
  unfold intervals. destruct (is_error result) eqn:Herr; [reflexivity|].
  destruct result as [| | | | |[|x l]|[|x l]]; try by_truthiness.
  cbn [Py.truthy negb existsb]. rewrite orb_false_r.
  now destruct (Py.has_key "icu_intervals" (x :: l)
                || Py.has_key "icu_groups" (x :: l)).
Qed.

Lemma get_activity_details_run (activity_id : string)
  (api_key : option string) (st : state W) (r : res pyval) (w' : W) :
  let key := resolve api_key (API_KEY (settings E)) in
  let req :=
    Http.mkrequest Http.GET ("/activity/" ++ activity_id) key None None in
  key <> "" ->
  make_intervals_request E req (world st) = (r, w') ->
  get_activity_details E activity_id api_key st
  = (match r with
     | Ret result => details E activity_id result
     | Raise e => Raise e
     end,
     mkstate w' (calls st ++ [req])%list).
Proof.
  intros key req Hkey Hgw. unfold get_activity_details.
  fold key. rewrite (CredentialFacts.eqb_empty_false key Hkey).
  fold req. rewrite (call_run _ req st r w' _ Hgw).
  destruct r as [result|e]; [|reflexivity].
  unfold details. destruct (is_error result); [reflexivity|].
  destruct (negb (Py.truthy result)); [reflexivity|].
  fold (described result).
  destruct (described result); try reflexivity.
  unfold bind, lift, ret. now destruct (detailed_view E d).
Qed.

Lemma post_events_run (athlete_id api_key start_date name : option string)
  (data : option (list (string * pyval))) (st : state W) (start : string)
  (payload : pyval) (r : res pyval) (w' : W) :
  let id := resolve athlete_id (ATHLETE_ID (settings E)) in
  let key := resolve api_key (API_KEY (settings E)) in
  let req :=
    Http.mkrequest Http.POST ("/athlete/" ++ id ++ "/events") key None
      (Some payload) in
  id <> "" -> key <> "" ->
  date_or E start_date Some st = (Ret start, st) ->
  final_data E start (of_option name) (Safe.argument data) = Ret payload ->
  post_intervals_data E req (world st) = (r, w') ->
  post_events E athlete_id api_key start_date name data st
  = (match r with
     | Ret result => Ret (posted E athlete_id start payload result)
     | Raise e => Raise e
     end,
     mkstate w' (calls st ++ [req])%list).
Proof.
  intros id key req Hid Hkey Hstart Hpayload Hgw. unfold post_events.
  fold id. fold key.
  rewrite (CredentialFacts.eqb_empty_false id Hid).
  rewrite (CredentialFacts.eqb_empty_false key Hkey).
  rewrite (bind_ret _ _ _ _ _ Hstart).
  fold (Safe.argument data). rewrite Hpayload.
  unfold bind at 1. unfold lift.
  fold req. rewrite (call_run _ req st r w' _ Hgw).
  destruct r as [result|e]; [|reflexivity].
  unfold posted, failure. destruct (is_error result).
  - unfold ret. now rewrite append_assoc.
  - destruct result as [| | | | |[|x l]|[|x l]]; by_truthiness.
Qed.

End Runs.

End TextFacts.

(** ** Counting gateway calls *)

Module CallFacts.

Import Tools Texts.

Section Counting.

Context {W : Type}.

Lemma at_most_ret {A} (n : nat) (key : string) (a : A) :
  at_most (W := W) n key (ret a).
Proof.
  intros st r st' H. inversion H; subst. exists []. unfold made.
  rewrite app_nil_r. split; [reflexivity|]. split; [cbn; lia | constructor].
Qed.

Lemma at_most_lift {A} (n : nat) (key : string) (r : res A) :
  at_most (W := W) n key (lift r).
Proof.
  intros st r' st' H. inversion H; subst. exists []. unfold made.
  rewrite app_nil_r. split; [reflexivity|]. split; [cbn; lia | constructor].
Qed.

Lemma at_most_call (gateway : Http.request -> W -> res pyval * W)
  (req : Http.request) :
  at_most 1 (Http.api_key req) (call gateway req).
Proof.
  intros st r st' H. unfold call in H.
  destruct (gateway req (world st)) as [r0 w']. inversion H; subst.
  exists [req]. split; [reflexivity|]. split; [cbn; lia|].
  now repeat constructor.
Qed.

Lemma at_most_bind {A B} (n k : nat) (key : string) (m : M W A)
  (f : A -> M W B) :
  at_most n key m -> (forall a, at_most k key (f a)) ->
  at_most (n + k) key (bind m f).
Proof.
  intros Hm Hf st r st' H. unfold bind in H.
  destruct (m st) as [[a|e] st1] eqn:Hmst.
  - destruct (Hm _ _ _ Hmst) as (more1 & H1 & L1 & K1).
    destruct (Hf a _ _ _ H) as (more2 & H2 & L2 & K2).
    exists (more1 ++ more2)%list. unfold made in *.
    rewrite H2, H1, app_assoc, length_app.
    split; [reflexivity|]. split; [lia|].
    apply Forall_app. now split.
  - inversion H; subst.
    destruct (Hm _ _ _ Hmst) as (more1 & H1 & L1 & K1).
    exists more1. split; [exact H1|]. split; [lia | exact K1].
Qed.

Lemma at_most_more {A} (n k : nat) (key : string) (m : M W A) :
  (n <= k)%nat -> at_most n key m -> at_most k key m.
Proof.
  intros Hle Hm st r st' H.
  destruct (Hm _ _ _ H) as (more & H1 & L1 & K1).
  exists more. split; [exact H1|]. split; [lia | exact K1].
Qed.

End Counting.

Section Handlers.

Context {W : Type} (E : Env W).

Lemma at_most_date_or (n : nat) (key : string) (given : option string)
  (shift : Dates.date -> option Dates.date) :
  at_most n key (date_or E given shift).
Proof.
  unfold date_or. destruct (absent given); [|apply at_most_ret].
  intros st r st' H. unfold today_shifted in H.
  exists []. unfold made. rewrite app_nil_r.
  destruct (shift _); inversion H; subst;
    (split; [reflexivity|]; split; [cbn; lia | constructor]).
Qed.

(** Closing steps of a handler: they make no call. *)
Ltac quiet :=
  repeat match goal with
         | |- at_most _ _ (ret _) => apply at_most_ret
         | |- at_most _ _ (if ?b then _ else _) => destruct b
         | |- at_most _ _ (match ?x with _ => _ end) => destruct x
         | |- at_most 0 _ (bind (lift _) _) =>
             apply (at_most_bind 0 0); [apply at_most_lift | intros ?]
         end.

Lemma get_events_calls (athlete_id api_key start_date end_date : option string) :
  at_most 1 (resolve api_key (API_KEY (settings E)))
    (get_events E athlete_id api_key start_date end_date).
Proof.
  unfold get_events.
  destruct (String.eqb _ ""); [apply at_most_ret|].
  destruct (String.eqb _ ""); [apply at_most_ret|].
  apply (at_most_bind 0 1); [apply at_most_date_or | intros start].
  apply (at_most_bind 0 1); [apply at_most_date_or | intros end_].
  apply (at_most_bind 1 0); [apply at_most_call | intros result].
  quiet.
Qed.

Lemma get_event_by_id_calls (event_id : string)
  (athlete_id api_key : option string) :
  at_most 1 (resolve api_key (API_KEY (settings E)))
    (get_event_by_id E event_id athlete_id api_key).
Proof.
  unfold get_event_by_id.
  destruct (String.eqb _ ""); [apply at_most_ret|].
  destruct (String.eqb _ ""); [apply at_most_ret|].
  apply (at_most_bind 1 0); [apply at_most_call | intros result].
  quiet.
Qed.

Lemma get_activity_intervals_calls (activity_id : string)
  (api_key : option string) :
  at_most 1 (resolve api_key (API_KEY (settings E)))
    (get_activity_intervals E activity_id api_key).
Proof.
  unfold get_activity_intervals.
  destruct (String.eqb _ ""); [apply at_most_ret|].
  apply (at_most_bind 1 0); [apply at_most_call | intros result].
  quiet.
Qed.

Lemma get_activity_details_calls (activity_id : string)
  (api_key : option string) :
  at_most 1 (resolve api_key (API_KEY (settings E)))
    (get_activity_details E activity_id api_key).
Proof.
  unfold get_activity_details.
  destruct (String.eqb _ ""); [apply at_most_ret|].
  apply (at_most_bind 1 0); [apply at_most_call | intros result].
  quiet.
Qed.

Lemma post_events_calls (athlete_id api_key start_date name : option string)
  (data : option (list (string * pyval))) :
  at_most 1 (resolve api_key (API_KEY (settings E)))
    (post_events E athlete_id api_key start_date name data).
Proof.
  unfold post_events.
  destruct (String.eqb _ ""); [apply at_most_ret|].
  destruct (String.eqb _ ""); [apply at_most_ret|].
  apply (at_most_bind 0 1); [apply at_most_date_or | intros start].
  apply (at_most_bind 0 1); [apply at_most_lift | intros payload].
  apply (at_most_bind 1 0); [apply at_most_call | intros result].
  quiet.
Qed.

Lemma fetch_more_calls (id key start : string) (api_limit : Z)
  (acts : list pyval) :
  at_most 1 key (fetch_more E id key start api_limit acts).
Proof.
  unfold fetch_more.
  apply (at_most_bind 0 1); [apply at_most_lift | intros d].
  apply (at_most_bind 0 1); [apply at_most_lift | intros older_start].
  apply (at_most_bind 0 1); [apply at_most_lift | intros older_end].
  destruct (Str.ltb _ _); [|apply at_most_ret].
  apply (at_most_bind 1 0); [apply at_most_call | intros result].
  quiet.
Qed.

Lemma get_activities_calls
  (athlete_id api_key start_date end_date : option string) (limit : Z)
  (include_unnamed : bool) :
  at_most 2 (resolve api_key (API_KEY (settings E)))
    (get_activities E athlete_id api_key start_date end_date limit
       include_unnamed).
Proof.
  unfold get_activities.
  apply (at_most_bind 2 0); [|intros sel; quiet].
  unfold select_activities.
  destruct (String.eqb _ ""); [apply at_most_ret|].
  destruct (String.eqb _ ""); [apply at_most_ret|].
  apply (at_most_bind 0 2); [apply at_most_date_or | intros start].
  apply (at_most_bind 0 2); [apply at_most_date_or | intros end_].
  apply (at_most_bind 1 1); [apply at_most_call | intros result].
  destruct (is_error result); [apply at_most_ret|].
  destruct (negb (Py.truthy result)); [apply at_most_ret|].
  destruct (normalize result) as [|a0 l0]; [apply at_most_ret|].
  apply (at_most_bind 1 0); [|intros acts; quiet].
  destruct (negb include_unnamed); [|apply at_most_ret].
  apply (at_most_bind 0 1); [apply at_most_lift | intros named].
  destruct (Z.of_nat _ <? limit); [|apply at_most_ret].
  apply fetch_more_calls.
Qed.

End Handlers.

End CallFacts.

(** ** More on the selection of activities *)

Module SelectFacts.

Import Tools Zones MonadFacts Texts.

Lemma contains_app_right (needle a b : string) :
  Str.contains needle b = true -> Str.contains needle (a ++ b) = true.
Proof.
  intros H. induction a as [|c a IH]; [exact H|].
  cbn [append Str.contains]. rewrite IH. apply orb_true_r.
Qed.

Lemma message_text (a b : string) :
  Tools.Message a = Tools.Message b -> a = b.
Proof. now intros [= ->]. Qed.

Lemma slice_to_length {A} (l : list A) (limit : Z) :
  0 <= limit -> Z.of_nat (List.length (slice_to l limit)) <= limit.
Proof.
  intros H. unfold slice_to.
  destruct (Z.leb_spec 0 limit); [|lia].
  pose proof (firstn_le_length (Z.to_nat limit) l). lia.
Qed.

Lemma holds_dict (l : list pyval) :
  Forall NamedActivity.holds l -> all_dicts l.
Proof.
  apply Forall_impl. intros a (d & name & -> & _). reflexivity.
Qed.

(** Over mappings the rendering loop appends one summary per item. *)
Lemma rendered_dicts {W} (E : Env W) (l : list pyval) :
  all_dicts l ->
  forall acc,
    fold_left
      (fun activities_summary activity =>
         if Py.is_dict activity
         then activities_summary ++ format_activity_summary E activity ++ nl
         else activities_summary ++ "Invalid activity format: "
                ++ fmt E activity ++ nl ++ nl)
      l acc
    = acc ++ glue (map (fun a => format_activity_summary E a ++ nl) l).
Proof.
  induction 1 as [|a l Ha _ IH]; intros acc; cbn [fold_left map glue fold_right].
  - now rewrite TextFacts.append_nil_r.
  - rewrite Ha, IH. now rewrite TextFacts.append_assoc.
Qed.

Lemma steps_add (f : Dates.date -> option Dates.date) (a b : nat) :
  forall d,
    Dates.steps f (a + b) d
    = match Dates.steps f a d with
      | Some d' => Dates.steps f b d'
      | None => None
      end.
Proof.
  induction a as [|a IH]; intros d; cbn [Nat.add Dates.steps]; [reflexivity|].
  destruct (f d); [apply IH | reflexivity].
Qed.

Section Selection.

Context {W : Type} (E : Env W).

(** Whatever is selected is a non-empty slice of a list of mappings. *)
Lemma selected_slice (athlete_id api_key start_date end_date : option string)
  (limit : Z) (include_unnamed : bool) (st st' : state W) (acts : list pyval) :
  select_activities E athlete_id api_key start_date end_date limit
    include_unnamed st = (Ret (Activities acts), st') ->
  exists activities,
    acts = slice_to activities limit /\ acts <> [] /\ all_dicts activities.
Proof.
  unfold select_activities. intros H.
  destruct (String.eqb _ ""); [discriminate|].
  destruct (String.eqb _ ""); [discriminate|].
  apply bind_inv in H. destruct H as (start & st1 & _ & H).
  apply bind_inv in H. destruct H as (end_ & st2 & _ & H).
  apply bind_inv in H. destruct H as (result & st3 & _ & H).
  destruct (is_error result); [discriminate|].
  destruct (negb (Py.truthy result)); [discriminate|].
  pose proof (NormalizeFacts.normalize_dicts result) as Hd.
  destruct (normalize result) as [|a0 l0]; [discriminate|].
  apply bind_inv in H. destruct H as (activities & st4 & Hsel & H).
  exists activities.
  assert (Hall : all_dicts activities).
  { destruct include_unnamed; cbn [negb] in Hsel.
    - apply ret_inv in Hsel. destruct Hsel as [<- _]. exact Hd.
    - apply holds_dict.
      apply bind_inv in Hsel. destruct Hsel as (filtered & st5 & Hf & Hsel).
      apply lift_inv in Hf. destruct Hf as [Hf _].
      rewrite (FilterFacts.filterM_named _ Hd) in Hf.
      assert (Hx : filtered = filter Named.kept (a0 :: l0)) by congruence.
      subst filtered. clear Hf.
      destruct (Z.of_nat _ <? limit).
      + eapply FilterFacts.fetch_more_named;
          [apply FilterFacts.filter_kept | exact Hsel].
      + apply ret_inv in Hsel. destruct Hsel as [<- _].
        apply FilterFacts.filter_kept. }
  destruct (slice_to activities limit) as [|a1 l1] eqn:Hs.
  - destruct include_unnamed; discriminate.
  - apply ret_inv in H. destruct H as [H _]. inversion H; subst acts.
    repeat split; [discriminate | exact Hall].
Qed.

(** With the start date left out, the supplementary fetch finds a date
    it can read and sixty days before it. *)
Lemma default_start_is_fine (start_date : option string) (st : state W)
  (start : string) :
  Unfiltered.clock_has_margin E ->
  absent start_date = true ->
  date_or E start_date (Dates.minus_days 30) st = (Ret start, st) ->
  exists d d60,
    fromisoformat E start = Some d /\ Dates.minus_days 60 d = Some d60.
Proof.
  intros Hclock Habs H. destruct (Hclock (world st)) as [Hv H90].
  unfold date_or, today_shifted in H. rewrite Habs in H.
  destruct (Dates.minus_days 30 (now E (world st))) as [d30|] eqn:H30;
    [|discriminate].
  inversion H; subst start. exists d30.
  unfold Dates.minus_days in *.
  change 90%nat with (30 + 60)%nat in H90.
  rewrite steps_add, H30 in H90.
  destruct (Dates.steps Dates.prev_day 60 d30) as [d60|]; [|congruence].
  exists d60. split; [|reflexivity].
  apply FetchFacts.date_form_read.
  now apply (DateFacts.default_start_parses (now E (world st))).
Qed.

(** The run up to the normalized list: one request, and a payload
    that holds activities. *)
Lemma select_first_fetch
  (athlete_id api_key start_date end_date : option string) (limit : Z)
  (include_unnamed : bool) (st : state W) (start end_ : string)
  (result : pyval) (w1 : W) :
  let id := resolve athlete_id (ATHLETE_ID (settings E)) in
  let key := resolve api_key (API_KEY (settings E)) in
  let api_limit := if negb include_unnamed then limit * 3 else limit in
  let first := Window.request id key start end_ api_limit in
  id <> "" -> key <> "" ->
  date_or E start_date (Dates.minus_days 30) st = (Ret start, st) ->
  date_or E end_date Some st = (Ret end_, st) ->
  make_intervals_request E first (world st) = (Ret result, w1) ->
  is_error result = false ->
  normalize result <> [] ->
  exists a0 l0,
    normalize result = a0 :: l0
    /\ select_activities E athlete_id api_key start_date end_date limit
         include_unnamed st
       = bind
           (if negb include_unnamed
            then bind (lift (filterM named (a0 :: l0)))
                   (fun activities =>
                      if Z.of_nat (List.length activities) <? limit
                      then fetch_more E id key start api_limit activities
                      else ret activities)
            else ret (a0 :: l0))
           (fun activities =>
              match slice_to activities limit with
              | [] =>
                  if include_unnamed
                  then ret (Message ("No valid activities found for athlete "
                                     ++ id ++ " in the specified date range."))
                  else ret (Message ("No named activities found for athlete "
                                     ++ id ++ " in the specified date range. Try with include_unnamed=True to see all activities."))
              | a :: l => ret (Activities (a :: l))
              end)
           (mkstate w1 (calls st ++ [first])%list).
Proof.
  intros id key api_limit first Hid Hkey Hstart Hend H1 Herr Hnorm.
  destruct (normalize result) as [|a0 l0] eqn:Hn; [congruence|].
  exists a0, l0. split; [reflexivity|].
  unfold select_activities. fold id. fold key.
  rewrite (CredentialFacts.eqb_empty_false id Hid).
  rewrite (CredentialFacts.eqb_empty_false key Hkey).
  rewrite (bind_ret _ _ _ _ _ Hstart), (bind_ret _ _ _ _ _ Hend).
  fold api_limit.
  change (Http.mkrequest Http.GET ("/athlete/" ++ id ++ "/activities") key
            (Some [("oldest", PStr start); ("newest", PStr end_);
                   ("limit", PInt api_limit)]) None) with first.
  rewrite (TextFacts.call_run _ first st (Ret result) w1 _ H1).
  rewrite Herr.
  destruct (Py.truthy result) eqn:Ht;
    [|exfalso; apply Hnorm; rewrite <- Hn;
      now apply FetchFacts.normalize_falsy].
  cbn [negb]. rewrite Hn. reflexivity.
Qed.


End Selection.

End SelectFacts.
(* ================================================================== *)
(** * The specification, sentence by sentence *)
(* ================================================================== *)

(** C1 (as amended).  Wherever the suffix rules of the specification
    give a value (a numeric prefix followed by [km], [m] or [s], or a
    bare integer), [convert_duration] returns that value; in particular
    "15m" gives 900, "3m" gives 180, "30s" gives 30, "1km" gives the
    float 1000.0 and "45" gives 45. *)
Theorem convert_duration_follows_suffix_rule :
  (forall (s : string) (v : pyval),
      Duration.suffix_rule s = Ret v ->
      Duration.convert_duration (PStr s) = Ret v)
  /\ Duration.convert_duration (PStr "15m") = Ret (PInt 900)
  /\ Duration.convert_duration (PStr "3m") = Ret (PInt 180)
  /\ Duration.convert_duration (PStr "30s") = Ret (PInt 30)
  /\ Duration.convert_duration (PStr "1km") = Ret (PFloat (Num.float_of_Z 1000))
  /\ Duration.convert_duration (PStr "45") = Ret (PInt 45).
Proof.
  split; [exact DurationFacts.suffix_rule_refined|].
  repeat split; vm_compute; reflexivity.
Qed.

(** The rule at "15m". *)
Lemma convert_duration_follows_suffix_rule_witness :
  Duration.suffix_rule "15m" = Ret (PInt 900)
  /\ Duration.convert_duration (PStr "15m") = Ret (PInt 900).
Proof.
  split; [reflexivity|].
  apply (proj1 convert_duration_follows_suffix_rule "15m" (PInt 900)).
  reflexivity.
Defined.

(** C1 (as stated) fails: "m5" has no unit suffix and is no integer, so
    the suffix rules reject it, while the code, which looks for the
    letter anywhere in the string, returns 300. *)
Lemma convert_duration_not_by_suffix :
  Duration.convert_duration (PStr "m5") = Ret (PInt 300)
  /\ Duration.suffix_rule "m5" = Raise ValueError
  /\ Duration.convert_duration (PStr "m5") <> Duration.suffix_rule "m5".
Proof.
  repeat split; try (vm_compute; reflexivity).
  vm_compute. discriminate.
Qed.




(** C3.  With [include_unnamed=false], whatever the payloads and the
    limit, the text [get_activities] returns is either one of its
    messages or the rendering of a list of activities every one of
    which has a name that is present, non-empty and not "Unnamed";
    this covers the activities added by the supplementary fetch. *)
Theorem unnamed_never_rendered {W : Type} (E : Tools.Env W)
  (athlete_id api_key start_date end_date : option string) (limit : Z)
  (st st' : Tools.state W) (v : pyval) :
  Tools.get_activities E athlete_id api_key start_date end_date limit false st
  = (Ret v, st') ->
  (exists text,
      Tools.select_activities E athlete_id api_key start_date end_date limit
        false st = (Ret (Tools.Message text), st')
      /\ v = PStr text)
  \/ (exists acts,
         Tools.select_activities E athlete_id api_key start_date end_date
           limit false st = (Ret (Tools.Activities acts), st')
         /\ v = PStr (Tools.render_activities E acts)
         /\ Forall NamedActivity.holds acts).
Proof.
  unfold Tools.get_activities. intros H.
  apply MonadFacts.bind_inv in H. destruct H as (sel & st1 & Hsel & H).
  destruct sel as [text|acts];
    apply MonadFacts.ret_inv in H; destruct H as [<- ->].
  - left. now exists text.
  - right. exists acts. repeat split; trivial.
    now apply (FilterFacts.selected_named E _ _ _ _ _ _ _ _ Hsel).
Qed.

(** Two fetches holding named, unnamed, nameless and empty-named
    activities. *)
Lemma unnamed_never_rendered_witness :
  Tools.get_activities (Demo.env (mkConfig "key" "i1"))
    None None None None 2 false
    (Demo.start
       [PList [PDict [("name", PStr "Ride")];
               PDict [("name", PStr "Unnamed")];
               PDict [("distance", PInt 5)]];
        PList [PDict [("name", PStr "")];
               PDict [("name", PStr "Run")]]])
  = (Ret (PStr (Tools.render_activities (Demo.env (mkConfig "key" "i1"))
                  [PDict [("name", PStr "Ride")];
                   PDict [("name", PStr "Run")]])),
     Tools.mkstate []
       [Http.mkrequest Http.GET "/athlete/i1/activities" "key"
          (Some [("oldest", PStr "2024-12-15");
                 ("newest", PStr "2025-01-14"); ("limit", PInt 6)])
          None;
        Http.mkrequest Http.GET "/athlete/i1/activities" "key"
          (Some [("oldest", PStr "2024-10-16");
                 ("newest", PStr "2024-12-14"); ("limit", PInt 6)])
          None])
  /\ Forall NamedActivity.holds
       [PDict [("name", PStr "Ride")]; PDict [("name", PStr "Run")]].
Proof.
  assert (H : Tools.get_activities (Demo.env (mkConfig "key" "i1"))
    None None None None 2 false
    (Demo.start
       [PList [PDict [("name", PStr "Ride")];
               PDict [("name", PStr "Unnamed")];
               PDict [("distance", PInt 5)]];
        PList [PDict [("name", PStr "")];
               PDict [("name", PStr "Run")]]])
  = (Ret (PStr (Tools.render_activities (Demo.env (mkConfig "key" "i1"))
                  [PDict [("name", PStr "Ride")];
                   PDict [("name", PStr "Run")]])),
     Tools.mkstate []
       [Http.mkrequest Http.GET "/athlete/i1/activities" "key"
          (Some [("oldest", PStr "2024-12-15");
                 ("newest", PStr "2025-01-14"); ("limit", PInt 6)])
          None;
        Http.mkrequest Http.GET "/athlete/i1/activities" "key"
          (Some [("oldest", PStr "2024-10-16");
                 ("newest", PStr "2024-12-14"); ("limit", PInt 6)])
          None])) by (vm_compute; reflexivity).
  split; [exact H|].
  destruct (unnamed_never_rendered _ _ _ _ _ _ _ _ _ H)
    as [(text & Hsel & _)|(acts & Hsel & _ & Hnamed)].
  - vm_compute in Hsel. discriminate Hsel.
  - vm_compute in Hsel. inversion Hsel. subst acts. exact Hnamed.
Defined.

(** C4 (as amended).  For every collection of activity mappings the
    normalization step yields that collection when the payload is the
    bare list, and when the payload is a mapping whose first list-typed
    value is that list and the list is not empty; a single mapping that
    has a [name], [startTime] or [distance] key is normalized to the
    one-element list of itself when its first list-typed value, if any,
    holds no mapping. *)
Theorem normalization_agrees (acts : list pyval) :
  Zones.all_dicts acts ->
  Tools.normalize (PList acts) = acts
  /\ (forall d, acts <> [] -> Tools.first_list d = Some acts ->
                Tools.normalize (PDict d) = acts)
  /\ (forall a,
         acts = [PDict a] ->
         existsb (fun key => Py.has_key key a) Tools.activity_keys = true ->
         (forall l, Tools.first_list a = Some l -> Tools.dicts l = []) ->
         Tools.normalize (PDict a) = acts).
Proof.
  intros H. split; [|split].
  - now apply NormalizeFacts.normalize_list.
  - intros d Hne Hf. now apply NormalizeFacts.normalize_container.
  - intros a -> Hk Hl. now apply NormalizeFacts.normalize_single.
Qed.

(** One activity, bare, wrapped and on its own. *)
Lemma normalization_agrees_witness :
  Zones.all_dicts [PDict [("name", PStr "Ride"); ("tags", PList [PStr "hard"])]]
  /\ Tools.normalize
       (PDict [("total", PInt 1);
               ("activities",
                PList [PDict [("name", PStr "Ride");
                              ("tags", PList [PStr "hard"])]])])
     = [PDict [("name", PStr "Ride"); ("tags", PList [PStr "hard"])]]
  /\ Tools.normalize
       (PDict [("name", PStr "Ride"); ("tags", PList [PStr "hard"])])
     = [PDict [("name", PStr "Ride"); ("tags", PList [PStr "hard"])]].
Proof.
  assert (H : Zones.all_dicts
                [PDict [("name", PStr "Ride"); ("tags", PList [PStr "hard"])]])
    by (repeat constructor).
  split; [exact H|]. split.
  - apply (proj1 (proj2 (normalization_agrees _ H))); [discriminate|reflexivity].
  - apply (proj2 (proj2 (normalization_agrees _ H))); [reflexivity..|].
    intros l Hl. inversion Hl. reflexivity.
Defined.

(** C4 (as stated) fails: a single activity that carries a list of
    mappings is normalized to that list, not to itself; and an empty
    collection wrapped in a mapping that has a [name] key is normalized
    to the wrapping mapping. *)
Lemma normalization_differs :
  Tools.normalize
    (PDict [("name", PStr "Ride"); ("laps", PList [PDict [("n", PInt 1)]])])
  <> [PDict [("name", PStr "Ride"); ("laps", PList [PDict [("n", PInt 1)]])]]
  /\ Tools.normalize (PDict [("name", PStr "week"); ("items", PList [])])
     <> Tools.normalize (PList []).
Proof. split; cbn; discriminate. Qed.

(** C5 (as amended).  When the explicit [api_key] is absent or empty and
    the process-wide default is empty, [get_activity_details] and
    [get_activity_intervals] return the text beginning
    "Error: No api_key provided", and so do [get_activities],
    [get_events], [get_event_by_id] and [post_events] once their athlete
    id resolves to a non-empty value; the state is returned unchanged,
    so no gateway call is made. *)
Theorem missing_api_key_reported {W : Type} (E : Tools.Env W)
  (api_key : option string) :
  Tools.absent api_key = true ->
  API_KEY (Tools.settings E) = "" ->
  Str.startswith "Error: No api_key provided" Tools.no_api_key = true
  /\ (forall id st,
         Tools.get_activity_details E id api_key st
         = (Ret (PStr Tools.no_api_key), st))
  /\ (forall id st,
         Tools.get_activity_intervals E id api_key st
         = (Ret (PStr Tools.no_api_key), st))
  /\ (forall athlete_id,
         Tools.resolve athlete_id (ATHLETE_ID (Tools.settings E)) <> "" ->
         (forall s e limit unnamed st,
             Tools.get_activities E athlete_id api_key s e limit unnamed st
             = (Ret (PStr Tools.no_api_key), st))
         /\ (forall s e st,
                Tools.get_events E athlete_id api_key s e st
                = (Ret (PStr Tools.no_api_key), st))
         /\ (forall id st,
                Tools.get_event_by_id E id athlete_id api_key st
                = (Ret (PStr Tools.no_api_key), st))
         /\ (forall s name data st,
                Tools.post_events E athlete_id api_key s name data st
                = (Ret (PStr Tools.no_api_key), st))).
Proof.
  intros Habs Hdef.
  pose proof (CredentialFacts.absent_resolve _ _ Habs Hdef) as Hk.
  split; [reflexivity|].
  destruct (CredentialFacts.api_key_checked_alone E api_key Hk) as [H1 H2].
  repeat split; trivial;
    now apply (CredentialFacts.api_key_checked_next E athlete_id api_key).
Qed.

(** With an athlete id configured and no API key anywhere. *)
Lemma missing_api_key_reported_witness :
  Tools.absent None = true
  /\ API_KEY (Tools.settings (Demo.env (mkConfig "" "i1"))) = ""
  /\ Tools.get_activities (Demo.env (mkConfig "" "i1")) None None None None
       10 false (Demo.start [])
     = (Ret (PStr Tools.no_api_key), Demo.start []).
Proof.
  split; [reflexivity|]. split; [reflexivity|].
  apply (missing_api_key_reported (Demo.env (mkConfig "" "i1")) None
           eq_refl eq_refl).
  cbn. discriminate.
Defined.

(** C5 (as stated) fails: with neither an athlete id nor an API key,
    [get_activities] reports the missing athlete id, and that text does
    not begin with "Error: No api_key provided". *)
Lemma missing_athlete_id_reported_first :
  Tools.get_activities (Demo.env (mkConfig "" "")) None None None None
    10 false (Demo.start [])
  = (Ret (PStr Tools.no_athlete_id), Demo.start [])
  /\ Str.startswith "Error: No api_key provided" Tools.no_athlete_id = false.
Proof. split; reflexivity. Qed.

(** C6 (the code against the claim).  On a response whose status is not
    2xx, both gateway functions raise [NameError]: the handler of the
    status error begins with a call on [logger], a name the module never
    binds, and the envelope that follows it is not reached. *)
Theorem gateway_raises_on_http_status {W : Type}
  (http : Http.request -> W -> Http.reply * W)
  (req : Http.request) (w w' : W) (r : Http.response) :
  http req w = (Http.Responded r, w') ->
  Http.is_success (Http.status_code r) = false ->
  Http.make_intervals_request http req w = (Raise NameError, w')
  /\ Http.post_intervals_data http req w = (Raise NameError, w').
Proof.
  intros H Hs.
  unfold Http.make_intervals_request, Http.post_intervals_data, Http.send.
  rewrite H. unfold Http.outcome. rewrite Hs. split; reflexivity.
Qed.

(** A 401 answer to a GET. *)
Lemma gateway_raises_on_http_status_witness :
  Http.is_success 401 = false
  /\ Http.make_intervals_request Demo.remote
       (Http.mkrequest Http.GET "/athlete/i1/events" "wrong" None None)
       [Http.Responded (Http.mkresponse 401 "Unauthorized" (inr "not JSON"))]
     = (Raise NameError, []).
Proof.
  split; [reflexivity|].
  apply (gateway_raises_on_http_status Demo.remote
           (Http.mkrequest Http.GET "/athlete/i1/events" "wrong" None None)
           [Http.Responded (Http.mkresponse 401 "Unauthorized" (inr "not JSON"))]
           []
           (Http.mkresponse 401 "Unauthorized" (inr "not JSON")));
    reflexivity.
Defined.

(** C7.  For every name string, the payload [post_events] builds has
    type "Ride" if the name contains "Bike", else "Run" if it contains
    "Run", else "Swim", and target "POWER" if the name contains "Power",
    else "PACE" if it contains "pace", else "HR" if it contains "hr",
    else "AUTO".  With two steps, "Bike - VO2 Max" gives type "Ride" and
    "Run - pace work" gives type "Run" and target "PACE". *)
Theorem payload_type_and_target {W : Type} (E : Tools.Env W) :
  (forall (start name : string) (data payload : pyval),
      Tools.final_data E start (PStr name) data = Ret payload ->
      exists d,
        payload = PDict d
        /\ Py.lookup "type" d
           = Some (PStr (if Str.contains "Bike" name then "Ride"
                         else if Str.contains "Run" name then "Run"
                         else "Swim"))
        /\ Py.lookup "target" d
           = Some (PStr (if Str.contains "Power" name then "POWER"
                         else if Str.contains "pace" name then "PACE"
                         else if Str.contains "hr" name then "HR"
                         else "AUTO")))
  /\ (exists d,
         Tools.final_data E "2025-01-14" (PStr "Bike - VO2 Max")
           Workout.two_steps = Ret (PDict d)
         /\ Py.lookup "type" d = Some (PStr "Ride"))
  /\ (exists d,
         Tools.final_data E "2025-01-14" (PStr "Run - pace work")
           Workout.two_steps = Ret (PDict d)
         /\ Py.lookup "type" d = Some (PStr "Run")
         /\ Py.lookup "target" d = Some (PStr "PACE")).
Proof.
  split; [|split].
  - intros start name data payload H.
    destruct (PayloadFacts.final_data_fields E start name data payload H)
      as (description & moving_time & ->).
    eexists. split; [reflexivity|]. split; reflexivity.
  - eexists. split; [vm_compute; reflexivity|]. reflexivity.
  - eexists. split; [vm_compute; reflexivity|]. split; reflexivity.
Qed.

(** The payload for "Bike - VO2 Max" with two steps. *)
Lemma payload_type_and_target_witness :
  exists d,
    Tools.final_data (Demo.env (mkConfig "key" "i1")) "2025-01-14"
      (PStr "Bike - VO2 Max") Workout.two_steps = Ret (PDict d)
    /\ Py.lookup "type" d = Some (PStr "Ride")
    /\ Py.lookup "target" d = Some (PStr "AUTO").
Proof.
  destruct (proj1 (payload_type_and_target (Demo.env (mkConfig "key" "i1")))
              "2025-01-14" "Bike - VO2 Max" Workout.two_steps _ eq_refl)
    as (d & Hd & Htype & Htarget).
  exists d. split; [|split].
  - now rewrite <- Hd.
  - exact Htype.
  - exact Htarget.
Defined.







(** C10.  In every handler an explicit empty string is used as it is:
    the default is read only when the argument is [None].  With
    [athlete_id=""] the missing-athlete-id text is returned and with
    [api_key=""] a missing-credential text is returned (the one for the
    API key once the athlete id resolves), whatever defaults are
    configured, and no gateway call is made. *)
Theorem empty_credential_masks_default {W : Type} (E : Tools.Env W) :
  (forall default, Tools.resolve (Some "") default = ""
                   /\ Tools.resolve None default = default)
  /\ (forall api_key,
         (forall s e limit unnamed st,
             Tools.get_activities E (Some "") api_key s e limit unnamed st
             = (Ret (PStr Tools.no_athlete_id), st))
         /\ (forall s e st,
                Tools.get_events E (Some "") api_key s e st
                = (Ret (PStr Tools.no_athlete_id), st))
         /\ (forall id st,
                Tools.get_event_by_id E id (Some "") api_key st
                = (Ret (PStr Tools.no_athlete_id), st))
         /\ (forall s name data st,
                Tools.post_events E (Some "") api_key s name data st
                = (Ret (PStr Tools.no_athlete_id), st)))
  /\ (forall athlete_id,
         let text :=
           if String.eqb
                (Tools.resolve athlete_id (ATHLETE_ID (Tools.settings E))) ""
           then Tools.no_athlete_id else Tools.no_api_key in
         (forall s e limit unnamed st,
             Tools.get_activities E athlete_id (Some "") s e limit unnamed st
             = (Ret (PStr text), st))
         /\ (forall s e st,
                Tools.get_events E athlete_id (Some "") s e st
                = (Ret (PStr text), st))
         /\ (forall id st,
                Tools.get_event_by_id E id athlete_id (Some "") st
                = (Ret (PStr text), st))
         /\ (forall s name data st,
                Tools.post_events E athlete_id (Some "") s name data st
                = (Ret (PStr text), st)))
  /\ (forall id st,
         Tools.get_activity_details E id (Some "") st
         = (Ret (PStr Tools.no_api_key), st))
  /\ (forall id st,
         Tools.get_activity_intervals E id (Some "") st
         = (Ret (PStr Tools.no_api_key), st)).
Proof.
  split; [now intros|].
  split; [intros; now apply CredentialFacts.athlete_id_checked_first|].
  split.
  - intros athlete_id text. subst text.
    destruct (String.eqb_spec
                (Tools.resolve athlete_id (ATHLETE_ID (Tools.settings E))) "")
      as [Ha|Ha].
    + now apply CredentialFacts.athlete_id_checked_first.
    + now apply CredentialFacts.api_key_checked_next.
  - now apply CredentialFacts.api_key_checked_alone.
Qed.


(* ================================================================== *)
(** * Further properties of the code *)
(* ================================================================== *)

(** X1.  On steps none of which is a repeat marker, [expand_repeats]
    returns exactly the steps that have a [duration] key, in their
    order; steps without a duration are dropped silently. *)
Theorem expand_repeats_without_markers (same : pyval -> pyval -> bool)
  (steps : list pyval) :
  Forall Steps.plain steps ->
  Repeats.expand_repeats same steps = Ret (filter Steps.has_duration steps).
Proof.
  intros H. unfold Repeats.expand_repeats.
  now rewrite (RepeatFacts.expand_from_plain same steps steps H).
Qed.

(** A warm-up, a note without duration and a cool-down. *)
Lemma expand_repeats_without_markers_witness :
  Repeats.expand_repeats Steps.never
    [PDict [("duration", PStr "10m"); ("description", PStr "Warm-up")];
     PDict [("description", PStr "stretch")];
     PDict [("duration", PStr "5m")]]
  = Ret [PDict [("duration", PStr "10m"); ("description", PStr "Warm-up")];
         PDict [("duration", PStr "5m")]].
Proof.
  apply (expand_repeats_without_markers Steps.never).
  repeat constructor; eexists; (split; [reflexivity|]); cbn; trivial.
Defined.

(** X2.  A repeat marker at the head of the list, "Nx", puts N copies of
    the (at most two) steps that follow it into the result; the loop
    then visits those steps themselves, so a following step with a
    duration appears N + 1 times in all, and the marker itself never
    appears. *)
Theorem expand_repeats_marker_first (same : pyval -> pyval -> bool)
  (count : Z) (marker : pyval) (rest : list pyval) :
  Steps.marker count marker ->
  Forall Steps.plain rest ->
  Repeats.expand_repeats same (marker :: rest)
  = Ret (List.concat (List.repeat (firstn 2 rest) (Z.to_nat count))
         ++ filter Steps.has_duration rest)%list.
Proof.
  intros Hm Hrest. unfold Repeats.expand_repeats.
  destruct (RepeatFacts.marker_is_repeat count marker Hm) as [Hr Hc].
  cbn [Repeats.expand_from]. rewrite Hr. cbn [rbind]. rewrite Hc.
  cbn [rbind firstn Repeats.index app].
  now rewrite (RepeatFacts.expand_from_plain same _ rest Hrest).
Qed.

(** "3x" before two intervals and a cool-down. *)
Lemma expand_repeats_marker_first_witness :
  Repeats.expand_repeats Steps.never
    [PDict [("description", PStr "3x")];
     PDict [("duration", PStr "1m")];
     PDict [("duration", PStr "2m")];
     PDict [("duration", PStr "5m")]]
  = Ret [PDict [("duration", PStr "1m")]; PDict [("duration", PStr "2m")];
         PDict [("duration", PStr "1m")]; PDict [("duration", PStr "2m")];
         PDict [("duration", PStr "1m")]; PDict [("duration", PStr "2m")];
         PDict [("duration", PStr "1m")]; PDict [("duration", PStr "2m")];
         PDict [("duration", PStr "5m")]].
Proof.
  apply (expand_repeats_marker_first Steps.never 3).
  - exists [("description", PStr "3x")], "3x". repeat split; reflexivity.
  - repeat constructor; eexists; (split; [reflexivity|]); cbn; trivial.
Defined.

(** X3.  [expand_repeats] never invents a step: every item of the list
    it returns is one of the items it was given. *)
Theorem expand_repeats_only_given_steps (same : pyval -> pyval -> bool)
  (steps out : list pyval) :
  Repeats.expand_repeats same steps = Ret out ->
  forall step, In step out -> In step steps.
Proof.
  intros H.
  apply (RepeatFacts.expand_from_incl same steps steps (incl_refl _)
           0%nat [] out); [|exact H].
  intros x [].
Qed.

(** Two repetitions of one interval: the step of the result is the
    second step that was given. *)
Lemma expand_repeats_only_given_steps_witness :
  In (PDict [("duration", PStr "1m")])
    [PDict [("description", PStr "2x")]; PDict [("duration", PStr "1m")]].
Proof.
  apply (expand_repeats_only_given_steps Steps.never
           [PDict [("description", PStr "2x")];
            PDict [("duration", PStr "1m")]]
           [PDict [("duration", PStr "1m")]; PDict [("duration", PStr "1m")];
            PDict [("duration", PStr "1m")]]).
  - reflexivity.
  - left. reflexivity.
Defined.

(** X4.  Each gateway function returns a value exactly when the service
    answers with a 2xx status and a body that is empty or decodes as
    JSON; the value is then the empty mapping or the decoded body,
    unchanged.  In every other case (another status, a body that does
    not decode, a transport failure, any other failure) it raises
    [NameError], so neither function ever returns an envelope of its
    own making. *)
Theorem gateway_returns_on_success_only {W : Type}
  (http : Http.request -> W -> Http.reply * W)
  (req : Http.request) (w w' : W) :
  let answered (v : pyval) :=
    exists r,
      http req w = (Http.Responded r, w')
      /\ Http.is_success (Http.status_code r) = true
      /\ ((Http.text r = "" /\ v = PDict [])
          \/ (Http.text r <> "" /\ Http.json r = inl v)) in
  (forall v, Http.make_intervals_request http req w = (Ret v, w')
             <-> answered v)
  /\ (forall v, Http.post_intervals_data http req w = (Ret v, w')
                <-> answered v)
  /\ (forall e, Http.make_intervals_request http req w = (Raise e, w')
                -> e = NameError)
  /\ (forall e, Http.post_intervals_data http req w = (Raise e, w')
                -> e = NameError).
Proof.
  intros answered.
  assert (Hret : forall v,
             Http.send http Http.logger_error req w = (Ret v, w')
             <-> answered v).
  { intros v. unfold Http.send, answered.
    destruct (http req w) as [rep w1]. split.
    - intros H. inversion H; subst w1. clear H. rename H1 into H.
      destruct rep as [r|msg|msg]; try discriminate.
      exists r. split; [reflexivity|]. unfold Http.outcome in H.
      destruct (Http.is_success (Http.status_code r)); [|discriminate].
      split; [reflexivity|].
      destruct (String.eqb_spec (Http.text r) "") as [Ht|Ht].
      + left. split; [exact Ht | now inversion H].
      + right. split; [exact Ht|].
        destruct (Http.json r); [now inversion H | discriminate].
    - intros (r & Hr & Hs & Hv). inversion Hr; subst. unfold Http.outcome.
      rewrite Hs. destruct Hv as [[Ht ->]|[Ht Hj]].
      + now rewrite Ht.
      + apply String.eqb_neq in Ht. now rewrite Ht, Hj. }
  assert (Hraise : forall e,
             Http.send http Http.logger_error req w = (Raise e, w')
             -> e = NameError).
  { intros e. unfold Http.send. destruct (http req w) as [rep w1].
    intros H. inversion H. clear H. rename H1 into H.
    destruct (GatewayFacts.outcome_unlogged rep) as [Hn|(r & -> & Hs)].
    - congruence.
    - unfold Http.outcome in H. rewrite Hs in H.
      destruct (String.eqb (Http.text r) ""); [discriminate|].
      destruct (Http.json r); [discriminate | now inversion H]. }
  repeat split; try apply Hret; apply Hraise.
Qed.

(** X5.  [convert_duration] converts strings only: on any other value
    (a JSON number, [null], a boolean, a list, a mapping) it raises
    [TypeError] or [AttributeError]. *)
Theorem convert_duration_rejects_non_strings (duration : pyval) :
  (exists s, duration = PStr s)
  \/ Duration.convert_duration duration = Raise TypeError
  \/ Duration.convert_duration duration = Raise AttributeError.
Proof.
  destruct duration; try (right; left; reflexivity).
  - left. now eexists.
  - right. unfold Duration.convert_duration.
    cbn [Py.contains Py.replace Py.endswith Py.int rbind].
    destruct (existsb _ l); [now right|].
    destruct (existsb _ l); [now right|]. cbn [rbind].
    destruct (existsb _ l); [now right | now left].
  - right. unfold Duration.convert_duration.
    cbn [Py.contains Py.replace Py.endswith Py.int rbind].
    destruct (Py.has_key "km" d); [now right|].
    destruct (Py.has_key "m" d); [now right|]. cbn [rbind].
    destruct (Py.has_key "s" d); [now right | now left].
Qed.

(** X6.  What [convert_duration] returns for a string is a float when
    the string contains "km" and an integer otherwise, and in a string
    without "km" the letter "m" anywhere makes the result a multiple of
    60: the test [not duration.endswith("km")] never decides. *)
Theorem convert_duration_result_kind (s : string) (v : pyval) :
  Duration.convert_duration (PStr s) = Ret v ->
  if Str.contains "km" s then exists f, v = PFloat f
  else exists z, v = PInt z /\ (Str.contains "m" s = true -> (60 | z)).
Proof. apply ConvertFacts.convert_duration_shape. Qed.

(** "90m" is an integer number of seconds, a multiple of 60. *)
Lemma convert_duration_result_kind_witness :
  exists z, PInt 5400 = PInt z /\ (Str.contains "m" "90m" = true -> (60 | z)).
Proof.
  apply (convert_duration_result_kind "90m" (PInt 5400)). reflexivity.
Defined.

(** X7.  From well-formed steps (mappings with a power and a duration
    string in minutes, seconds or bare seconds) [post_events] builds
    this payload: the start date followed by "T00:00:00", the category
    "WORKOUT", the name, one description line per step joined by
    newlines and stripped, the type and target inferred from the name,
    and as moving time the integer sum of the steps' seconds. *)
Theorem post_events_payload {W : Type} (E : Tools.Env W)
  (start name : string) (d : list (string * pyval)) (steps : list pyval) :
  Py.lookup "steps" d = Some (PList steps) ->
  Forall Safe.step_ok steps ->
  Tools.final_data E start (PStr name) (PDict d)
  = Ret (PDict
           [("start_date_local", PStr (start ++ "T00:00:00"));
            ("category", PStr "WORKOUT");
            ("name", PStr name);
            ("description",
             PStr (Str.strip (Str.join Tools.nl (map (StepText.line E) steps))));
            ("type", PStr (if Str.contains "Bike" name then "Ride"
                           else if Str.contains "Run" name then "Run"
                           else "Swim"));
            ("target", PStr (if Str.contains "Power" name then "POWER"
                             else if Str.contains "pace" name then "PACE"
                             else if Str.contains "hr" name then "HR"
                             else "AUTO"));
            ("moving_time", PInt (StepText.total_seconds steps))]).
Proof.
  intros Hsteps Hok. unfold Tools.final_data.
  cbn [Py.getitem rbind]. rewrite Hsteps. cbn [rbind Py.iter].
  rewrite (MovingTimeFacts.description_lines_map E steps Hok).
  rewrite (MovingTimeFacts.moving_time_sum steps Hok 0).
  cbn [rbind Py.contains Z.add].
  destruct (Str.contains "Bike" name); cbn [rbind];
    destruct (Str.contains "Power" name); cbn [rbind];
    try destruct (Str.contains "pace" name); cbn [rbind];
    reflexivity.
Qed.

(** The two-step workout: 15 and 3 minutes make 1080 seconds. *)
Lemma post_events_payload_witness :
  Tools.final_data (Demo.env (mkConfig "key" "i1")) "2025-01-14"
    (PStr "Run - pace work") Workout.two_steps
  = Ret (PDict
           [("start_date_local", PStr "2025-01-14T00:00:00");
            ("category", PStr "WORKOUT");
            ("name", PStr "Run - pace work");
            ("description", PStr ("- 15m 80%" ++ Tools.nl ++ "- 3m 110%"));
            ("type", PStr "Run");
            ("target", PStr "PACE");
            ("moving_time", PInt 1080)]).
Proof.
  etransitivity.
  - apply (post_events_payload (Demo.env (mkConfig "key" "i1")) "2025-01-14"
             "Run - pace work" _
             [PDict [("duration", PStr "15m"); ("power", PStr "80%")];
              PDict [("duration", PStr "3m"); ("power", PStr "110%")]]).
    + reflexivity.
    + repeat constructor.
      * exists [("duration", PStr "15m"); ("power", PStr "80%")],
          "15m", (PStr "80%"), 900. repeat split; reflexivity.
      * exists [("duration", PStr "3m"); ("power", PStr "110%")],
          "3m", (PStr "110%"), 180. repeat split; reflexivity.
  - vm_compute. reflexivity.
Defined.

(** X8.  The moving time [post_events] sums is a float exactly when
    some step gives its duration with "km", and an integer otherwise:
    one distance among the steps turns the whole total, seconds
    included, into a float. *)
Theorem moving_time_float_iff_km (steps : list pyval) (total : pyval) :
  Tools.moving_time_from (PInt 0) steps = Ret total ->
  (StepText.is_float total = true /\ StepText.any_km steps = true)
  \/ (StepText.is_int total = true /\ StepText.any_km steps = false).
Proof. apply MovingTimeFacts.moving_time_kind. Qed.

(** Fifteen minutes and one kilometre: 1900.0. *)
Lemma moving_time_float_iff_km_witness :
  StepText.is_float (PFloat (Num.float_of_Z 1900)) = true
  /\ StepText.any_km
       [PDict [("duration", PStr "15m")]; PDict [("duration", PStr "1km")]]
     = true.
Proof.
  destruct (moving_time_float_iff_km
              [PDict [("duration", PStr "15m")]; PDict [("duration", PStr "1km")]]
              (PFloat (Num.float_of_Z 1900)))
    as [H|[H _]].
  - vm_compute. reflexivity.
  - exact H.
  - discriminate H.
Defined.

(** X9.  With credentials in place, [get_events] makes one GET for
    [/athlete/{id}/events] with the two dates and, of a list payload,
    renders the items that are mappings, in their order, under the
    header "Events:"; an item that is no mapping is skipped without a
    trace, so a list without mappings gives the bare header, and a
    payload that is neither a non-empty list nor marked as an error
    gives the "No events found" text. *)
Theorem get_events_outcome {W : Type} (E : Tools.Env W)
  (athlete_id api_key start_date end_date : option string)
  (st : Tools.state W) (start end_ : string) (r : res pyval) (w' : W) :
  let id := Tools.resolve athlete_id (ATHLETE_ID (Tools.settings E)) in
  let key := Tools.resolve api_key (API_KEY (Tools.settings E)) in
  let req :=
    Http.mkrequest Http.GET ("/athlete/" ++ id ++ "/events") key
      (Some [("oldest", PStr start); ("newest", PStr end_)]) None in
  id <> "" -> key <> "" ->
  Tools.date_or E start_date Some st = (Ret start, st) ->
  Tools.date_or E end_date (Dates.plus_days 30) st = (Ret end_, st) ->
  Tools.make_intervals_request E req (Tools.world st) = (r, w') ->
  Tools.get_events E athlete_id api_key start_date end_date st
  = (match r with
     | Ret result => Ret (PStr (Texts.events E id result))
     | Raise e => Raise e
     end,
     Tools.mkstate w' (Tools.calls st ++ [req])%list).
Proof. apply TextFacts.get_events_run. Qed.

(** Two events around an item that is no mapping, for the default
    window of thirty days from today. *)
Lemma get_events_outcome_witness :
  Tools.get_events (Demo.env (mkConfig "key" "i1")) None None None None
    (Demo.start [PList [PDict [("name", PStr "Race")]; PInt 3;
                        PDict [("name", PStr "Long run")]]])
  = (Ret (PStr ("Events:" ++ Tools.nl ++ Tools.nl
                ++ "Event Race" ++ Tools.nl ++ Tools.nl
                ++ "Event Long run" ++ Tools.nl ++ Tools.nl)),
     Tools.mkstate []
       [Http.mkrequest Http.GET "/athlete/i1/events" "key"
          (Some [("oldest", PStr "2025-01-14"); ("newest", PStr "2025-02-13")])
          None]).
Proof.
  etransitivity.
  - apply (get_events_outcome (Demo.env (mkConfig "key" "i1"))
             None None None None _ "2025-01-14" "2025-02-13"
             (Ret (PList [PDict [("name", PStr "Race")]; PInt 3;
                          PDict [("name", PStr "Long run")]])) []);
      try reflexivity; discriminate.
  - vm_compute. reflexivity.
Defined.

(** X10.  With credentials in place, [get_event_by_id] makes one GET for
    [/athlete/{id}/event/{event_id}] and formats the payload only when
    it is a non-empty mapping without an "error" key; an empty payload
    gives the "No details found" text and any other payload, a list of
    events included, the "Invalid event format" text. *)
Theorem get_event_by_id_outcome {W : Type} (E : Tools.Env W)
  (event_id : string) (athlete_id api_key : option string)
  (st : Tools.state W) (r : res pyval) (w' : W) :
  let id := Tools.resolve athlete_id (ATHLETE_ID (Tools.settings E)) in
  let key := Tools.resolve api_key (API_KEY (Tools.settings E)) in
  let req :=
    Http.mkrequest Http.GET ("/athlete/" ++ id ++ "/event/" ++ event_id) key
      None None in
  id <> "" -> key <> "" ->
  Tools.make_intervals_request E req (Tools.world st) = (r, w') ->
  Tools.get_event_by_id E event_id athlete_id api_key st
  = (match r with
     | Ret result => Ret (PStr (Texts.event E event_id result))
     | Raise e => Raise e
     end,
     Tools.mkstate w' (Tools.calls st ++ [req])%list).
Proof. apply TextFacts.get_event_by_id_run. Qed.

(** A list holding the event is not accepted. *)
Lemma get_event_by_id_outcome_witness :
  Tools.get_event_by_id (Demo.env (mkConfig "key" "i1")) "e7" None None
    (Demo.start [PList [PDict [("name", PStr "Race")]]])
  = (Ret (PStr "Invalid event format for event e7."),
     Tools.mkstate []
       [Http.mkrequest Http.GET "/athlete/i1/event/e7" "key" None None]).
Proof.
  etransitivity.
  - apply (get_event_by_id_outcome (Demo.env (mkConfig "key" "i1")) "e7"
             None None _ (Ret (PList [PDict [("name", PStr "Race")]])) []);
      try reflexivity; discriminate.
  - vm_compute. reflexivity.
Defined.

(** X11.  With an API key in place, [get_activity_intervals] makes one
    GET for [/activity/{id}/intervals] and formats the payload only
    when it is a mapping, without an "error" key, that has an
    [icu_intervals] or an [icu_groups] key; a list is never accepted,
    whatever it holds. *)
Theorem get_activity_intervals_outcome {W : Type} (E : Tools.Env W)
  (activity_id : string) (api_key : option string)
  (st : Tools.state W) (r : res pyval) (w' : W) :
  let key := Tools.resolve api_key (API_KEY (Tools.settings E)) in
  let req :=
    Http.mkrequest Http.GET ("/activity/" ++ activity_id ++ "/intervals") key
      None None in
  key <> "" ->
  Tools.make_intervals_request E req (Tools.world st) = (r, w') ->
  Tools.get_activity_intervals E activity_id api_key st
  = (match r with
     | Ret result => Ret (PStr (Texts.intervals E activity_id result))
     | Raise e => Raise e
     end,
     Tools.mkstate w' (Tools.calls st ++ [req])%list).
Proof. apply TextFacts.get_activity_intervals_run. Qed.

(** A mapping with groups only is formatted. *)
Lemma get_activity_intervals_outcome_witness :
  Tools.get_activity_intervals (Demo.env (mkConfig "key" "i1")) "a1" None
    (Demo.start [PDict [("name", PStr "Ride"); ("icu_groups", PList [])]])
  = (Ret (PStr "Intervals Ride"),
     Tools.mkstate []
       [Http.mkrequest Http.GET "/activity/a1/intervals" "key" None None]).
Proof.
  etransitivity.
  - apply (get_activity_intervals_outcome (Demo.env (mkConfig "key" "i1"))
             "a1" None _
             (Ret (PDict [("name", PStr "Ride"); ("icu_groups", PList [])]))
             []);
      try reflexivity; discriminate.
  - vm_compute. reflexivity.
Defined.

(** X12.  With an API key in place, [get_activity_details] makes one GET
    for [/activity/{id}]; of a list payload it describes the first item
    and ignores the rest, and a payload (or first item) that is no
    mapping gives the "Invalid activity format" text. *)
Theorem get_activity_details_outcome {W : Type} (E : Tools.Env W)
  (activity_id : string) (api_key : option string)
  (st : Tools.state W) (r : res pyval) (w' : W) :
  let key := Tools.resolve api_key (API_KEY (Tools.settings E)) in
  let req :=
    Http.mkrequest Http.GET ("/activity/" ++ activity_id) key None None in
  key <> "" ->
  Tools.make_intervals_request E req (Tools.world st) = (r, w') ->
  Tools.get_activity_details E activity_id api_key st
  = (match r with
     | Ret result => Texts.details E activity_id result
     | Raise e => Raise e
     end,
     Tools.mkstate w' (Tools.calls st ++ [req])%list).
Proof. apply TextFacts.get_activity_details_run. Qed.

(** Of two activities in a list, the first is described. *)
Lemma get_activity_details_outcome_witness :
  Tools.get_activity_details (Demo.env (mkConfig "key" "i1")) "a1" None
    (Demo.start [PList [PDict [("name", PStr "Ride")];
                        PDict [("name", PStr "Run")]]])
  = (Ret (PStr "Activity Ride"),
     Tools.mkstate []
       [Http.mkrequest Http.GET "/activity/a1" "key" None None]).
Proof.
  etransitivity.
  - apply (get_activity_details_outcome (Demo.env (mkConfig "key" "i1"))
             "a1" None _
             (Ret (PList [PDict [("name", PStr "Ride")];
                          PDict [("name", PStr "Run")]])) []);
      try reflexivity; discriminate.
  - vm_compute. reflexivity.
Defined.

(** X13.  Once its payload is built, [post_events] makes one POST for
    [/athlete/{id}/events] carrying that payload.  A non-empty mapping
    without an "error" key is handed back as it is; a mapping with an
    "error" key gives a text with its message and the payload; an empty
    result gives the "No events posted" text, which names the
    [athlete_id] argument, not the id that was used; any other result
    gives the "format error" text. *)
Theorem post_events_outcome {W : Type} (E : Tools.Env W)
  (athlete_id api_key start_date name : option string)
  (data : option (list (string * pyval))) (st : Tools.state W)
  (start : string) (payload : pyval) (r : res pyval) (w' : W) :
  let id := Tools.resolve athlete_id (ATHLETE_ID (Tools.settings E)) in
  let key := Tools.resolve api_key (API_KEY (Tools.settings E)) in
  let req :=
    Http.mkrequest Http.POST ("/athlete/" ++ id ++ "/events") key None
      (Some payload) in
  id <> "" -> key <> "" ->
  Tools.date_or E start_date Some st = (Ret start, st) ->
  Tools.final_data E start (Tools.of_option name) (Safe.argument data)
  = Ret payload ->
  Tools.post_intervals_data E req (Tools.world st) = (r, w') ->
  Tools.post_events E athlete_id api_key start_date name data st
  = (match r with
     | Ret result => Ret (Texts.posted E athlete_id start payload result)
     | Raise e => Raise e
     end,
     Tools.mkstate w' (Tools.calls st ++ [req])%list).
Proof. apply TextFacts.post_events_run. Qed.

(** An empty answer, with the athlete id taken from the defaults: the
    text names "None". *)
Lemma post_events_outcome_witness :
  fst (Tools.post_events (Demo.env (mkConfig "key" "i1")) None None
         (Some "2025-01-14") (Some "Bike - VO2 Max")
         (Some [("steps", PList [])]) (Demo.start [PList []]))
  = Ret (PStr "No events posted for athlete None.").
Proof.
  erewrite (post_events_outcome (Demo.env (mkConfig "key" "i1")) None None
              (Some "2025-01-14") (Some "Bike - VO2 Max")
              (Some [("steps", PList [])]) _ "2025-01-14" _ (Ret (PList [])) []);
    try reflexivity; discriminate.
Defined.

(** X14.  No handler retries or fans out: whatever the gateway answers
    or raises, [get_events], [get_event_by_id], [get_activity_details],
    [get_activity_intervals] and [post_events] make at most one gateway
    call and [get_activities] at most two, and every call carries the
    API key that was resolved for the invocation. *)
Theorem handlers_call_counts {W : Type} (E : Tools.Env W)
  (athlete_id api_key : option string) :
  let key := Tools.resolve api_key (API_KEY (Tools.settings E)) in
  (forall start_date end_date,
      Texts.at_most 1 key
        (Tools.get_events E athlete_id api_key start_date end_date))
  /\ (forall event_id,
         Texts.at_most 1 key
           (Tools.get_event_by_id E event_id athlete_id api_key))
  /\ (forall activity_id,
         Texts.at_most 1 key (Tools.get_activity_details E activity_id api_key))
  /\ (forall activity_id,
         Texts.at_most 1 key
           (Tools.get_activity_intervals E activity_id api_key))
  /\ (forall start_date name data,
         Texts.at_most 1 key
           (Tools.post_events E athlete_id api_key start_date name data))
  /\ (forall start_date end_date limit include_unnamed,
         Texts.at_most 2 key
           (Tools.get_activities E athlete_id api_key start_date end_date
              limit include_unnamed)).
Proof.
  intros key. repeat split; intros.
  - apply CallFacts.get_events_calls.
  - apply CallFacts.get_event_by_id_calls.
  - apply CallFacts.get_activity_details_calls.
  - apply CallFacts.get_activity_intervals_calls.
  - apply CallFacts.post_events_calls.
  - apply CallFacts.get_activities_calls.
Qed.

(** X15.  With [include_unnamed=True], [get_activities] makes a single
    request, asking for [limit] activities rather than three times as
    many, filters nothing and makes no supplementary fetch: the
    mappings of the payload are selected in their order, unnamed ones
    included, cut to [limit]. *)
Theorem get_activities_unfiltered {W : Type} (E : Tools.Env W)
  (athlete_id api_key start_date end_date : option string) (limit : Z)
  (st : Tools.state W) (start end_ : string) (result : pyval) (w1 : W) :
  let id := Tools.resolve athlete_id (ATHLETE_ID (Tools.settings E)) in
  let key := Tools.resolve api_key (API_KEY (Tools.settings E)) in
  let first := Window.request id key start end_ limit in
  id <> "" -> key <> "" ->
  Tools.date_or E start_date (Dates.minus_days 30) st = (Ret start, st) ->
  Tools.date_or E end_date Some st = (Ret end_, st) ->
  Tools.make_intervals_request E first (Tools.world st) = (Ret result, w1) ->
  Tools.is_error result = false ->
  Tools.normalize result <> [] ->
  Tools.select_activities E athlete_id api_key start_date end_date limit
    true st
  = (Ret (Unfiltered.selected id
            (Tools.slice_to (Tools.normalize result) limit)),
     Tools.mkstate w1 (Tools.calls st ++ [first])%list).
Proof.
  intros id key first Hid Hkey Hstart Hend H1 Herr Hnorm.
  destruct (SelectFacts.select_first_fetch E athlete_id api_key start_date
              end_date limit true st start end_ result w1
              Hid Hkey Hstart Hend H1 Herr Hnorm) as (a0 & l0 & Hn & ->).
  rewrite Hn. cbn [negb]. unfold Tools.bind, Tools.ret.
  unfold Unfiltered.selected.
  now destruct (Tools.slice_to (a0 :: l0) limit).
Qed.

(** Three activities for a limit of two: the unnamed one is kept. *)
Lemma get_activities_unfiltered_witness :
  Tools.select_activities (Demo.env (mkConfig "key" "i1"))
    None None (Some "2025-01-01") (Some "2025-01-10") 2 true
    (Demo.start [PList [PDict [("name", PStr "Unnamed")];
                        PDict [("name", PStr "Ride")];
                        PDict [("name", PStr "Run")]]])
  = (Ret (Tools.Activities [PDict [("name", PStr "Unnamed")];
                            PDict [("name", PStr "Ride")]]),
     Tools.mkstate []
       [Window.request "i1" "key" "2025-01-01" "2025-01-10" 2]).
Proof.
  etransitivity.
  - apply (get_activities_unfiltered (Demo.env (mkConfig "key" "i1"))
             None None (Some "2025-01-01") (Some "2025-01-10") 2 _
             "2025-01-01" "2025-01-10"
             (PList [PDict [("name", PStr "Unnamed")];
                     PDict [("name", PStr "Ride")];
                     PDict [("name", PStr "Run")]]) []);
      try reflexivity; discriminate.
  - vm_compute. reflexivity.
Defined.

(** X16.  With [include_unnamed=False], when at least [limit] named
    activities remain after filtering, [get_activities] makes no
    supplementary fetch: its single request asks for three times
    [limit] and the first [limit] named activities are selected. *)
Theorem get_activities_enough_named {W : Type} (E : Tools.Env W)
  (athlete_id api_key start_date end_date : option string) (limit : Z)
  (st : Tools.state W) (start end_ : string) (result : pyval) (w1 : W) :
  let id := Tools.resolve athlete_id (ATHLETE_ID (Tools.settings E)) in
  let key := Tools.resolve api_key (API_KEY (Tools.settings E)) in
  let first := Window.request id key start end_ (limit * 3) in
  let named := filter Named.kept (Tools.normalize result) in
  id <> "" -> key <> "" ->
  Tools.date_or E start_date (Dates.minus_days 30) st = (Ret start, st) ->
  Tools.date_or E end_date Some st = (Ret end_, st) ->
  Tools.make_intervals_request E first (Tools.world st) = (Ret result, w1) ->
  Tools.is_error result = false ->
  Tools.normalize result <> [] ->
  limit <= Z.of_nat (List.length named) ->
  Tools.select_activities E athlete_id api_key start_date end_date limit
    false st
  = (Ret (Window.selected id (Tools.slice_to named limit)),
     Tools.mkstate w1 (Tools.calls st ++ [first])%list).
Proof.
  intros id key first named Hid Hkey Hstart Hend H1 Herr Hnorm Hlen.
  destruct (SelectFacts.select_first_fetch E athlete_id api_key start_date
              end_date limit false st start end_ result w1
              Hid Hkey Hstart Hend H1 Herr Hnorm) as (a0 & l0 & Hn & ->).
  pose proof (NormalizeFacts.normalize_dicts result) as Hd.
  subst named. rewrite Hn in *. cbn [negb].
  unfold Tools.bind, Tools.lift.
  rewrite (FilterFacts.filterM_named _ Hd).
  apply Z.ltb_ge in Hlen. rewrite Hlen. unfold Tools.ret.
  unfold Window.selected.
  now destruct (Tools.slice_to (filter Named.kept (a0 :: l0)) limit).
Qed.

(** Two named activities among three, for a limit of two. *)
Lemma get_activities_enough_named_witness :
  Tools.select_activities (Demo.env (mkConfig "key" "i1"))
    None None (Some "2025-01-01") (Some "2025-01-10") 2 false
    (Demo.start [PList [PDict [("name", PStr "Unnamed")];
                        PDict [("name", PStr "Ride")];
                        PDict [("name", PStr "Run")]]])
  = (Ret (Tools.Activities [PDict [("name", PStr "Ride")];
                            PDict [("name", PStr "Run")]]),
     Tools.mkstate []
       [Window.request "i1" "key" "2025-01-01" "2025-01-10" 6]).
Proof.
  etransitivity.
  - apply (get_activities_enough_named (Demo.env (mkConfig "key" "i1"))
             None None (Some "2025-01-01") (Some "2025-01-10") 2 _
             "2025-01-01" "2025-01-10"
             (PList [PDict [("name", PStr "Unnamed")];
                     PDict [("name", PStr "Ride")];
                     PDict [("name", PStr "Run")]]) []);
      try reflexivity; discriminate.
  - vm_compute. reflexivity.
Defined.

(** X17.  Whatever the payloads, the activities [get_activities] renders
    are a non-empty list of mappings, no more than [limit] of them when
    [limit] is not negative, and the text is the header "Activities:"
    followed by one summary per activity: the "Invalid activity format"
    line of the rendering loop is never produced. *)
Theorem rendered_activities_bounded {W : Type} (E : Tools.Env W)
  (athlete_id api_key start_date end_date : option string) (limit : Z)
  (include_unnamed : bool) (st st' : Tools.state W) (acts : list pyval) :
  Tools.select_activities E athlete_id api_key start_date end_date limit
    include_unnamed st = (Ret (Tools.Activities acts), st') ->
  acts <> []
  /\ Zones.all_dicts acts
  /\ (0 <= limit -> Z.of_nat (List.length acts) <= limit)
  /\ Tools.render_activities E acts
     = "Activities:" ++ Tools.nl ++ Tools.nl
       ++ Texts.glue
            (map (fun a => Tools.format_activity_summary E a ++ Tools.nl) acts).
Proof.
  intros H.
  destruct (SelectFacts.selected_slice E _ _ _ _ _ _ _ _ _ H)
    as (activities & Hs & Hne & Hall).
  assert (Hacts : Zones.all_dicts acts)
    by (rewrite Hs; now apply FilterFacts.slice_to_Forall).
  repeat split; trivial.
  - intros Hl. rewrite Hs. now apply SelectFacts.slice_to_length.
  - unfold Tools.render_activities.
    now rewrite (SelectFacts.rendered_dicts E acts Hacts).
Qed.

(** Three mappings and a number, for a limit of two. *)
Lemma rendered_activities_bounded_witness :
  Z.of_nat (List.length [PDict [("name", PStr "Unnamed")];
                         PDict [("name", PStr "Ride")]]) <= 2.
Proof.
  refine (proj1 (proj2 (proj2
    (rendered_activities_bounded (Demo.env (mkConfig "key" "i1"))
       None None (Some "2025-01-01") (Some "2025-01-10") 2 true
       (Demo.start [PList [PDict [("name", PStr "Unnamed")]; PInt 7;
                           PDict [("name", PStr "Ride")];
                           PDict [("name", PStr "Run")]]])
       (Tools.mkstate []
          [Window.request "i1" "key" "2025-01-01" "2025-01-10" 2])
       [PDict [("name", PStr "Unnamed")]; PDict [("name", PStr "Ride")]]
       _))) _).
  - vm_compute. reflexivity.
  - vm_compute. discriminate.
Defined.

(** X18.  With [include_unnamed=False], when the first payload holds
    activities and yet a message comes back instead of a list, the
    message is the one that recommends retrying with
    [include_unnamed=True]. *)
Theorem no_named_activities_hint {W : Type} (E : Tools.Env W)
  (athlete_id api_key start_date end_date : option string) (limit : Z)
  (st st' : Tools.state W) (start end_ : string) (result : pyval) (w1 : W)
  (text : string) :
  let id := Tools.resolve athlete_id (ATHLETE_ID (Tools.settings E)) in
  let key := Tools.resolve api_key (API_KEY (Tools.settings E)) in
  let first := Window.request id key start end_ (limit * 3) in
  id <> "" -> key <> "" ->
  Tools.date_or E start_date (Dates.minus_days 30) st = (Ret start, st) ->
  Tools.date_or E end_date Some st = (Ret end_, st) ->
  Tools.make_intervals_request E first (Tools.world st) = (Ret result, w1) ->
  Tools.is_error result = false ->
  Tools.normalize result <> [] ->
  Tools.select_activities E athlete_id api_key start_date end_date limit
    false st = (Ret (Tools.Message text), st') ->
  Str.contains "include_unnamed=True" text = true.
Proof.
  intros id key first Hid Hkey Hstart Hend H1 Herr Hnorm H.
  destruct (SelectFacts.select_first_fetch E athlete_id api_key start_date
              end_date limit false st start end_ result w1
              Hid Hkey Hstart Hend H1 Herr Hnorm) as (a0 & l0 & Hn & Hrun).
  rewrite Hrun in H. clear Hrun.
  apply MonadFacts.bind_inv in H. destruct H as (activities & st1 & _ & H).
  destruct (Tools.slice_to activities limit); [|discriminate].
  apply MonadFacts.ret_inv in H. destruct H as [H _].
  apply SelectFacts.message_text in H. rewrite <- H.
  apply SelectFacts.contains_app_right, SelectFacts.contains_app_right.
  vm_compute. reflexivity.
Qed.

(** Only unnamed activities in both windows. *)
Lemma no_named_activities_hint_witness :
  Str.contains "include_unnamed=True"
    ("No named activities found for athlete i1 in the specified date range. Try with include_unnamed=True to see all activities.")
  = true.
Proof.
  apply (no_named_activities_hint (Demo.env (mkConfig "key" "i1"))
           None None (Some "2025-01-01") (Some "2025-01-10") 2
           (Demo.start [PList [PDict [("name", PStr "Unnamed")]];
                        PList [PDict [("distance", PInt 3)]]])
           (Tools.mkstate []
              [Window.request "i1" "key" "2025-01-01" "2025-01-10" 6;
               Window.request "i1" "key" "2024-11-02" "2024-12-31" 6])
           "2025-01-01" "2025-01-10"
           (PList [PDict [("name", PStr "Unnamed")]])
           [PList [PDict [("distance", PInt 3)]]]);
    try reflexivity; try discriminate.
Defined.

(** X19.  With the start date left out, the date arithmetic of the
    supplementary fetch cannot fail: provided the gateway returns and
    today is a calendar date with ninety days before it (and thirty
    after), [get_activities] returns a value, whatever the other
    arguments are. *)
Theorem default_start_always_returns {W : Type} (E : Tools.Env W)
  (athlete_id api_key start_date end_date : option string) (limit : Z)
  (include_unnamed : bool) (st : Tools.state W) :
  Safe.gateway_returns E ->
  Safe.clock_in_range E ->
  Unfiltered.clock_has_margin E ->
  Tools.absent start_date = true ->
  exists v st',
    Tools.get_activities E athlete_id api_key start_date end_date limit
      include_unnamed st = (Ret v, st').
Proof.
  intros Hgw Hclock Hmargin Habs.
  destruct (Tools.get_activities E athlete_id api_key start_date end_date
              limit include_unnamed st) as [[v|e] st'] eqn:H;
    [now exists v, st'|].
  exfalso.
  destruct (SafeFacts.get_activities_raise E Hgw Hclock _ _ _ _ _ _ _ _ _ H)
    as (_ & start & Hstart & Hbad).
  destruct (SelectFacts.default_start_is_fine E start_date st start
              Hmargin Habs Hstart) as (d & d60 & Hd & H60).
  destruct Hbad as [[Hnone _]|(d' & Hd' & Hnone & _)]; congruence.
Qed.

(** The scripted deployment, whose clock reads 2025-01-14. *)
Lemma default_start_always_returns_witness :
  exists v st',
    Tools.get_activities (Demo.env (mkConfig "key" "i1"))
      None None None None 5 false
      (Demo.start [PList [PDict [("name", PStr "Ride")]]])
    = (Ret v, st').
Proof.
  apply (default_start_always_returns (Demo.env (mkConfig "key" "i1"))).
  - intros req w. split; destruct w; cbn; now eexists _, _.
  - intros w. split; vm_compute; discriminate.
  - intros w. split; [reflexivity | vm_compute; discriminate].
  - reflexivity.
Defined.
